(** * universal-llm-chatbot: admission control, settings dialog and profile store

    A shallow embedding of the bot's session-consistency core:
    - [models/user_data.py]      the [UserData] dataclass,
    - [database/user_data_db.py] the cache-fronted profile store,
    - [bot/user_state.py]        the per-user dialog state machine,
    - [bot/telegram_bot.py]      the decorators, the handlers of the
                                 settings dialog and the administration
                                 commands.

    Clock readings and limiter levels are rationals ([Q]); a Python float
    is a rational, an infinity or NaN.  Exceptions are values: every
    operation returns a result together with the state it leaves behind,
    because a raised exception does not undo earlier writes.  The three
    libraries the code builds on (cachetools, aiolimiter, transitions) are
    modelled as far as the code uses them.  Handing a message to Telegram
    is taken to succeed, and so is executing SQL on the values the table
    holds; an integer typed by a user may not fit a 64-bit column, and
    sqlite3 then raises [OverflowError]. *)

From Stdlib Require Import ZArith QArith Qminmax Lqa Lia Ascii String List.
From stdpp Require Import base option list strings gmap sorting.

Local Open Scope Z_scope.

(** ** Python prelude *)

(** The exception classes the modelled code can raise. *)
Inductive exn : Set :=
| TypeError
| ValueError
| KeyError
| IndexError
| AttributeError
| OverflowError
| MachineError.

#[global] Instance exn_eq_dec : EqDecision exn.
Proof. solve_decision. Defined.

(** What running a piece of code yields: a value, a raised exception, or a
    task parked inside [AsyncLimiter.acquire] waiting for capacity. *)
Inductive res (A : Type) : Type :=
| Val (a : A)
| Exc (e : exn)
| Blocked.
Arguments Val {A} a.
Arguments Exc {A} e.
Arguments Blocked {A}.

(** State-and-exception monad: the state is threaded through failures. *)
Definition M (S A : Type) : Type := S -> res A * S.

Definition ret {S A} (a : A) : M S A := fun s => (Val a, s).

Definition bind {S A B} (m : M S A) (k : A -> M S B) : M S B :=
  fun s =>
    match m s with
    | (Val a, s') => k a s'
    | (Exc e, s') => (Exc e, s')
    | (Blocked, s') => (Blocked, s')
    end.

Definition raise {S A} (e : exn) : M S A := fun s => (Exc e, s).
Definition gets {S A} (f : S -> A) : M S A := fun s => (Val (f s), s).
Definition modify {S} (f : S -> S) : M S unit := fun s => (Val tt, f s).

(** Runs a computation on a component [get s] of the state and stores the
    component back with [set]. *)
Definition zoom {S T A} (get : S -> T) (set : T -> S -> S) (m : M T A) : M S A :=
  fun s => let '(r, t) := m (get s) in (r, set t s).

(** The monad is used through stdpp's notations [x ← m; k] and [m;; k]. *)
#[global] Instance M_ret {S} : MRet (M S) := fun A a => ret a.
#[global] Instance M_bind {S} : MBind (M S) := fun A B k m => bind m k.

Definition Qltb (a b : Q) : bool := negb (Qle_bool b a).

(** [l[start:]] with Python's treatment of negative and out-of-range
    indices: a negative start counts from the end, and both are clamped. *)
Definition slice_from {A} (start : Z) (l : list A) : list A :=
  let n := Z.of_nat (length l) in
  let s := if start <? 0 then Z.max (start + n) 0 else Z.min start n in
  drop (Z.to_nat s) l.

(** The text after the first occurrence of the separator character, as in
    [s.split(sep, 1)[1]]; [None] when the separator does not occur (the index
    [1] is then out of range). *)
Fixpoint after_first (sep : Ascii.ascii) (s : string) : option string :=
  match s with
  | EmptyString => None
  | String c rest => if Ascii.eqb c sep then Some rest else after_first sep rest
  end.

Definition upper (c : Ascii.ascii) : Ascii.ascii :=
  let n := Ascii.nat_of_ascii c in
  if ((97 <=? n) && (n <=? 122))%nat then Ascii.ascii_of_nat (n - 32) else c.

Definition lower (c : Ascii.ascii) : Ascii.ascii :=
  let n := Ascii.nat_of_ascii c in
  if ((65 <=? n) && (n <=? 90))%nat then Ascii.ascii_of_nat (n + 32) else c.

Fixpoint lowercase (s : string) : string :=
  match s with
  | EmptyString => EmptyString
  | String c rest => String (lower c) (lowercase rest)
  end.

(** [str.capitalize] on ASCII text. *)
Definition capitalize (s : string) : string :=
  match s with
  | EmptyString => EmptyString
  | String c rest => String (upper c) (lowercase rest)
  end.

(** A Python float: a finite value, an infinity or NaN. *)
Inductive pyfloat : Type :=
| Finite (q : Q)
| Inf (negative : bool)
| NaN.

(** [a <= b] on floats: false whenever NaN is involved. *)
Definition pyfloat_le (a b : pyfloat) : bool :=
  match a, b with
  | NaN, _ | _, NaN => false
  | Inf true, _ => true
  | _, Inf false => true
  | Finite p, Finite q => Qle_bool p q
  | _, _ => false
  end.

(** [a == b] on floats: NaN equals nothing. *)
Definition pyfloat_eqb (a b : pyfloat) : bool :=
  match a, b with
  | Finite p, Finite q => Qeq_bool p q
  | Inf s, Inf s' => bool_decide (s = s')
  | _, _ => false
  end.

(** [try: m except E: h] for one exception class [E]. *)
Definition try_except {S A} (m : M S A) (E : exn) (h : M S A) : M S A :=
  fun s =>
    match m s with
    | (Exc e, s') => if bool_decide (e = E) then h s' else (Exc e, s')
    | r => r
    end.

(** [try: m except Exception: h] *)
Definition try_except_all {S A} (m : M S A) (h : M S A) : M S A :=
  fun s =>
    match m s with
    | (Exc e, s') => h s'
    | r => r
    end.

(** ** models/user_data.py *)

(** One turn of the conversation memory: [{"role": .., "content": ..}]. *)
Record Turn : Set := { role : string; content : string }.

(** The values the modelled code reads from [config.yml] and, in the last
    two fields, from [localization.yml]: the languages that have a table,
    and for a language and a key the names of the replacement fields
    ([{param}], [{value}], ...) of the template stored there (none for a key
    without a template, which is then its own text). *)
Record Config : Type := {
  cfg_default_model : string;
  cfg_system_prompt : string;
  cfg_temperature : pyfloat;
  cfg_top_p : pyfloat;
  cfg_max_tokens : Z;
  cfg_language : string;
  cfg_speaker : string;
  cfg_max_message_history_num : Z;
  cfg_max_cache_size : Z;
  cfg_max_ttl : Q;
  cfg_global_max_requests : Q;
  cfg_global_time_frame_seconds : Q;
  cfg_user_max_requests : Q;
  cfg_user_time_frame_seconds : Q;
  cfg_available_models : list string;
  cfg_speakers : list string;
  cfg_whitelist_mode : bool;
  cfg_languages : list string;
  cfg_template_fields : string -> string -> list string
}.

(** The dataclass [UserData]: thirteen fields.  [system_prompt] is an
    option because [update_setting] stores the text of the incoming message
    in it, and a voice message has no text ([None]). *)
Record UserData : Type := {
  user_id : Z;
  message_history : list Turn;
  model : string;
  system_prompt : option string;
  temperature : pyfloat;
  top_p : pyfloat;
  max_tokens : Z;
  language : string;
  speaker : string;
  is_admin : bool;
  is_whitelisted : bool;
  is_blacklisted : bool;
  last_request : option Q
}.

Definition UserData_fields : list string :=
  ["user_id"; "message_history"; "model"; "system_prompt"; "temperature";
   "top_p"; "max_tokens"; "language"; "speaker"; "is_admin";
   "is_whitelisted"; "is_blacklisted"; "last_request"]%string.

(** Keyword arguments the code passes to [UserData(...)].  [kw_user_name] is
    the keyword [user_name=...] that [user_data_db.py] passes. *)
Inductive kwarg : Type :=
| kw_user_id (v : Z)
| kw_user_name (v : option string)
| kw_message_history (v : list Turn)
| kw_model (v : string)
| kw_system_prompt (v : option string)
| kw_temperature (v : pyfloat)
| kw_top_p (v : pyfloat)
| kw_max_tokens (v : Z)
| kw_language (v : string)
| kw_speaker (v : string)
| kw_is_admin (v : bool)
| kw_is_whitelisted (v : bool)
| kw_is_blacklisted (v : bool)
| kw_last_request (v : option Q).

Definition kwarg_name (k : kwarg) : string :=
  match k with
  | kw_user_id _ => "user_id"
  | kw_user_name _ => "user_name"
  | kw_message_history _ => "message_history"
  | kw_model _ => "model"
  | kw_system_prompt _ => "system_prompt"
  | kw_temperature _ => "temperature"
  | kw_top_p _ => "top_p"
  | kw_max_tokens _ => "max_tokens"
  | kw_language _ => "language"
  | kw_speaker _ => "speaker"
  | kw_is_admin _ => "is_admin"
  | kw_is_whitelisted _ => "is_whitelisted"
  | kw_is_blacklisted _ => "is_blacklisted"
  | kw_last_request _ => "last_request"
  end%string.

Definition with_message_history (v : list Turn) (u : UserData) : UserData :=
  {| user_id := user_id u; message_history := v; model := model u;
     system_prompt := system_prompt u; temperature := temperature u;
     top_p := top_p u; max_tokens := max_tokens u; language := language u;
     speaker := speaker u; is_admin := is_admin u;
     is_whitelisted := is_whitelisted u; is_blacklisted := is_blacklisted u;
     last_request := last_request u |}.

Definition with_model (v : string) (u : UserData) : UserData :=
  {| user_id := user_id u; message_history := message_history u; model := v;
     system_prompt := system_prompt u; temperature := temperature u;
     top_p := top_p u; max_tokens := max_tokens u; language := language u;
     speaker := speaker u; is_admin := is_admin u;
     is_whitelisted := is_whitelisted u; is_blacklisted := is_blacklisted u;
     last_request := last_request u |}.

Definition with_system_prompt (v : option string) (u : UserData) : UserData :=
  {| user_id := user_id u; message_history := message_history u;
     model := model u; system_prompt := v; temperature := temperature u;
     top_p := top_p u; max_tokens := max_tokens u; language := language u;
     speaker := speaker u; is_admin := is_admin u;
     is_whitelisted := is_whitelisted u; is_blacklisted := is_blacklisted u;
     last_request := last_request u |}.

Definition with_temperature (v : pyfloat) (u : UserData) : UserData :=
  {| user_id := user_id u; message_history := message_history u;
     model := model u; system_prompt := system_prompt u; temperature := v;
     top_p := top_p u; max_tokens := max_tokens u; language := language u;
     speaker := speaker u; is_admin := is_admin u;
     is_whitelisted := is_whitelisted u; is_blacklisted := is_blacklisted u;
     last_request := last_request u |}.

Definition with_top_p (v : pyfloat) (u : UserData) : UserData :=
  {| user_id := user_id u; message_history := message_history u;
     model := model u; system_prompt := system_prompt u;
     temperature := temperature u; top_p := v; max_tokens := max_tokens u;
     language := language u; speaker := speaker u; is_admin := is_admin u;
     is_whitelisted := is_whitelisted u; is_blacklisted := is_blacklisted u;
     last_request := last_request u |}.

Definition with_max_tokens (v : Z) (u : UserData) : UserData :=
  {| user_id := user_id u; message_history := message_history u;
     model := model u; system_prompt := system_prompt u;
     temperature := temperature u; top_p := top_p u; max_tokens := v;
     language := language u; speaker := speaker u; is_admin := is_admin u;
     is_whitelisted := is_whitelisted u; is_blacklisted := is_blacklisted u;
     last_request := last_request u |}.

Definition with_language (v : string) (u : UserData) : UserData :=
  {| user_id := user_id u; message_history := message_history u;
     model := model u; system_prompt := system_prompt u;
     temperature := temperature u; top_p := top_p u;
     max_tokens := max_tokens u; language := v; speaker := speaker u;
     is_admin := is_admin u; is_whitelisted := is_whitelisted u;
     is_blacklisted := is_blacklisted u; last_request := last_request u |}.

Definition with_speaker (v : string) (u : UserData) : UserData :=
  {| user_id := user_id u; message_history := message_history u;
     model := model u; system_prompt := system_prompt u;
     temperature := temperature u; top_p := top_p u;
     max_tokens := max_tokens u; language := language u; speaker := v;
     is_admin := is_admin u; is_whitelisted := is_whitelisted u;
     is_blacklisted := is_blacklisted u; last_request := last_request u |}.

Definition with_is_admin (v : bool) (u : UserData) : UserData :=
  {| user_id := user_id u; message_history := message_history u;
     model := model u; system_prompt := system_prompt u;
     temperature := temperature u; top_p := top_p u;
     max_tokens := max_tokens u; language := language u;
     speaker := speaker u; is_admin := v;
     is_whitelisted := is_whitelisted u; is_blacklisted := is_blacklisted u;
     last_request := last_request u |}.

Definition with_is_whitelisted (v : bool) (u : UserData) : UserData :=
  {| user_id := user_id u; message_history := message_history u;
     model := model u; system_prompt := system_prompt u;
     temperature := temperature u; top_p := top_p u;
     max_tokens := max_tokens u; language := language u;
     speaker := speaker u; is_admin := is_admin u; is_whitelisted := v;
     is_blacklisted := is_blacklisted u; last_request := last_request u |}.

Definition with_is_blacklisted (v : bool) (u : UserData) : UserData :=
  {| user_id := user_id u; message_history := message_history u;
     model := model u; system_prompt := system_prompt u;
     temperature := temperature u; top_p := top_p u;
     max_tokens := max_tokens u; language := language u;
     speaker := speaker u; is_admin := is_admin u;
     is_whitelisted := is_whitelisted u; is_blacklisted := v;
     last_request := last_request u |}.

Definition with_last_request (v : option Q) (u : UserData) : UserData :=
  {| user_id := user_id u; message_history := message_history u;
     model := model u; system_prompt := system_prompt u;
     temperature := temperature u; top_p := top_p u;
     max_tokens := max_tokens u; language := language u;
     speaker := speaker u; is_admin := is_admin u;
     is_whitelisted := is_whitelisted u; is_blacklisted := is_blacklisted u;
     last_request := v |}.

Definition with_user_id (v : Z) (u : UserData) : UserData :=
  {| user_id := v; message_history := message_history u;
     model := model u; system_prompt := system_prompt u;
     temperature := temperature u; top_p := top_p u;
     max_tokens := max_tokens u; language := language u;
     speaker := speaker u; is_admin := is_admin u;
     is_whitelisted := is_whitelisted u; is_blacklisted := is_blacklisted u;
     last_request := last_request u |}.

(** The field defaults of the dataclass, read from the configuration when
    the class is defined. *)
Definition UserData_defaults (cfg : Config) (uid : Z) : UserData :=
  {| user_id := uid; message_history := [];
     model := cfg_default_model cfg;
     system_prompt := Some (cfg_system_prompt cfg);
     temperature := cfg_temperature cfg; top_p := cfg_top_p cfg;
     max_tokens := cfg_max_tokens cfg; language := cfg_language cfg;
     speaker := cfg_speaker cfg; is_admin := false; is_whitelisted := false;
     is_blacklisted := false; last_request := None |}.

Definition apply_kwarg (k : kwarg) (u : UserData) : UserData :=
  match k with
  | kw_user_id v => with_user_id v u
  | kw_user_name _ => u
  | kw_message_history v => with_message_history v u
  | kw_model v => with_model v u
  | kw_system_prompt v => with_system_prompt v u
  | kw_temperature v => with_temperature v u
  | kw_top_p v => with_top_p v u
  | kw_max_tokens v => with_max_tokens v u
  | kw_language v => with_language v u
  | kw_speaker v => with_speaker v u
  | kw_is_admin v => with_is_admin v u
  | kw_is_whitelisted v => with_is_whitelisted v u
  | kw_is_blacklisted v => with_is_blacklisted v u
  | kw_last_request v => with_last_request v u
  end.

Definition is_field (name : string) : bool :=
  existsb (String.eqb name) UserData_fields.

Definition given_user_id (kws : list kwarg) : option Z :=
  list_find (fun k => String.eqb (kwarg_name k) "user_id" = true) kws
    ≫= fun p => match p.2 with kw_user_id v => Some v | _ => None end.

(** The generated [__init__] of the dataclass, called with keywords only:
    a keyword that names no field is rejected with [TypeError], and so is a
    call without the one field that has no default, [user_id]. *)
Definition UserData_init (cfg : Config) (kws : list kwarg) : exn + UserData :=
  if forallb (fun k => is_field (kwarg_name k)) kws then
    match given_user_id kws with
    | Some uid => inr (foldr apply_kwarg (UserData_defaults cfg uid) kws)
    | None => inl TypeError
    end
  else inl TypeError.

(** [to_dict] is [asdict]: a deep copy with one key per field, so it is
    the record itself. *)
Definition to_dict (u : UserData) : UserData := u.

(** ** cachetools.TTLCache

    The cache of [UserDataDB] is a [TTLCache(maxsize, ttl)] of the
    cachetools library.  The model keeps what the library keeps: for every
    key its value and the clock reading at which it expires, in
    least-recently-used order (oldest first).  Every item has size 1. *)
Module TTLCache.

Record link : Type := { key : Z; expires : Q; value : UserData }.

Record t : Type := { maxsize : Z; ttl : Q; links : list link }.

Definition empty (maxsize : Z) (ttl : Q) : t :=
  {| maxsize := maxsize; ttl := ttl; links := [] |}.

Definition with_links (l : list link) (c : t) : t :=
  {| maxsize := maxsize c; ttl := ttl c; links := l |}.

(** [timer() < link.expires] *)
Definition live (now : Q) (e : link) : bool := Qltb now (expires e).

Definition has_key (k : Z) (e : link) : bool := key e =? k.

Definition find (k : Z) (c : t) : option link :=
  List.find (has_key k) (links c).

Definition remove (k : Z) (l : list link) : list link :=
  List.filter (fun e => negb (has_key k e)) l.

(** [key in cache]: present and not yet expired. *)
Definition contains (now : Q) (k : Z) (c : t) : bool :=
  match find k c with
  | Some e => live now e
  | None => false
  end.

(** [cache[key]]: the value of a live item, which becomes the most
    recently used one; [KeyError] for a missing or expired key. *)
Definition getitem (now : Q) (k : Z) : M t UserData := fun c =>
  match find k c with
  | Some e =>
      let c' := with_links (remove k (links c) ++ [e]) c in
      if live now e then (Val (value e), c') else (Exc KeyError, c')
  | None => (Exc KeyError, c)
  end.

(** [expire(time)]: drops every item whose expiry time has been reached. *)
Definition expire (now : Q) (c : t) : t :=
  with_links (List.filter (live now) (links c)) c.

(** [cache[key] = value]: expired items are dropped first; a value larger
    than [maxsize] is refused with [ValueError]; for a new key the least
    recently used items are popped until the new one fits; the item
    is stored as the most recently used one and expires [ttl] from now. *)
Definition setitem (now : Q) (k : Z) (v : UserData) : M t unit := fun c =>
  let c1 := expire now c in
  if maxsize c <? 1 then (Exc ValueError, c1)
  else
    let l := links c1 in
    let l1 :=
      if existsb (has_key k) l then l
      else drop (Z.to_nat (Z.of_nat (length l) + 1 - maxsize c)) l in
    (Val tt,
     with_links
       (remove k l1 ++ [{| key := k; expires := (now + ttl c)%Q; value := v |}])
       c1).

(** [del cache[key]] for a key that is present: the item is removed;
    [KeyError] when the key is missing, or when the removed item had
    already expired. *)
Definition delitem (now : Q) (k : Z) : M t unit := fun c =>
  match find k c with
  | Some e =>
      let c' := with_links (remove k (links c)) c in
      if live now e then (Val tt, c') else (Exc KeyError, c')
  | None => (Exc KeyError, c)
  end.

(** An assignment to a field of the object stored under [k].  The cache
    holds the object itself, not a copy, so the item shows the object as it
    is after the assignment, [v]; its place in the order of use and its
    expiry time stay. *)
Definition reassign (k : Z) (v : UserData) (e : link) : link :=
  if has_key k e then {| key := key e; expires := expires e; value := v |} else e.

Definition assign (k : Z) (v : UserData) (c : t) : t :=
  with_links (List.map (reassign k v) (links c)) c.

(** The value a read at time [now] sees for [k], if any. *)
Definition peek (now : Q) (k : Z) (c : t) : option UserData :=
  match find k c with
  | Some e => if live now e then Some (value e) else None
  | None => None
  end.

End TTLCache.

(** ** database/user_data_db.py *)

(** A row of the table [users]: the column [user_name] and the thirteen
  columns that mirror the dataclass.  The history column holds JSON text,
  the timestamp ISO text and the flags 0/1; [get_user_data] decodes them
  on the way back, so a row is kept as the decoded values. *)
Record Row : Type := { row_user_name : option string; row_data : UserData }.

Record UserDataDB : Type := {
rows : gmap Z Row;
cache : TTLCache.t
}.

Definition with_rows (r : gmap Z Row) (db : UserDataDB) : UserDataDB :=
{| rows := r; cache := cache db |}.

Definition with_cache (c : TTLCache.t) (db : UserDataDB) : UserDataDB :=
{| rows := rows db; cache := c |}.

(** An argument of a call: passed, or left out by the caller. *)
Inductive arg (A : Type) : Type :=
| Passed (a : A)
| Omitted.
Arguments Passed {A} a.
Arguments Omitted {A}.

Section UserDataDB.

Variable cfg : Config.

(** [UserDataDB.__init__]: no rows are created; the cache is empty. *)
Definition UserDataDB_init (stored : gmap Z Row) : UserDataDB :=
  {| rows := stored;
     cache := TTLCache.empty (cfg_max_cache_size cfg) (cfg_max_ttl cfg) |}.

Definition cache_op {A} (m : M TTLCache.t A) : M UserDataDB A :=
  zoom cache with_cache m.

(** [invalidate_cache] *)
Definition invalidate_cache (now : Q) (uid : Z) : M UserDataDB unit :=
  present ← gets (fun db => TTLCache.contains now uid (cache db));
  if present : bool then cache_op (TTLCache.delitem now uid) else mret tt.

(** The keyword arguments [get_user_data] builds from a fetched row. *)
Definition row_kwargs (r : Row) : list kwarg :=
  let d := row_data r in
  [kw_user_id (user_id d); kw_user_name (row_user_name r);
   kw_message_history (message_history d); kw_model (model d);
   kw_system_prompt (system_prompt d); kw_temperature (temperature d);
   kw_top_p (top_p d); kw_max_tokens (max_tokens d);
   kw_language (language d); kw_speaker (speaker d);
   kw_is_admin (is_admin d); kw_is_whitelisted (is_whitelisted d);
   kw_is_blacklisted (is_blacklisted d);
   kw_last_request (last_request d)].

(** [get_user_data]: the cache first; on a miss the row is fetched and a
    [UserData] is built from it with keyword arguments, cached and
    returned; [None] when there is no row. *)
Definition get_user_data (now : Q) (uid : Z) : M UserDataDB (option UserData) :=
  hit ← gets (fun db => TTLCache.contains now uid (cache db));
  if hit : bool then
    u ← cache_op (TTLCache.getitem now uid); mret (Some u)
  else
    fetched ← gets (fun db => rows db !! uid);
    match fetched with
    | Some r =>
        match UserData_init cfg (row_kwargs r) with
        | inr user_data_obj =>
            cache_op (TTLCache.setitem now uid user_data_obj);;
            mret (Some user_data_obj)
        | inl e => raise e
        end
    | None => mret None
    end.

(** [update_user_data]: the history is cut to its last
    [max_message_history_num] entries in the copy that is written
    ([INSERT OR REPLACE], which leaves [user_name] unset); the cache then
    receives the object that was passed in. *)
Definition update_user_data (now : Q) (user_data : UserData) : M UserDataDB unit :=
  let data := to_dict user_data in
  let msg_history :=
    slice_from (- cfg_max_message_history_num cfg) (message_history data) in
  let data := with_message_history msg_history data in
  modify (fun db =>
    with_rows (<[user_id data := {| row_user_name := None; row_data := data |}]>
                 (rows db)) db);;
  cache_op (TTLCache.setitem now (user_id user_data) user_data).

(** [create_user(self, user_id, user_name)]: both parameters are
    required, so a call that leaves [user_name] out is rejected with
    [TypeError] before the body runs. *)
Definition create_user (now : Q) (uid : Z) (user_name : arg (option string))
  : M UserDataDB unit :=
  match user_name with
  | Omitted => raise TypeError
  | Passed name =>
      match UserData_init cfg [kw_user_id uid; kw_user_name name] with
      | inr user_data => update_user_data now user_data
      | inl e => raise e
      end
  end.

(** The three trust flags. *)
Inductive flag : Set := Admin | Whitelist | Blacklist.

Definition with_flag (f : flag) (v : bool) (u : UserData) : UserData :=
  match f with
  | Admin => with_is_admin v u
  | Whitelist => with_is_whitelisted v u
  | Blacklist => with_is_blacklisted v u
  end.

(** [UPDATE users SET <flag> = ? WHERE user_id = ?] *)
Definition update_flag_column (f : flag) (v : bool) (uid : Z)
    (r : gmap Z Row) : gmap Z Row :=
  alter (fun row => {| row_user_name := row_user_name row;
                       row_data := with_flag f v (row_data row) |}) uid r.

(** [set_admin], [set_whitelist] and [set_blacklist] differ only in the
    column they write. *)
Definition set_flag (f : flag) (now : Q) (uid : Z) (v : bool) : M UserDataDB unit :=
  modify (fun db => with_rows (update_flag_column f v uid (rows db)) db);;
  invalidate_cache now uid.

Definition set_whitelist := set_flag Whitelist.
Definition set_blacklist := set_flag Blacklist.

End UserDataDB.

(** sqlite3 hands a Python [int] to SQLite as a signed 64-bit INTEGER. *)
Definition fits_int64 (z : Z) : bool := (- 2 ^ 63 <=? z) && (z <? 2 ^ 63).

(** A call of the store whose SQL statement takes the number [z] as a
    parameter.  The ids Telegram sends and the rows the table holds fit 64
    bits, and the functions above are given for such values; a number typed
    by a user may not fit, and then [execute] raises [OverflowError] before
    the statement runs, so neither the commit nor the cache is reached. *)
Definition bound {A} (z : Z) (m : M UserDataDB A) : M UserDataDB A :=
  if fits_int64 z then m else raise OverflowError.

(** [get_all_users] and [get_admins]: the ids of the rows, of all rows and
    of those with [is_admin = 1].  Neither looks at the cache.  [user_id] is
    the INTEGER PRIMARY KEY of the table, which SQLite walks in ascending
    order of that key. *)
Definition get_all_users : M UserDataDB (list Z) :=
  gets (fun db => merge_sort Z.le (map_to_list (rows db)).*1).


(** ** aiolimiter.AsyncLimiter

    The leaky bucket of the aiolimiter library, as far as the bot uses it:
    [has_capacity(1)] and [async with limiter], which is [acquire(1)] on
    entry and nothing on exit.  [level] is how full the bucket is, so
    [max_rate - level] permits are available. *)
Module AsyncLimiter.

Record t : Type := { max_rate : Q; time_period : Q; level : Q; last_check : Q }.

(** [AsyncLimiter(max_rate, time_period)] starts with an empty bucket. *)
Definition init (max_rate time_period : Q) : t :=
  {| max_rate := max_rate; time_period := time_period;
     level := 0; last_check := 0 |}.

Definition rate_per_sec (l : t) : Q := (max_rate l / time_period l)%Q.

(** [_leak]: a non-empty bucket drips for the time elapsed since the last
    check, never below zero; the check time is updated either way. *)
Definition leak (now : Q) (l : t) : t :=
  {| max_rate := max_rate l; time_period := time_period l;
     level :=
       if Qeq_bool (level l) 0 then level l
       else Qmax (level l - (now - last_check l) * rate_per_sec l) 0;
     last_check := now |}.

(** [has_capacity(1)]: leaks, then tests [level + 1 <= max_rate]. *)
Definition has_capacity (now : Q) : M t bool := fun l =>
  let l' := leak now l in
  (Val (Qle_bool (level l' + 1) (max_rate l')), l').

Definition add_level (amount : Q) (l : t) : t :=
  {| max_rate := max_rate l; time_period := time_period l;
     level := (level l + amount)%Q; last_check := last_check l |}.

(** [acquire(1)]: [ValueError] when a single permit exceeds [max_rate];
    otherwise the task waits while [has_capacity(1)] is false and then
    adds 1 to the level.  A task that has to wait is reported as
    [Blocked], in the state its first capacity test left. *)
Definition acquire (now : Q) : M t unit := fun l =>
  if Qltb (max_rate l) 1 then (Exc ValueError, l)
  else
    match has_capacity now l with
    | (Val true, l') => (Val tt, add_level 1 l')
    | (_, l') => (Blocked, l')
    end.

(** The permits available at [now]. *)
Definition available (now : Q) (l : t) : Q :=
  (max_rate l - level (leak now l))%Q.

End AsyncLimiter.

(** ** bot/user_state.py

    [UserState] is an [AsyncMachine] of the transitions library, created
    with [states] and [initial='idle'] and nothing else, so the library's
    defaults apply: the object is its own model, an invalid trigger raises
    [MachineError], and [auto_transitions] is on, which gives every state
    [s] a trigger [to_<s>] that leads to [s] from any state. *)
Module UserState.

Inductive state : Set :=
| idle
| awaiting_model
| awaiting_system_prompt
| awaiting_temperature
| awaiting_top_p
| awaiting_max_tokens.

(** The triggers of the machine: the six that [__init__] declares, and the
    automatic [to_<state>]. *)
Inductive trigger : Set :=
| set_model
| set_system_prompt
| set_temperature
| set_top_p
| set_max_tokens
| return_to_idle
| to_ (s : state).

#[global] Instance state_eq_dec : EqDecision state.
Proof. solve_decision. Defined.

#[global] Instance trigger_eq_dec : EqDecision trigger.
Proof. solve_decision. Defined.

(** The source of a transition: one state, or the wildcard ['*']. *)
Inductive source : Set :=
| From (s : state)
| Wildcard.

Record transition : Set := { trig : trigger; src : source; dest : state }.

(** The list [states] passed to [AsyncMachine.__init__]. *)
Definition states : list state :=
  [idle; awaiting_model; awaiting_system_prompt; awaiting_temperature;
   awaiting_top_p; awaiting_max_tokens].

(** The transitions the library adds for the states. *)
Definition auto_transitions : list transition :=
  List.map (fun s => {| trig := to_ s; src := Wildcard; dest := s |}) states.

(** The [add_transition] calls of [UserState.__init__], in order. *)
Definition declared_transitions : list transition :=
  [ {| trig := set_model; src := From idle; dest := awaiting_model |};
    {| trig := set_system_prompt; src := From idle; dest := awaiting_system_prompt |};
    {| trig := set_temperature; src := From idle; dest := awaiting_temperature |};
    {| trig := set_top_p; src := From idle; dest := awaiting_top_p |};
    {| trig := set_max_tokens; src := From idle; dest := awaiting_max_tokens |};
    {| trig := return_to_idle; src := Wildcard; dest := idle |} ].

Definition transitions : list transition :=
  auto_transitions ++ declared_transitions.

Definition from (sr : source) (s : state) : bool :=
  match sr with
  | From s' => bool_decide (s' = s)
  | Wildcard => true
  end.

Definition enabled (t : trigger) (s : state) (tr : transition) : bool :=
  bool_decide (trig tr = t) && from (src tr) s.

(** The machine starts in [idle]. *)
Definition init : state := idle.

(** Calling a trigger: the first transition declared for it from the
    current state is taken; when there is none the machine raises
    [MachineError] and stays where it is. *)
Definition fire (t : trigger) : M state bool := fun s =>
  match List.find (enabled t s) transitions with
  | Some tr => (Val true, dest tr)
  | None => (Exc MachineError, s)
  end.

(** [state_machine.state] is the name of the state. *)
Definition state_name (s : state) : string :=
  match s with
  | idle => "idle"
  | awaiting_model => "awaiting_model"
  | awaiting_system_prompt => "awaiting_system_prompt"
  | awaiting_temperature => "awaiting_temperature"
  | awaiting_top_p => "awaiting_top_p"
  | awaiting_max_tokens => "awaiting_max_tokens"
  end.

End UserState.

(** ** bot/telegram_bot.py *)

(** An incoming message: its text, [None] for a voice message. *)
Record Message : Set := { text : option string }.

(** The four settings whose button starts a free-text dialog. *)
Inductive setting : Set := SystemPrompt | Temperature | TopP | MaxTokens.

(** The callback data carried by the inline keyboards the bot sends; no
    button carries the name of an automatic trigger. *)
Inductive callback : Set :=
| CbBack
| CbSetLanguage (lang : string)
| CbSetSpeaker (name : string)
| CbSetModel
| CbChooseModel (name : string)
| CbSet (p : setting).

Definition setting_trigger (p : setting) : UserState.trigger :=
  match p with
  | SystemPrompt => UserState.set_system_prompt
  | Temperature => UserState.set_temperature
  | TopP => UserState.set_top_p
  | MaxTokens => UserState.set_max_tokens
  end.

(** [query.data] *)
Definition query_data (c : callback) : string :=
  match c with
  | CbBack => "back"
  | CbSetLanguage lang => "set_language:" ++ lang
  | CbSetSpeaker name => "set_speaker:" ++ name
  | CbSetModel => "set_model"
  | CbChooseModel name => "choose_model:" ++ name
  | CbSet SystemPrompt => "set_system_prompt"
  | CbSet Temperature => "set_temperature"
  | CbSet TopP => "set_top_p"
  | CbSet MaxTokens => "set_max_tokens"
  end%string.

Record Update : Set := {
  effective_user : Z;
  message : option Message;
  callback_query : option callback
}.

(** A value passed to [str.format]. *)
Inductive fmt_arg : Type :=
| FStr (s : string)
| FFloat (v : pyfloat)
| FInt (z : Z)
| FLanguageName (lang : string).

(** A localised text: the language and key looked up in the localisation
    table and the keyword arguments it is formatted with.  The table itself
    is data outside the source, so texts stay symbolic. *)
Record Text : Type := {
  text_language : string;
  text_key : string;
  text_args : list (string * fmt_arg)
}.

(** How a looked-up text is used: sent as it is, or formatted first with
    keyword arguments. *)
Inductive usage : Type :=
| AsIs
| Format (args : list (string * fmt_arg)).

Definition usage_args (u : usage) : list (string * fmt_arg) :=
  match u with
  | AsIs => []
  | Format args => args
  end.

(** What the bot sends to a user. *)
Inductive Sent : Type :=
| ReplyText (uid : Z) (t : Text)
| EditText (uid : Z) (t : Text)
| QueryReplyText (uid : Z) (t : Text)
| ChatAction (uid : Z) (action : string).

(** The work handed to the job queue with [run_once]. *)
Inductive Job : Type :=
| reset_state_job (uid : Z)
| process_message_job (update : Update) (user_data : option UserData).

(** The bot: the clock, the members of [TelegramBot] the handlers use, the
    per-user [context.user_data] entry ["user_state"] (the state of the
    user's machine, absent when the key is not set), the scheduled jobs with
    their due times, and everything sent so far (latest last). *)
Record Bot : Type := {
  clock : Q;
  user_db : UserDataDB;
  global_limiter : AsyncLimiter.t;
  user_limiters : gmap Z AsyncLimiter.t;
  sessions : gmap Z UserState.state;
  job_queue : list (Q * Job);
  outbox : list Sent
}.

Definition with_clock (v : Q) (b : Bot) : Bot :=
  {| clock := v; user_db := user_db b; global_limiter := global_limiter b;
     user_limiters := user_limiters b; sessions := sessions b;
     job_queue := job_queue b; outbox := outbox b |}.

Definition with_user_db (v : UserDataDB) (b : Bot) : Bot :=
  {| clock := clock b; user_db := v; global_limiter := global_limiter b;
     user_limiters := user_limiters b; sessions := sessions b;
     job_queue := job_queue b; outbox := outbox b |}.

Definition with_global_limiter (v : AsyncLimiter.t) (b : Bot) : Bot :=
  {| clock := clock b; user_db := user_db b; global_limiter := v;
     user_limiters := user_limiters b; sessions := sessions b;
     job_queue := job_queue b; outbox := outbox b |}.

Definition with_user_limiters (v : gmap Z AsyncLimiter.t) (b : Bot) : Bot :=
  {| clock := clock b; user_db := user_db b;
     global_limiter := global_limiter b; user_limiters := v;
     sessions := sessions b; job_queue := job_queue b; outbox := outbox b |}.

Definition with_sessions (v : gmap Z UserState.state) (b : Bot) : Bot :=
  {| clock := clock b; user_db := user_db b;
     global_limiter := global_limiter b; user_limiters := user_limiters b;
     sessions := v; job_queue := job_queue b; outbox := outbox b |}.

Definition with_job_queue (v : list (Q * Job)) (b : Bot) : Bot :=
  {| clock := clock b; user_db := user_db b;
     global_limiter := global_limiter b; user_limiters := user_limiters b;
     sessions := sessions b; job_queue := v; outbox := outbox b |}.

Definition with_outbox (v : list Sent) (b : Bot) : Bot :=
  {| clock := clock b; user_db := user_db b;
     global_limiter := global_limiter b; user_limiters := user_limiters b;
     sessions := sessions b; job_queue := job_queue b; outbox := v |}.

Definition Handler : Type := Update -> M Bot unit.

(** [0 <= value <= 1] *)
Definition in_unit_interval (v : pyfloat) : bool :=
  pyfloat_le (Finite 0) v && pyfloat_le v (Finite 1).

(** [value > 0] *)
Definition is_positive (v : Z) : bool := 0 <? v.

(** The two float settings, named as [state.split("_", 1)[1]] names them. *)
Inductive float_param : Set := P_temperature | P_top_p.

Definition param_name (p : float_param) : string :=
  match p with
  | P_temperature => "temperature"
  | P_top_p => "top_p"
  end.

Definition getattr_float (u : UserData) (p : float_param) : pyfloat :=
  match p with
  | P_temperature => temperature u
  | P_top_p => top_p u
  end.

Definition setattr_float (u : UserData) (p : float_param) (v : pyfloat) : UserData :=
  match p with
  | P_temperature => with_temperature v u
  | P_top_p => with_top_p v u
  end.

Section TelegramBot.

Variable cfg : Config.

(** The built-ins [float(str)] and [int(str)]: the parsed value, or [None]
    where Python raises [ValueError]. *)
Variable py_float : string -> option pyfloat.
Variable py_int : string -> option Z.

(** [process_message], the exchange with the AI provider that a
    [process_message_job] runs; it is outside this development. *)
Variable process_message : Update -> option UserData -> M Bot unit.

(** [TelegramBot.__init__] on a database file that holds [stored]. *)
Definition TelegramBot_init (t0 : Q) (stored : gmap Z Row) : Bot :=
  {| clock := t0;
     user_db := UserDataDB_init cfg stored;
     global_limiter :=
       AsyncLimiter.init (cfg_global_max_requests cfg)
                         (cfg_global_time_frame_seconds cfg);
     user_limiters := ∅;
     sessions := ∅;
     job_queue := [];
     outbox := [] |}.

(** Calls into the members of the bot; each reads the clock when it runs. *)
Definition db {A} (m : Q -> M UserDataDB A) : M Bot A := fun b =>
  zoom user_db with_user_db (m (clock b)) b.

Definition on_global_limiter {A} (m : Q -> M AsyncLimiter.t A) : M Bot A := fun b =>
  zoom global_limiter with_global_limiter (m (clock b)) b.

(** A call on the limiter object stored for [uid]. *)
Definition on_user_limiter {A} (uid : Z) (m : Q -> M AsyncLimiter.t A) : M Bot A :=
  fun b =>
    match user_limiters b !! uid with
    | Some l =>
        let '(r, l') := m (clock b) l in
        (r, with_user_limiters (<[uid := l']> (user_limiters b)) b)
    | None => (Exc KeyError, b)
    end.

(** A call on [context.user_data["user_state"]]. *)
Definition on_user_state {A} (uid : Z) (m : M UserState.state A) : M Bot A :=
  fun b =>
    match sessions b !! uid with
    | Some s =>
        let '(r, s') := m s in
        (r, with_sessions (<[uid := s']> (sessions b)) b)
    | None => (Exc KeyError, b)
    end.

Definition send (x : Sent) : M Bot unit :=
  modify (fun b => with_outbox (outbox b ++ [x]) b).

(** [get_user_limiter]: the user's limiter is created on first use. *)
Definition get_user_limiter (uid : Z) : M Bot unit :=
  modify (fun b =>
    match user_limiters b !! uid with
    | Some _ => b
    | None =>
        with_user_limiters
          (<[uid := AsyncLimiter.init (cfg_user_max_requests cfg)
                                      (cfg_user_time_frame_seconds cfg)]>
             (user_limiters b)) b
    end).

(** [loc]: the user's language, ["en"] without a profile, selects the
    table; a language without a table is a [KeyError]. *)
Definition loc (key : string) (uid : Z) : M Bot Text :=
  user_data ← db (fun now => get_user_data cfg now uid);
  let language :=
    match user_data with Some u => language u | None => "en"%string end in
  if bool_decide (language ∈ cfg_languages cfg) then
    mret {| text_language := language; text_key := key; text_args := [] |}
  else raise KeyError.

(** [template.format(key=value, ...)]: every replacement field of the template
    has to be among the keywords, otherwise [KeyError]. *)
Definition fields_given (fields names : list string) : bool :=
  forallb (fun f => bool_decide (f ∈ names)) fields.

Definition renders (lang key : string) (u : usage) : bool :=
  match u with
  | AsIs => true
  | Format args => fields_given (cfg_template_fields cfg lang key) args.*1
  end.

Definition render (t : Text) (u : usage) : M Bot Text :=
  if renders (text_language t) (text_key t) u then
    mret {| text_language := text_language t; text_key := text_key t;
            text_args := usage_args u |}
  else raise KeyError.

(** [await update.message.reply_text(text)] where [text] is
    [await self.loc(key, user_id)], formatted or not: the attribute
    [reply_text] of [update.message] is looked up before the text is
    built. *)
Definition reply_text (update : Update) (key : string) (u : usage) : M Bot unit :=
  match message update with
  | None => raise AttributeError
  | Some _ =>
      t ← loc key (effective_user update);
      t' ← render t u;
      send (ReplyText (effective_user update) t')
  end.

(** [query.message.edit_text] and [query.message.reply_text] *)
Definition edit_text (update : Update) (key : string) (u : usage) : M Bot unit :=
  t ← loc key (effective_user update);
  t' ← render t u;
  send (EditText (effective_user update) t').

Definition query_reply_text (update : Update) (key : string) : M Bot unit :=
  t ← loc key (effective_user update);
  send (QueryReplyText (effective_user update) t).

(** [context.job_queue.run_once(callback, when, data)] *)
Definition run_once (j : Job) (when : Q) : M Bot unit :=
  modify (fun b => with_job_queue (job_queue b ++ [((clock b + when)%Q, j)]) b).

(** *** The decorators *)

(** [rate_limit].  Every handler wraps it inside [user_data_required],
    which has read [update.effective_user.id] already, so the user is
    present here. *)
Definition rate_limit (func : Handler) : Handler := fun update =>
  let user_id := effective_user update in
  global_ok ← on_global_limiter AsyncLimiter.has_capacity;
  if negb global_ok then reply_text update "NO_GLOBAL_CAPACITY" AsIs
  else
    get_user_limiter user_id;;
    user_ok ← on_user_limiter user_id AsyncLimiter.has_capacity;
    if negb user_ok then reply_text update "NO_USER_CAPACITY" AsIs
    else
      on_global_limiter AsyncLimiter.acquire;;
      on_user_limiter user_id AsyncLimiter.acquire;;
      func update.

(** [check_user_access] *)
Definition check_user_access (uid : Z) : M Bot bool :=
  user_data ← db (fun now => get_user_data cfg now uid);
  match user_data with
  | None => mret false
  | Some u =>
      if is_blacklisted u then mret false
      else if cfg_whitelist_mode cfg && negb (is_whitelisted u) then mret false
      else mret true
  end.

(** [user_access_required] *)
Definition user_access_required (func : Handler) : Handler := fun update =>
  let user_id := effective_user update in
  ok ← check_user_access user_id;
  if negb ok then reply_text update "NO_PERMISSION" AsIs
  else func update.

(** [user_data_required]: [create_user] is called with the user id only. *)
Definition user_data_required (func : Handler) : Handler := fun update =>
  let user_id := effective_user update in
  user_data ← db (fun now => get_user_data cfg now user_id);
  (if bool_decide (user_data = None)
   then db (fun now => create_user cfg now user_id Omitted)
   else mret tt);;
  func update.

(** *** The handlers *)

(** [start], below its decorators. *)
Definition start_body : Handler := fun update =>
  let user_id := effective_user update in
  _ ← db (fun now => get_user_data cfg now user_id);
  reply_text update "WELCOME" AsIs.

Definition start : Handler := user_data_required (rate_limit start_body).

(** Attribute access on [user_data], which may be [None]. *)
Definition the {A} (user_data : option A) : M Bot A :=
  match user_data with
  | Some u => mret u
  | None => raise AttributeError
  end.

(** [update_model] *)
Definition update_model (update : Update) (user_data : option UserData)
    (value : option string) : M Bot unit :=
  match value with
  | Some v =>
      if bool_decide (v ∈ cfg_available_models cfg) then
        u ← the user_data;
        (if negb (String.eqb v (model u))
         then db (fun now => update_user_data cfg now (with_model v u))
         else mret tt);;
        reply_text update "MODEL_SET" (Format [("value"%string, FStr v)])
      else reply_text update "MODEL_INVALID" AsIs
  | None => reply_text update "MODEL_INVALID" AsIs
  end.

(** [float(value)]: [TypeError] for [None], [ValueError] for text that is
    no number. *)
Definition to_float (value : option string) : M Bot pyfloat :=
  match value with
  | None => raise TypeError
  | Some s =>
      match py_float s with
      | Some v => mret v
      | None => raise ValueError
      end
  end.

(** [int(value)] *)
Definition to_int (value : option string) : M Bot Z :=
  match value with
  | None => raise TypeError
  | Some s =>
      match py_int s with
      | Some v => mret v
      | None => raise ValueError
      end
  end.

(** [update_float_setting]: the whole body is inside
    [try ... except ValueError]. *)
Definition update_float_setting (update : Update) (user_data : option UserData)
    (param : float_param) (value : option string) : M Bot unit :=
  let shown := ("param"%string, FStr (capitalize (param_name param))) in
  try_except
    (v ← to_float value;
     if in_unit_interval v then
       u ← the user_data;
       let old_value := getattr_float u param in
       (if negb (pyfloat_eqb v old_value)
        then db (fun now => update_user_data cfg now (setattr_float u param v))
        else mret tt);;
       reply_text update "PARAM_SET" (Format [shown; ("value"%string, FFloat v)])
     else reply_text update "PARAM_INVALID_VALUE" (Format [shown]))
    ValueError
    (reply_text update "PARAM_INVALID_VALUE" (Format [shown])).

(** [user_data.<field> = value] on the profile a handler works with.
    Every profile [get_user_data] hands out is the object the cache holds
    for that user, so the assignment shows in the cache at once, before
    [update_user_data] is called and whether or not it succeeds.  The other
    updates assign and store in the same way; for them the store does not
    fail on a profile the table holds, so the assignment and the renewal of
    the cache entry are written as the one step [update_user_data]. *)
Definition assign_cached (u : UserData) : M Bot unit :=
  db (fun _ => cache_op (modify (TTLCache.assign (user_id u) u))).

(** [update_max_tokens]: the number is assigned to the profile and the
    profile is stored; the INSERT takes the number as a parameter. *)
Definition update_max_tokens (update : Update) (user_data : option UserData)
    (value : option string) : M Bot unit :=
  try_except
    (v ← to_int value;
     if is_positive v then
       u ← the user_data;
       (if negb (v =? max_tokens u)
        then
          assign_cached (with_max_tokens v u);;
          db (fun now => bound v (update_user_data cfg now (with_max_tokens v u)))
        else mret tt);;
       reply_text update "MAX_TOKENS_SET" (Format [("value"%string, FInt v)])
     else reply_text update "MAX_TOKENS_INVALID" AsIs)
    ValueError
    (reply_text update "MAX_TOKENS_INVALID" AsIs).

(** [update_setting], reached for [param = "system_prompt"] only. *)
Definition update_setting (update : Update) (user_data : option UserData)
    (value : option string) : M Bot unit :=
  u ← the user_data;
  let old_value := system_prompt u in
  (if negb (bool_decide (value = old_value))
   then db (fun now => update_user_data cfg now (with_system_prompt value u))
   else mret tt);;
  reply_text update "PARAM_SET"
    (Format [("param"%string, FStr (capitalize "system_prompt"))]).

(** [handle_setting_update]: one update chosen by the state, then
    [return_to_idle].  In [idle] the [else] branch indexes
    ["idle".split("_", 1)] at 1, which is out of range. *)
Definition handle_setting_update (update : Update)
    (user_data : option UserData) : M Bot unit :=
  let user_id := effective_user update in
  state ← on_user_state user_id (gets (fun s => s));
  msg ← the (message update);
  let value := text msg in
  match state with
  | UserState.awaiting_model => update_model update user_data value
  | UserState.awaiting_temperature =>
      update_float_setting update user_data P_temperature value
  | UserState.awaiting_top_p =>
      update_float_setting update user_data P_top_p value
  | UserState.awaiting_max_tokens => update_max_tokens update user_data value
  | UserState.awaiting_system_prompt => update_setting update user_data value
  | UserState.idle => raise IndexError
  end;;
  _ ← on_user_state user_id (UserState.fire UserState.return_to_idle);
  mret tt.

(** ["user_state" in context.user_data and
     context.user_data["user_state"].state != "idle"] *)
Definition in_dialog (uid : Z) (b : Bot) : bool :=
  match sessions b !! uid with
  | Some s => negb (bool_decide (s = UserState.idle))
  | None => false
  end.

(** [handle_message], below its decorators: it enters [self.global_limiter]
    itself before it looks at the dialog state. *)
Definition handle_message_body : Handler := fun update =>
  let user_id := effective_user update in
  user_data ← db (fun now => get_user_data cfg now user_id);
  on_global_limiter AsyncLimiter.acquire;;
  try_except_all
    (dialog ← gets (in_dialog user_id);
     if dialog : bool then handle_setting_update update user_data
     else
       run_once (process_message_job update user_data) 0;;
       _ ← the (message update);
       send (ChatAction user_id "typing"))
    (reply_text update "HANDLING_ERROR" AsIs).

Definition handle_message : Handler :=
  user_access_required (user_data_required (rate_limit handle_message_body)).

(** [set_language], [set_speaker] and [set_model]: a choice among the
    allowed names is stored when it differs from the stored one. *)
Definition set_choice (allowed : list string) (get : UserData -> string)
    (set : string -> UserData -> UserData) (shown : string -> fmt_arg)
    (ok_key bad_key : string)
    (update : Update) (choice : string) : M Bot unit :=
  let user_id := effective_user update in
  user_data ← db (fun now => get_user_data cfg now user_id);
  if bool_decide (choice ∈ allowed) then
    u ← the user_data;
    (if negb (String.eqb choice (get u))
     then db (fun now => update_user_data cfg now (set choice u))
     else mret tt);;
    edit_text update ok_key (Format [("value"%string, shown choice)])
  else edit_text update bad_key AsIs.

Definition set_language : Update -> string -> M Bot unit :=
  set_choice (cfg_languages cfg) language with_language FLanguageName
             "LANGUAGE_SET" "LANGUAGE_INVALID".

Definition set_speaker : Update -> string -> M Bot unit :=
  set_choice (cfg_speakers cfg) speaker with_speaker FStr
             "SPEAKER_SET" "SPEAKER_INVALID".

Definition set_model : Update -> string -> M Bot unit :=
  set_choice (cfg_available_models cfg) model with_model FStr
             "MODEL_SET" "MODEL_INVALID".

(** [show_model_options] *)
Definition show_model_options (update : Update) : M Bot unit :=
  _ ← loc "GO_BACK" (effective_user update);
  edit_text update "CHOOSE_MODEL" AsIs.

(** [state_messages[state_machine.state]] *)
Definition state_messages (s : UserState.state) : option string :=
  match s with
  | UserState.awaiting_model => Some "AWAITING_MODEL"
  | UserState.awaiting_system_prompt => Some "AWAITING_SYSTEM_PROMPT"
  | UserState.awaiting_temperature => Some "AWAITING_TEMPERATURE"
  | UserState.awaiting_top_p => Some "AWAITING_TOP_P"
  | UserState.awaiting_max_tokens => Some "AWAITING_MAX_TOKENS"
  | UserState.idle => None
  end%string.

(** [button], below its decorators. *)
Definition button_body : Handler := fun update =>
  let user_id := effective_user update in
  query ← the (callback_query update);
  match query with
  | CbBack =>
      modify (fun b => with_sessions (delete user_id (sessions b)) b);;
      edit_text update "OK" AsIs
  | _ =>
      modify (fun b =>
        match sessions b !! user_id with
        | Some _ => b
        | None => with_sessions (<[user_id := UserState.init]> (sessions b)) b
        end);;
      match query with
      | CbSetLanguage lang => set_language update lang
      | CbSetSpeaker name => set_speaker update name
      | CbSetModel => show_model_options update
      | CbChooseModel name => set_model update name
      | CbSet p =>
          _ ← on_user_state user_id (UserState.fire (setting_trigger p));
          state ← on_user_state user_id (gets (fun s => s));
          match state_messages state with
          | Some key =>
              query_reply_text update key;;
              run_once (reset_state_job user_id) 300
          | None => raise KeyError
          end
      | CbBack => mret tt
      end
  end.

Definition button : Handler :=
  user_access_required (user_data_required (rate_limit button_body)).

(** [reset_state], the callback of the timeout job. *)
Definition reset_state (uid : Z) : M Bot unit :=
  modify (fun b => with_sessions (delete uid (sessions b)) b).

(** *** The job queue *)

Definition run_job (j : Job) : M Bot unit :=
  match j with
  | reset_state_job uid => reset_state uid
  | process_message_job update user_data => process_message update user_data
  end.

Definition is_due (now : Q) (j : Q * Job) : bool := Qle_bool j.1 now.

(** Runs the given jobs in order; a job that fails does not stop the
    others. *)
Fixpoint run_jobs (js : list (Q * Job)) (b : Bot) : Bot :=
  match js with
  | [] => b
  | j :: rest => run_jobs rest (run_job j.2 b).2
  end.

(** The clock moves to [t]; the jobs that have become due leave the queue
    and run. *)
Definition advance_to (t : Q) (b : Bot) : Bot :=
  let b1 := with_clock t b in
  let due := List.filter (is_due t) (job_queue b1) in
  let later := List.filter (fun j => negb (is_due t j)) (job_queue b1) in
  run_jobs due (with_job_queue later b1).

End TelegramBot.

(** *** The administration commands *)

(** [str.format] shows a bool by its name. *)
Definition FBool (v : bool) : fmt_arg :=
  FStr (if v then "True" else "False").

(** The mode of a flag command.  Without a second argument the flag is
    switched on; with one it is switched off exactly when that argument,
    in lower case, is [false], [0], [off] or [no]. *)
Definition mode_of (args : list string) : bool :=
  match args with
  | _ :: second :: _ =>
      let mode_arg := lowercase second in
      let mode_off :=
        String.eqb mode_arg "false" || String.eqb mode_arg "0"
        || String.eqb mode_arg "off" || String.eqb mode_arg "no" in
      negb mode_off
  | _ => true
  end.

(** A text handed to [context.bot.send_message]. *)
Record Outgoing : Type := { chat_id : Z; body : string }.

(** A computation on the bot, run beside the list of texts handed to
    [send_message]. *)
Definition on_bot {A} (m : M Bot A) : M (Bot * list Outgoing) A :=
  zoom fst (fun b s => (b, s.2)) m.

(** [for x in l: f(x)] *)
Fixpoint for_each {S A} (l : list A) (f : A -> M S unit) : M S unit :=
  match l with
  | [] => mret tt
  | x :: rest => f x;; for_each rest f
  end.

Section Administration.

Variable cfg : Config.
Variable py_int : string -> option Z.

(** [self.admin_users], the set of the ids listed in the configuration. *)
Variable admin_users : gset Z.

(** [TelegramBot.is_admin]: a listed id is an admin without a look at the
    store; anyone else is one when the profile says so. *)
Definition TelegramBot_is_admin (uid : Z) : M Bot bool :=
  if bool_decide (uid ∈ admin_users) then mret true
  else
    user_data ← db (fun now => get_user_data cfg now uid);
    mret (match user_data with Some u => is_admin u | None => false end).

(** [admin_required] *)
Definition admin_required (func : Handler) : Handler := fun update =>
  let user_id := effective_user update in
  ok ← TelegramBot_is_admin user_id;
  if negb ok then reply_text cfg update "ADMIN_PERMISSION_DENIED" AsIs
  else func update.

(** [admin_whitelist], [admin_blacklist] and [admin_set_admin], below their
    decorators: the three bodies differ in the flag they set and in the key
    of the reply.  [args] is [context.args], the words after the command;
    the UPDATE takes the id typed by the admin as a parameter. *)
Definition admin_flag_body (f : flag) (key : string) (args : list string) : Handler :=
  fun update =>
    first ← match args with
            | a :: _ => mret a
            | [] => raise IndexError
            end;
    target_user_id ← to_int py_int (Some first);
    let mode := mode_of args in
    db (fun now => bound target_user_id (set_flag f now target_user_id mode));;
    reply_text cfg update key
      (Format [("user_id"%string, FInt target_user_id); ("mode"%string, FBool mode)]).

Definition admin_whitelist (args : list string) : Handler :=
  admin_required
    (user_data_required cfg (admin_flag_body Whitelist "USER_WHITELISTED" args)).

(** [admin_blacklist] is defined twice, with the same text. *)
Definition admin_blacklist (args : list string) : Handler :=
  admin_required
    (user_data_required cfg (admin_flag_body Blacklist "USER_BLACKLISTED" args)).

Definition admin_set_admin (args : list string) : Handler :=
  admin_required
    (user_data_required cfg (admin_flag_body Admin "USER_ADMINED" args)).

(** [context.bot.send_message(chat_id, text)] inside [try ... except
    Exception]: [delivers] tells for which chats the call succeeds; a failure
    is logged and nothing else. *)
Definition send_message (delivers : Z -> bool) (text : string) (chat : Z)
  : M (Bot * list Outgoing) unit :=
  modify (fun s =>
    if delivers chat then (s.1, s.2 ++ [{| chat_id := chat; body := text |}])
    else s).

(** [admin_broadcast], below its decorators.  The loop over the recipients
    reuses the name [user_id], so after a loop that ran at least once the
    confirmation is looked up for the last recipient. *)
Definition admin_broadcast_body (delivers : Z -> bool) (args : list string)
    (update : Update) : M (Bot * list Outgoing) unit :=
  let user_id := effective_user update in
  let text := String.concat " " args in
  all_users ← on_bot (db (fun _ => get_all_users));
  for_each all_users (send_message delivers text);;
  let user_id := List.last all_users user_id in
  on_bot
    match message update with
    | None => raise AttributeError
    | Some _ =>
        t ← loc cfg "BROADCAST_SENT" user_id;
        send (ReplyText (effective_user update) t)
    end.

End Administration.

(** * Statements and example data *)

(** ** Views of the state *)

(** Two stores show the same profiles at [now]: the same rows and, for
    every key, the same live cache entry. *)
Definition db_same_view (now : Q) (d d' : UserDataDB) : Prop :=
  rows d' = rows d
  /\ TTLCache.maxsize (cache d') = TTLCache.maxsize (cache d)
  /\ TTLCache.ttl (cache d') = TTLCache.ttl (cache d)
  /\ forall k, TTLCache.peek now k (cache d') = TTLCache.peek now k (cache d).

(** [b'] differs from [b] at most in the profile store and the outbox. *)
Definition same_control (b b' : Bot) : Prop :=
  clock b' = clock b
  /\ global_limiter b' = global_limiter b
  /\ user_limiters b' = user_limiters b
  /\ sessions b' = sessions b
  /\ job_queue b' = job_queue b.

(** The text of [key] in the language of profile [p]. *)
Definition text_for (p : UserData) (key : string)
    (args : list (string * fmt_arg)) : Text :=
  {| text_language := language p; text_key := key; text_args := args |}.

(** [b'] is [b] after one reply [t] to user [uid]: limiters, sessions and
    jobs are as they were. *)
Definition one_reply (uid : Z) (t : Text) (b b' : Bot) : Prop :=
  same_control b b' /\ outbox b' = outbox b ++ [ReplyText uid t].

(** The key of the latest text sent by a run. *)
Definition last_key (r : res unit * Bot) : option string :=
  match last (outbox r.2) with
  | Some (ReplyText _ t) | Some (EditText _ t) | Some (QueryReplyText _ t) =>
      Some (text_key t)
  | _ => None
  end.

(** ** The profile store *)

(** The last [n] entries of a history, the spec's "most recent N". *)
Definition most_recent {A} (n : Z) (l : list A) : list A :=
  drop (length l - Z.to_nat n) l.

(** The row [update_user_data] writes for a profile. *)
Definition written_row (cfg : Config) (p : UserData) : Row :=
  {| row_user_name := None;
     row_data :=
       with_message_history
         (slice_from (- cfg_max_message_history_num cfg) (message_history p)) p |}.

(** The row of [r] after [UPDATE users SET <flag> = v]. *)
Definition flagged_row (f : flag) (v : bool) (r : Row) : Row :=
  {| row_user_name := row_user_name r; row_data := with_flag f v (row_data r) |}.

(** ** Admission control *)

(** The limiter object [get_user_limiter] returns for [uid]: the stored
    one, or a fresh one on first use. *)
Definition user_limiter_of (cfg : Config) (uid : Z) (b : Bot) : AsyncLimiter.t :=
  default (AsyncLimiter.init (cfg_user_max_requests cfg)
                             (cfg_user_time_frame_seconds cfg))
          (user_limiters b !! uid).

(** The outcome of [has_capacity(1)] on a limiter at [now]. *)
Definition capacity (now : Q) (l : AsyncLimiter.t) : bool :=
  Qle_bool (AsyncLimiter.level (AsyncLimiter.leak now l) + 1) (AsyncLimiter.max_rate l).

(** The bot after the global check, and after the user check. *)
Definition global_checked (b : Bot) : Bot :=
  with_global_limiter (AsyncLimiter.leak (clock b) (global_limiter b)) b.

Definition user_checked (cfg : Config) (uid : Z) (b : Bot) : Bot :=
  with_user_limiters
    (<[uid := AsyncLimiter.leak (clock b) (user_limiter_of cfg uid b)]>
       (user_limiters b)) b.

(** A limiter after a successful check at [now] followed by [acquire]. *)
Definition entered (now : Q) (l : AsyncLimiter.t) : AsyncLimiter.t :=
  AsyncLimiter.add_level 1 (AsyncLimiter.leak now (AsyncLimiter.leak now l)).

(** The bot on which [rate_limit] runs the handler it wraps. *)
Definition admitted (cfg : Config) (uid : Z) (b : Bot) : Bot :=
  with_user_limiters
    (<[uid := entered (clock b) (user_limiter_of cfg uid b)]> (user_limiters b))
    (with_global_limiter (entered (clock b) (global_limiter b)) b).

(** The test of [check_user_access] on a profile. *)
Definition has_access (cfg : Config) (p : UserData) : bool :=
  negb (is_blacklisted p)
  && negb (cfg_whitelist_mode cfg && negb (is_whitelisted p)).

(** ** The settings dialog and its timeout *)

(** The state a parameter-set trigger leads to. *)
Definition awaited (t : UserState.trigger) : option UserState.state :=
  match t with
  | UserState.set_model => Some UserState.awaiting_model
  | UserState.set_system_prompt => Some UserState.awaiting_system_prompt
  | UserState.set_temperature => Some UserState.awaiting_temperature
  | UserState.set_top_p => Some UserState.awaiting_top_p
  | UserState.set_max_tokens => Some UserState.awaiting_max_tokens
  | UserState.return_to_idle | UserState.to_ _ => None
  end.

(** The state a settings button leads to. *)
Definition awaiting (p : setting) : UserState.state :=
  match p with
  | SystemPrompt => UserState.awaiting_system_prompt
  | Temperature => UserState.awaiting_temperature
  | TopP => UserState.awaiting_top_p
  | MaxTokens => UserState.awaiting_max_tokens
  end.

(** The template of [key] in language [lang] can be formatted with the
    keywords [names]. *)
Definition template_takes (cfg : Config) (lang key : string)
    (names : list string) : bool :=
  fields_given (cfg_template_fields cfg lang key) names.

(** What the update chosen by dialog state [s] answers to the text [v]:
    the key of the reply and how its template is used. *)
Definition chosen_reply (cfg : Config) (py_float : string -> option pyfloat)
    (py_int : string -> option Z) (s : UserState.state) (v : string)
  : string * usage :=
  let float_reply param :=
    let shown := ("param", FStr (capitalize (param_name param))) in
    match py_float v with
    | Some x =>
        if in_unit_interval x
        then ("PARAM_SET", Format [shown; ("value", FFloat x)])
        else ("PARAM_INVALID_VALUE", Format [shown])
    | None => ("PARAM_INVALID_VALUE", Format [shown])
    end in
  match s with
  | UserState.awaiting_model =>
      if bool_decide (v ∈ cfg_available_models cfg)
      then ("MODEL_SET", Format [("value", FStr v)])
      else ("MODEL_INVALID", AsIs)
  | UserState.awaiting_temperature => float_reply P_temperature
  | UserState.awaiting_top_p => float_reply P_top_p
  | UserState.awaiting_max_tokens =>
      match py_int v with
      | Some z =>
          if is_positive z
          then ("MAX_TOKENS_SET", Format [("value", FInt z)])
          else ("MAX_TOKENS_INVALID", AsIs)
      | None => ("MAX_TOKENS_INVALID", AsIs)
      end
  | UserState.awaiting_system_prompt =>
      ("PARAM_SET", Format [("param", FStr (capitalize "system_prompt"))])
  | UserState.idle => ("", AsIs)
  end%string.

(** The profile that update stores for the text [v] and the profile [p]: set
    when the value is accepted and differs from the one [p] holds. *)
Definition chosen_change (cfg : Config) (py_float : string -> option pyfloat)
    (py_int : string -> option Z) (s : UserState.state) (v : string)
    (p : UserData) : option UserData :=
  let float_change param :=
    match py_float v with
    | Some x =>
        if in_unit_interval x && negb (pyfloat_eqb x (getattr_float p param))
        then Some (setattr_float p param x)
        else None
    | None => None
    end in
  match s with
  | UserState.awaiting_model =>
      if bool_decide (v ∈ cfg_available_models cfg) && negb (String.eqb v (model p))
      then Some (with_model v p)
      else None
  | UserState.awaiting_temperature => float_change P_temperature
  | UserState.awaiting_top_p => float_change P_top_p
  | UserState.awaiting_max_tokens =>
      match py_int v with
      | Some z =>
          if is_positive z && negb (z =? max_tokens p)
          then Some (with_max_tokens z p)
          else None
      | None => None
      end
  | UserState.awaiting_system_prompt =>
      if negb (bool_decide (Some v = system_prompt p))
      then Some (with_system_prompt (Some v) p)
      else None
  | UserState.idle => None
  end.

(** The text [v] is a token count to be stored that does not fit the
    64-bit column. *)
Definition overflows (py_int : string -> option Z) (s : UserState.state)
    (v : string) (p : UserData) : bool :=
  match s with
  | UserState.awaiting_max_tokens =>
      match py_int v with
      | Some z => is_positive z && negb (z =? max_tokens p) && negb (fits_int64 z)
      | None => false
      end
  | _ => false
  end.

(** Store [d'] is store [d] after [change]: a changed profile has been
    written to its row and is the one the cache shows for its user; without
    a change both stores show the same profiles. *)
Definition stored_change (cfg : Config) (now : Q) (change : option UserData)
    (d d' : UserDataDB) : Prop :=
  match change with
  | Some p' =>
      rows d' = <[user_id p' := written_row cfg p']> (rows d)
      /\ TTLCache.peek now (user_id p') (cache d') = Some p'
  | None => db_same_view now d d'
  end.

Definition is_reset_job (j : Q * Job) : Prop := exists uid, j.2 = reset_state_job uid.

(** ** Example data *)

(** The replacement fields of the templates in the examples. *)
Definition template_fields0 (lang key : string) : list string :=
  if bool_decide (key = "PARAM_SET"%string) then ["param"; "value"]%string
  else if bool_decide (key = "PARAM_INVALID_VALUE"%string) then ["param"%string]
  else if bool_decide (key ∈ ["MODEL_SET"; "MAX_TOKENS_SET"; "SPEAKER_SET";
                              "LANGUAGE_SET"]%string)
       then ["value"%string]
  else [].

(** 0.7 and 0.9 as the floats the YAML loader reads them as. *)
Definition float_0_7 : pyfloat := Finite (3152519739159347 # 4503599627370496).
Definition float_0_9 : pyfloat := Finite (8106479329266893 # 9007199254740992).

Definition cfg0 : Config :=
  {| cfg_default_model := "m1"; cfg_system_prompt := "be kind";
     cfg_temperature := float_0_7; cfg_top_p := float_0_9;
     cfg_max_tokens := 256; cfg_language := "en"; cfg_speaker := "anna";
     cfg_max_message_history_num := 2; cfg_max_cache_size := 10;
     cfg_max_ttl := 600;
     cfg_global_max_requests := 5; cfg_global_time_frame_seconds := 1;
     cfg_user_max_requests := 1; cfg_user_time_frame_seconds := 10;
     cfg_available_models := ["m1"; "m2"]; cfg_speakers := ["anna"];
     cfg_whitelist_mode := false; cfg_languages := ["en"; "ru"];
     cfg_template_fields := template_fields0 |}%string.

(** [int(str)] and [float(str)] on ASCII text.  Both strip blanks (tab,
    line feed, vertical tab, form feed, carriage return, space), take one
    sign, and allow a single underscore between two digits. *)
Definition is_space (c : Ascii.ascii) : bool :=
  let n := Ascii.nat_of_ascii c in
  (((9 <=? n) && (n <=? 13)) || (n =? 32))%nat.

Definition digit (c : Ascii.ascii) : option Z :=
  let n := Ascii.nat_of_ascii c in
  if ((48 <=? n) && (n <=? 57))%nat then Some (Z.of_nat (n - 48)) else None.

Fixpoint lstrip (l : list Ascii.ascii) : list Ascii.ascii :=
  match l with
  | c :: rest => if is_space c then lstrip rest else l
  | [] => []
  end.

Definition strip (s : string) : list Ascii.ascii :=
  rev (lstrip (rev (lstrip (list_ascii_of_string s)))).

(** An optional sign: whether it is a minus, and what follows it. *)
Definition read_sign (l : list Ascii.ascii) : bool * list Ascii.ascii :=
  match l with
  | "-"%char :: rest => (true, rest)
  | "+"%char :: rest => (false, rest)
  | _ => (false, l)
  end.

(** The longest run of digits at the front of [l], an underscore being
    skipped when it stands between two digits: the digits read, first
    digit first, and the rest. *)
Fixpoint read_digits (l : list Ascii.ascii) (acc : list Z)
  : list Z * list Ascii.ascii :=
  match l with
  | c :: rest =>
      match digit c with
      | Some d => read_digits rest (acc ++ [d])
      | None =>
          match acc, rest with
          | _ :: _, c' :: _ =>
              if Ascii.eqb c "_" && bool_decide (is_Some (digit c'))
              then read_digits rest acc
              else (acc, l)
          | _, _ => (acc, l)
          end
      end
  | [] => (acc, [])
  end.

Definition number_of (ds : list Z) : Z := foldl (fun n d => 10 * n + d) 0 ds.

(** [int(s)]: blanks, a sign, digits, blanks.  More than 4300 digits are
    refused, which is the interpreter's limit on the length of a number
    given as text. *)
Definition integer (s : string) : option Z :=
  let '(negative, l) := read_sign (strip s) in
  match read_digits l [] with
  | (d :: ds, []) =>
      if (4300 <? length (d :: ds))%nat then None
      else Some (if negative : bool then - number_of (d :: ds) else number_of (d :: ds))
  | _ => None
  end.

(** [floor (log2 (num / den))] for positive [num] and [den]. *)
Definition binade (num den : Z) : Z :=
  let e := Z.log2 num - Z.log2 den in
  if (if 0 <=? e then den * 2 ^ e <=? num else den <=? num * 2 ^ (- e))
  then e else e - 1.

(** [a / b] rounded to the nearest integer, a tie to the even one; and
    whether the quotient was exact. *)
Definition round_half_even (a b : Z) : Z * bool :=
  let q := a / b in
  let r := a mod b in
  (if (b <? 2 * r) || ((2 * r =? b) && Z.odd q) then q + 1 else q, r =? 0).

(** The binary64 value nearest to [num / den], for positive [num] and
    [den]: 53 bits of precision, exponents from -1074 on, infinity from
    [2 ^ 1024] on.  [exact] is the rational to return when [num / den] is a
    binary64 value itself. *)
Definition to_binary64 (num den : Z) (exact : Q) : pyfloat :=
  let t := Z.max (binade num den - 52) (- 1074) in
  let '(n, is_exact) :=
    if 0 <=? t then round_half_even num (den * 2 ^ t)
    else round_half_even (num * 2 ^ (- t)) den in
  if 0 <=? t then
    if 2 ^ 1024 <=? n * 2 ^ t then Inf false
    else Finite (if is_exact : bool then exact else (n * 2 ^ t) # 1)
  else Finite (if is_exact : bool then exact else n # Z.to_pos (2 ^ (- t))).

(** The value of the decimal [m * 10 ^ e] for a positive [m] of [digits]
    decimal digits.  A decimal above every float is infinity and one below
    half the smallest float is zero, whatever its digits. *)
Definition decimal_value (m e : Z) (digits : nat) : pyfloat :=
  if 309 <? Z.of_nat digits + e then Inf false
  else if Z.of_nat digits + e <? - 324 then Finite 0
  else if 0 <=? e then to_binary64 (m * 10 ^ e) 1 ((m * 10 ^ e) # 1)
  else to_binary64 m (10 ^ (- e)) (m # Z.to_pos (10 ^ (- e))).

Definition negate (negative : bool) (v : pyfloat) : pyfloat :=
  if negative then
    match v with
    | Finite q => Finite (- q)
    | Inf _ => Inf true
    | NaN => NaN
    end
  else v.

Fixpoint drop_zeros (ds : list Z) : list Z :=
  match ds with
  | 0 :: rest => drop_zeros rest
  | _ => ds
  end.

(** The exponent part of a float literal, if [l] is one. *)
Definition read_exponent (l : list Ascii.ascii) : option Z :=
  match l with
  | [] => Some 0
  | c :: rest =>
      if Ascii.eqb c "e" || Ascii.eqb c "E" then
        let '(negative, rest) := read_sign rest in
        match read_digits rest [] with
        | (d :: ds, []) =>
            Some (if negative : bool then - number_of (d :: ds) else number_of (d :: ds))
        | _ => None
        end
      else None
  end.

(** [float(s)]: blanks, a sign, then [inf], [infinity] or [nan] in any
    case, or digits with an optional point and exponent, at least one digit
    before or after the point; the decimal is rounded to the nearest
    float. *)
Definition decimal (s : string) : option pyfloat :=
  let '(negative, l) := read_sign (strip s) in
  let name := lowercase (string_of_list_ascii l) in
  if String.eqb name "inf" || String.eqb name "infinity"
  then Some (Inf negative)
  else if String.eqb name "nan" then Some NaN
  else
    let '(whole, l) := read_digits l [] in
    let '(fraction, l) :=
      match l with
      | "."%char :: rest => read_digits rest []
      | _ => ([], l)
      end in
    match whole ++ fraction with
    | [] => None
    | _ =>
        match read_exponent l with
        | Some e =>
            let ds := drop_zeros (whole ++ fraction) in
            Some (negate negative
                    match ds with
                    | [] => Finite 0
                    | _ => decimal_value (number_of ds)
                             (e - Z.of_nat (length fraction)) (length ds)
                    end)
        | None => None
        end
    end.

(** A stand-in for [process_message] in runs that schedule no message. *)
Definition no_provider : Update -> option UserData -> M Bot unit :=
  fun _ _ => mret tt.

(** A handler that does nothing. *)
Definition noop : Handler := fun _ => mret tt.

(** A profile with three turns of history, one more than [cfg0] keeps. *)
Definition chatty : UserData :=
  with_message_history
    [ {| role := "user"; content := "hi" |};
      {| role := "assistant"; content := "hello" |};
      {| role := "user"; content := "bye" |} ]%string
    (UserData_defaults cfg0 1).

(** An empty store, and a store that holds a row for user 7. *)
Definition db0 : UserDataDB := UserDataDB_init cfg0 ∅.

Definition db7 : UserDataDB :=
  UserDataDB_init cfg0
    {[ 7 := {| row_user_name := None; row_data := UserData_defaults cfg0 7 |} ]}.

(** A [/start] message from user [uid]. *)
Definition start_update (uid : Z) : Update :=
  {| effective_user := uid; message := Some {| text := Some "/start"%string |};
     callback_query := None |}.

(** A text message from user [uid]. *)
Definition text_update (uid : Z) (s : string) : Update :=
  {| effective_user := uid; message := Some {| text := Some s |};
     callback_query := None |}.

(** A press of the settings button [p] by user [uid]. *)
Definition press (uid : Z) (c : callback) : Update :=
  {| effective_user := uid; message := None; callback_query := Some c |}.

(** A bot whose store holds the default profile of user 1, cached. *)
Definition bot1 : Bot :=
  with_user_db (update_user_data cfg0 0 (UserData_defaults cfg0 1) db0).2
    (TelegramBot_init cfg0 0 ∅).

(** The same bot when user 1 has used up the one permit of the user
    scope, and when the five permits of the global scope are used up. *)
Definition bot1_user_full : Bot :=
  with_user_limiters
    {[ 1 := AsyncLimiter.add_level 1 (AsyncLimiter.init 1 10) ]} bot1.

Definition bot1_global_full : Bot :=
  with_global_limiter (AsyncLimiter.add_level 5 (AsyncLimiter.init 5 1)) bot1.

(** User 1 has pressed "set temperature" ten seconds ago. *)
Definition bot1_awaiting_temperature : Bot :=
  with_clock 10
    (button cfg0 (press 1 (CbSet Temperature)) bot1).2.

(** User 1 has pressed "set max tokens" ten seconds ago. *)
Definition bot1_awaiting_max_tokens : Bot :=
  with_clock 10
    (button cfg0 (press 1 (CbSet MaxTokens)) bot1).2.

(** User 1 is being asked for a top-p value. *)
Definition bot1_awaiting_top_p : Bot :=
  (button cfg0 (press 1 (CbSet TopP)) bot1).2.

(** A run of user 1: "set temperature" is pressed at time 0; the dialog is
    completed with "0.5" at time 10; "set top-p" is pressed at time 290. *)
Definition run_opened : Bot :=
  (button cfg0 (press 1 (CbSet Temperature)) bot1).2.

Definition run_completed : Bot :=
  (handle_message cfg0 decimal integer (text_update 1 "0.5")
     (advance_to no_provider 10 run_opened)).2.

Definition run_reopened : Bot :=
  (button cfg0 (press 1 (CbSet TopP)) (advance_to no_provider 290 run_completed)).2.

(** ** Claims as the spec states them *)

(** C2 as the spec states it: after [update] the row holds the history cut
    to the most recent N entries and the cache entry is that persisted
    value. *)
Definition update_caches_persisted (cfg : Config) (now : Q) (p : UserData)
    (d : UserDataDB) : Prop :=
  let d' := (update_user_data cfg now p d).2 in
  exists r, rows d' !! user_id p = Some r
    /\ message_history (row_data r)
       = most_recent (cfg_max_message_history_num cfg) (message_history p)
    /\ TTLCache.peek now (user_id p) (cache d') = Some (row_data r).

(** C3 as the spec states it, read on the global scope: a request whose
    global check succeeds has consumed one global permit when the
    decorator is done with it. *)
Definition check_consumes_permit (cfg : Config) (func : Handler)
    (update : Update) (b : Bot) : Prop :=
  capacity (clock b) (global_limiter b) = true ->
  (AsyncLimiter.level (global_limiter (rate_limit cfg func update b).2)
   == AsyncLimiter.level (AsyncLimiter.leak (clock b) (global_limiter b)) + 1)%Q.

(** C9 as the spec states it: a trigger is accepted only when it is
    [return_to_idle], or a parameter-set trigger fired in [idle]. *)
Definition only_declared_enabled : Prop :=
  forall t s s',
    UserState.fire t s = (Val true, s') ->
    (t = UserState.return_to_idle /\ s' = UserState.idle)
    \/ (s = UserState.idle /\ awaited t = Some s').


(** C4 as the spec states it, for a timeout whose dialog was completed
    before [due]: when the clock reaches [due] the session state of the
    user is what it was. *)
Definition timeout_is_preempted (b : Bot) (uid : Z) (due : Q) : Prop :=
  sessions (advance_to no_provider due b) !! uid = sessions b !! uid.

(** ** The store and the bot over many calls *)

(** The calls of the store's interface. *)
Inductive db_call : Type :=
| call_get_user_data (uid : Z)
| call_update_user_data (p : UserData)
| call_create_user (uid : Z) (user_name : arg (option string))
| call_set_flag (f : flag) (uid : Z) (v : bool)
| call_invalidate_cache (uid : Z).

(** The store after a call made at time [c.1], whether the call returned
    or raised. *)
Definition after_call (cfg : Config) (d : UserDataDB) (c : Q * db_call) : UserDataDB :=
  match c.2 with
  | call_get_user_data uid => (get_user_data cfg c.1 uid d).2
  | call_update_user_data p => (update_user_data cfg c.1 p d).2
  | call_create_user uid user_name => (create_user cfg c.1 uid user_name d).2
  | call_set_flag f uid v => (set_flag f c.1 uid v d).2
  | call_invalidate_cache uid => (invalidate_cache c.1 uid d).2
  end.

Definition after_calls (cfg : Config) (cs : list (Q * db_call)) (d : UserDataDB)
  : UserDataDB :=
  foldl (after_call cfg) d cs.

(** A cache created with [maxsize = m] that holds at most that many items
    and at most one per key. *)
Definition cache_of_size (m : Z) (c : TTLCache.t) : Prop :=
  TTLCache.maxsize c = m
  /\ Z.of_nat (length (TTLCache.links c)) <= Z.max 0 (TTLCache.maxsize c)
  /\ NoDup (TTLCache.key <$> TTLCache.links c).

(** What reaches the bot: an update for one of the handlers registered by
    [setup_handlers], told apart by the decorators the handler carries, or
    the passing of time.  [body] is the handler below its decorators. *)
Inductive event : Type :=
| start_command (update : Update)
| guarded_update (body : Handler) (update : Update)
| admin_command (body : Handler) (update : Update)
| clock_reaches (t : Q).

Definition after_event (cfg : Config) (admin_users : gset Z)
    (process : Update -> option UserData -> M Bot unit) (b : Bot) (e : event) : Bot :=
  match e with
  | start_command update => (start cfg update b).2
  | guarded_update body update =>
      (user_access_required cfg (user_data_required cfg (rate_limit cfg body))
         update b).2
  | admin_command body update =>
      (admin_required cfg admin_users (user_data_required cfg body) update b).2
  | clock_reaches t => advance_to process t b
  end.

(** A refusal in English, the text for a user without a profile. *)
Definition is_refusal (s : Sent) : Prop :=
  exists uid key,
    s = ReplyText uid {| text_language := "en"; text_key := key; text_args := [] |}
    /\ (key = "NO_PERMISSION" \/ key = "ADMIN_PERMISSION_DENIED")%string.

(** [b] is [b0] but for the clock and for refusals sent. *)
Definition only_refusals (b0 b : Bot) : Prop :=
  user_db b = user_db b0
  /\ global_limiter b = global_limiter b0
  /\ user_limiters b = user_limiters b0
  /\ sessions b = sessions b0
  /\ job_queue b = job_queue b0
  /\ exists refusals, outbox b = outbox b0 ++ refusals /\ Forall is_refusal refusals.

(** ** The administration commands *)

(** The three flag commands, by the flag they set, and the keys of their
    replies. *)
Definition flag_command (cfg : Config) (py_int : string -> option Z)
    (admin_users : gset Z) (f : flag) : list string -> Handler :=
  match f with
  | Admin => admin_set_admin cfg py_int admin_users
  | Whitelist => admin_whitelist cfg py_int admin_users
  | Blacklist => admin_blacklist cfg py_int admin_users
  end.

Definition flag_reply (f : flag) : string :=
  match f with
  | Admin => "USER_ADMINED"
  | Whitelist => "USER_WHITELISTED"
  | Blacklist => "USER_BLACKLISTED"
  end.

(** The test of [is_admin] on a user with profile [p]: listed in the
    configuration, or flagged in the profile. *)
Definition admin_by (admin_users : gset Z) (uid : Z) (p : UserData) : bool :=
  bool_decide (uid ∈ admin_users) || is_admin p.

(** The texts a broadcast hands over: one per recipient that can be
    reached, in the order of the recipients. *)
Definition broadcast_texts (delivers : Z -> bool) (args : list string)
    (users : list Z) : list Outgoing :=
  (fun u => {| chat_id := u; body := String.concat " " args |})
    <$> List.filter delivers users.

(** ** Bursts of requests *)

(** A handler that leaves a mark in the outbox and does nothing else. *)
Definition probe : Handler := fun update =>
  send (ChatAction (effective_user update) "ran").

(** [n] requests of one user, one after the other at one instant, each
    through [rate_limit]. *)
Fixpoint burst (cfg : Config) (n : nat) (update : Update) (b : Bot) : Bot :=
  match n with
  | O => b
  | S n' => burst cfg n' update (rate_limit cfg probe update b).2
  end.

Definition is_mark (s : Sent) : bool :=
  match s with
  | ChatAction _ _ => true
  | _ => false
  end.

(** How often the probe has run. *)
Definition runs (b : Bot) : nat := length (List.filter is_mark (outbox b)).

(** A limiter that holds no more than [max_rate] and has not been looked
    at for a full time frame. *)
Definition rested (now : Q) (l : AsyncLimiter.t) : Prop :=
  (1 <= AsyncLimiter.max_rate l
   /\ 0 < AsyncLimiter.time_period l
   /\ AsyncLimiter.level l <= AsyncLimiter.max_rate l
   /\ AsyncLimiter.last_check l + AsyncLimiter.time_period l <= now)%Q.

(** ** More example data *)

(** A configuration whose cache holds two profiles and whose [PARAM_SET]
    template shows the name of the parameter only. *)
Definition template_fields1 (lang key : string) : list string :=
  if bool_decide (key = "PARAM_SET"%string) then ["param"%string]
  else template_fields0 lang key.

Definition cfg1 : Config :=
  {| cfg_default_model := "m1"; cfg_system_prompt := "be kind";
     cfg_temperature := float_0_7; cfg_top_p := float_0_9;
     cfg_max_tokens := 256; cfg_language := "en"; cfg_speaker := "anna";
     cfg_max_message_history_num := 2; cfg_max_cache_size := 2;
     cfg_max_ttl := 600;
     cfg_global_max_requests := 5; cfg_global_time_frame_seconds := 1;
     cfg_user_max_requests := 1; cfg_user_time_frame_seconds := 10;
     cfg_available_models := ["m1"; "m2"]; cfg_speakers := ["anna"];
     cfg_whitelist_mode := false; cfg_languages := ["en"; "ru"];
     cfg_template_fields := template_fields1 |}%string.

(** A store of [cfg1] whose cache is full: the profile of user 1 was
    stored first, the one of user 2 after it. *)
Definition db12 : UserDataDB :=
  (update_user_data cfg1 0 (UserData_defaults cfg1 2)
     (update_user_data cfg1 0 (UserData_defaults cfg1 1)
        (UserDataDB_init cfg1 ∅)).2).2.

(** A voice message from user [uid]. *)
Definition voice_update (uid : Z) : Update :=
  {| effective_user := uid; message := Some {| text := None |};
     callback_query := None |}.




(** User 2 has chosen Russian; in [bot1_and_2] the profiles of users 1 and
    2 are stored and cached. *)
Definition russian2 : UserData := with_language "ru" (UserData_defaults cfg0 2).

Definition bot1_and_2 : Bot :=
  with_user_db (update_user_data cfg0 0 russian2 (user_db bot1)).2 bot1.

(** The cached profile of user 1 is blacklisted. *)
Definition blacklisted1 : UserData :=
  with_is_blacklisted true (UserData_defaults cfg0 1).

Definition bot1_blacklisted : Bot :=
  with_user_db (update_user_data cfg0 0 blacklisted1 db0).2
    (TelegramBot_init cfg0 0 ∅).

(** No user is in the dialog that reads a model name from a text message. *)
Definition no_model_dialog (b : Bot) : Prop :=
  forall uid, sessions b !! uid <> Some UserState.awaiting_model.

(** A computation that leaves every dialog as it is. *)
Definition keeps_sessions {A} (m : M Bot A) : Prop :=
  forall b, sessions (m b).2 = sessions b.

(** A computation that opens no model dialog. *)
Definition opens_no_model_dialog {A} (m : M Bot A) : Prop :=
  forall b, no_model_dialog b -> no_model_dialog (m b).2.


(** * Properties *)

(** ** Names *)

(** The parameter names [handle_setting_update] derives from the state with
    [state.split("_", 1)[1]], and the callback data of the settings buttons,
    which are the names of the triggers [button] fires with [getattr]. *)
Example names_from_states :
  after_first "_" (UserState.state_name UserState.awaiting_temperature)
  = Some (param_name P_temperature)
  /\ after_first "_" (UserState.state_name UserState.awaiting_top_p)
     = Some (param_name P_top_p)
  /\ after_first "_" (UserState.state_name UserState.awaiting_system_prompt)
     = Some "system_prompt"%string
  /\ after_first "_" (UserState.state_name UserState.idle) = None
  /\ capitalize (param_name P_top_p) = "Top_p"%string
  /\ List.map (fun p => query_data (CbSet p)) [SystemPrompt; Temperature; TopP; MaxTokens]
     = ["set_system_prompt"; "set_temperature"; "set_top_p"; "set_max_tokens"]%string.
Proof. repeat split; reflexivity. Qed.

(** ** Records and the monad *)

Lemma with_user_db_id (b : Bot) : with_user_db (user_db b) b = b.
Proof. by destruct b. Qed.

Lemma Qltb_true (a b : Q) : Qltb a b = true <-> (a < b)%Q.
Proof.
  unfold Qltb. rewrite negb_true_iff, <- not_true_iff_false, Qle_bool_iff.
  split; [apply Qnot_le_lt | apply Qlt_not_le].
Qed.

(** ** The cache *)

Lemma find_remove (k : Z) (l : list TTLCache.link) :
  List.find (TTLCache.has_key k) (TTLCache.remove k l) = None.
Proof.
  induction l as [|e l IH]; [done|].
  unfold TTLCache.remove in *. simpl.
  destruct (TTLCache.has_key k e) eqn:E; simpl; [done|]. by rewrite E.
Qed.

Lemma find_stored (k : Z) (l : list TTLCache.link) (e : TTLCache.link) :
  TTLCache.key e = k ->
  List.find (TTLCache.has_key k) (TTLCache.remove k l ++ [e]) = Some e.
Proof.
  intros He. induction l as [|x l IH]; simpl.
  - unfold TTLCache.has_key. rewrite He, Z.eqb_refl. done.
  - unfold TTLCache.remove in *. simpl.
    destruct (TTLCache.has_key k x) eqn:E; simpl; [done|]. by rewrite E.
Qed.

(** A value stored in a cache that can hold at least one item and keeps
    items for a positive time is what a read at the same instant sees. *)
Lemma setitem_peek (now : Q) (k : Z) (v : UserData) (c : TTLCache.t) :
  1 <= TTLCache.maxsize c -> (0 < TTLCache.ttl c)%Q ->
  exists c', TTLCache.setitem now k v c = (Val tt, c')
    /\ TTLCache.peek now k c' = Some v
    /\ TTLCache.contains now k c' = true
    /\ TTLCache.maxsize c' = TTLCache.maxsize c
    /\ TTLCache.ttl c' = TTLCache.ttl c.
Proof.
  intros Hsize Httl. unfold TTLCache.setitem.
  destruct (TTLCache.maxsize c <? 1) eqn:E; [apply Z.ltb_lt in E; lia|].
  eexists; split; [reflexivity|].
  assert (Hlive : TTLCache.live now
            {| TTLCache.key := k; TTLCache.expires := (now + TTLCache.ttl c)%Q;
               TTLCache.value := v |} = true).
  { unfold TTLCache.live. simpl. apply Qltb_true. lra. }
  unfold TTLCache.peek, TTLCache.contains, TTLCache.find. simpl.
  rewrite find_stored by done. rewrite Hlive. done.
Qed.

(** After [invalidate_cache] the user has no live cache entry, whatever
    the cache held before. *)
Lemma invalidate_cache_contains (now : Q) (uid : Z) (d : UserDataDB) :
  TTLCache.contains now uid (cache (invalidate_cache now uid d).2) = false
  /\ rows (invalidate_cache now uid d).2 = rows d
  /\ (invalidate_cache now uid d).1 = Val tt.
Proof.
  unfold invalidate_cache, mbind, M_bind, bind, gets, cache_op, zoom. simpl.
  destruct (TTLCache.contains now uid (cache d)) eqn:E.
  - unfold TTLCache.delitem. unfold TTLCache.contains in E.
    destruct (TTLCache.find uid (cache d)) as [e|]; [|done].
    rewrite E. simpl. split; [|done].
    unfold TTLCache.contains, TTLCache.find. simpl. by rewrite find_remove.
  - simpl. done.
Qed.

(** ** The dataclass constructor *)

(** The keywords built from a row include [user_name], which is no field
    of [UserData]: the constructor call of [get_user_data] always fails. *)
Lemma UserData_init_row (cfg : Config) (r : Row) :
  UserData_init cfg (row_kwargs r) = inl TypeError.
Proof. reflexivity. Qed.

Lemma UserData_init_user_name (cfg : Config) (uid : Z) (name : option string) :
  UserData_init cfg [kw_user_id uid; kw_user_name name] = inl TypeError.
Proof. reflexivity. Qed.

(** A read of a profile that is neither cached nor stored returns [None]
    and changes nothing. *)
Lemma get_user_data_absent (cfg : Config) (now : Q) (uid : Z) (d : UserDataDB) :
  TTLCache.contains now uid (cache d) = false ->
  rows d !! uid = None ->
  get_user_data cfg now uid d = (Val None, d).
Proof.
  intros Hc Hr. cbv [get_user_data mbind M_bind bind gets].
  rewrite Hc, Hr. done.
Qed.

(** A read of a stored profile that is not cached raises [TypeError]. *)
Lemma get_user_data_stored (cfg : Config) (now : Q) (uid : Z) (d : UserDataDB) (r : Row) :
  TTLCache.contains now uid (cache d) = false ->
  rows d !! uid = Some r ->
  get_user_data cfg now uid d = (Exc TypeError, d).
Proof.
  intros Hc Hr. cbv [get_user_data mbind M_bind bind gets].
  rewrite Hc, Hr, UserData_init_row. done.
Qed.

Lemma find_app {A} (f : A -> bool) (l1 l2 : list A) :
  List.find f (l1 ++ l2) =
  match List.find f l1 with Some x => Some x | None => List.find f l2 end.
Proof. induction l1 as [|x l1 IH]; simpl; [done|]. by destruct (f x). Qed.

Lemma find_remove_ne (k k' : Z) (l : list TTLCache.link) :
  k' <> k ->
  List.find (TTLCache.has_key k') (TTLCache.remove k l)
  = List.find (TTLCache.has_key k') l.
Proof.
  intros Hne. induction l as [|x l IH]; [done|].
  unfold TTLCache.remove in *. simpl.
  destruct (TTLCache.has_key k x) eqn:Ek, (TTLCache.has_key k' x) eqn:Ek';
    simpl; rewrite ?Ek'; try done.
  unfold TTLCache.has_key in Ek, Ek'. apply Z.eqb_eq in Ek, Ek'. congruence.
Qed.

Lemma find_has_key (k : Z) (l : list TTLCache.link) (e : TTLCache.link) :
  List.find (TTLCache.has_key k) l = Some e -> TTLCache.key e = k.
Proof.
  intros H. apply List.find_some in H as [_ H].
  unfold TTLCache.has_key in H. by apply Z.eqb_eq in H.
Qed.

(** Reading an item makes it the most recently used one and changes what
    no key maps to. *)
Lemma find_touch (k k' : Z) (l : list TTLCache.link) (e : TTLCache.link) :
  List.find (TTLCache.has_key k) l = Some e ->
  List.find (TTLCache.has_key k') (TTLCache.remove k l ++ [e])
  = List.find (TTLCache.has_key k') l.
Proof.
  intros H. pose proof (find_has_key _ _ _ H) as Hk.
  destruct (decide (k' = k)) as [->|Hne].
  - by rewrite find_stored, H.
  - rewrite find_app, find_remove_ne by done.
    destruct (List.find (TTLCache.has_key k') l); [done|]. simpl.
    unfold TTLCache.has_key. rewrite Hk.
    by destruct (Z.eqb_spec k k'); [congruence|].
Qed.

Lemma db_same_view_trans (now : Q) (d1 d2 d3 : UserDataDB) :
  db_same_view now d1 d2 -> db_same_view now d2 d3 -> db_same_view now d1 d3.
Proof.
  intros (Ha&Hb&Hc&Hd) (Ha'&Hb'&Hc'&Hd').
  split; [congruence|]. split; [congruence|]. split; [congruence|].
  intros k. by rewrite Hd', Hd.
Qed.

Lemma peek_contains (now : Q) (k : Z) (c : TTLCache.t) (u : UserData) :
  TTLCache.peek now k c = Some u -> TTLCache.contains now k c = true.
Proof.
  unfold TTLCache.peek, TTLCache.contains.
  destruct (TTLCache.find k c) as [e|]; [|done]. by destruct (TTLCache.live now e).
Qed.

(** A read of a cached profile returns the cached value and leaves the
    view of the store unchanged. *)
Lemma get_user_data_cached (cfg : Config) (now : Q) (uid : Z) (d : UserDataDB)
    (u : UserData) :
  TTLCache.peek now uid (cache d) = Some u ->
  exists d', get_user_data cfg now uid d = (Val (Some u), d')
    /\ db_same_view now d d'.
Proof.
  intros Hp. pose proof (peek_contains _ _ _ _ Hp) as Hc.
  cbv [get_user_data mbind M_bind bind gets cache_op zoom].
  rewrite Hc. unfold TTLCache.getitem.
  unfold TTLCache.peek in Hp.
  destruct (TTLCache.find uid (cache d)) as [e|] eqn:E; [|done].
  destruct (TTLCache.live now e) eqn:L; [|done].
  injection Hp as <-. eexists; split; [reflexivity|].
  repeat split. intros k. unfold TTLCache.peek, TTLCache.find. simpl.
  unfold TTLCache.find in E. by rewrite (find_touch _ _ _ _ E).
Qed.

(** ** The profile store *)

(** For a positive bound the slice [l[-n:]] is the last [n] entries. *)
Lemma slice_from_most_recent {A} (n : Z) (l : list A) :
  1 <= n -> slice_from (- n) l = most_recent n l.
Proof.
  intros Hn. unfold slice_from, most_recent.
  destruct (Z.ltb_spec (- n) 0) as [_|]; [|lia]. f_equal. lia.
Qed.

(** The slice [l[-n:]] keeps everything for [n = 0], which is why the
    bound has to be positive for "the most recent n". *)
Example slice_from_minus_zero :
  slice_from (- 0) [1; 2; 3] = [1; 2; 3]
  /\ slice_from (- 2) [1; 2; 3] = [2; 3]
  /\ slice_from (- 5) [1; 2; 3] = [1; 2; 3].
Proof. repeat split; reflexivity. Qed.

Lemma update_user_data_spec (cfg : Config) (now : Q) (p : UserData) (d : UserDataDB) :
  1 <= TTLCache.maxsize (cache d) -> (0 < TTLCache.ttl (cache d))%Q ->
  exists d', update_user_data cfg now p d = (Val tt, d')
    /\ rows d' = <[user_id p := written_row cfg p]> (rows d)
    /\ TTLCache.peek now (user_id p) (cache d') = Some p
    /\ TTLCache.maxsize (cache d') = TTLCache.maxsize (cache d)
    /\ TTLCache.ttl (cache d') = TTLCache.ttl (cache d).
Proof.
  intros Hsize Httl.
  destruct (setitem_peek now (user_id p) p (cache d) Hsize Httl)
    as (c' & Hset & Hpeek & _ & Hm & Ht).
  cbv [update_user_data mbind M_bind bind modify cache_op zoom to_dict].
  cbn [cache with_rows]. rewrite Hset.
  eexists; split; [reflexivity|]. cbn. done.
Qed.

(** C1 (the code fails the claim).  When the profile of the user is
    neither cached nor stored, [user_data_required] does not create a
    default profile: its call [create_user(user_id)] leaves out the required
    parameter [user_name] and raises [TypeError], the store is left as it
    was and the wrapped handler is not run.  Passing a name would not help:
    [create_user] builds [UserData(user_id=.., user_name=..)], and
    [user_name] is no field of the dataclass. *)
Theorem C1_absent_profile_raises_TypeError
    (cfg : Config) (func : Handler) (update : Update) (b : Bot) :
  TTLCache.contains (clock b) (effective_user update) (cache (user_db b)) = false ->
  rows (user_db b) !! effective_user update = None ->
  user_data_required cfg func update b = (Exc TypeError, b)
  /\ forall name,
       create_user cfg (clock b) (effective_user update) (Passed name) (user_db b)
       = (Exc TypeError, user_db b).
Proof.
  intros Hc Hr. split.
  - cbv [user_data_required mbind M_bind bind db zoom].
    rewrite (get_user_data_absent cfg _ _ _ Hc Hr).
    cbn. by rewrite !with_user_db_id.
  - intros name. unfold create_user. by rewrite UserData_init_user_name.
Qed.

Lemma C1_absent_profile_witness :
  user_data_required cfg0 (fun _ => mret tt) (start_update 42)
    (TelegramBot_init cfg0 0 ∅)
  = (Exc TypeError, TelegramBot_init cfg0 0 ∅).
Proof.
  apply (C1_absent_profile_raises_TypeError cfg0 (fun _ => mret tt)
           (start_update 42) (TelegramBot_init cfg0 0 ∅)); reflexivity.
Defined.

(** C2 (counterexample).  With a bound of 2, updating a profile whose
    history has 3 turns persists the last 2 turns but caches all 3: the
    cache entry is not the persisted value. *)
Lemma C2_cache_differs_from_persisted :
  ~ update_caches_persisted cfg0 0 chatty db0.
Proof.
  intros (r & Hr & Hh & Hp). vm_compute in Hr, Hp.
  injection Hr as <-. discriminate Hp.
Qed.

(** C2 (as amended).  For a positive bound N and a profile whose id and
    token count fit the 64-bit columns of the table, [update] persists the
    profile with its history cut to the most recent N entries, whatever the
    cache does afterwards; the persisted history is the one passed in
    exactly when that has at most N entries.  A cache that holds at least
    one item for a positive time then shows, for the user, the profile as
    it was passed in, history uncut.  With a time to live that is not
    positive the item has expired when it is stored, so the cache shows no
    profile for the user; and a cache of size below 1 refuses the item with
    [ValueError] once the row is written, and receives nothing. *)
Theorem C2_update_persists_truncated_caches_argument
    (cfg : Config) (now : Q) (p : UserData) (d : UserDataDB) :
  let N := cfg_max_message_history_num cfg in
  let r := update_user_data cfg now p d in
  let cached := TTLCache.peek now (user_id p) (cache r.2) in
  1 <= N ->
  fits_int64 (user_id p) = true ->
  fits_int64 (max_tokens p) = true ->
  (exists row,
     rows r.2 !! user_id p = Some row
     /\ row_data row = with_message_history (most_recent N (message_history p)) p
     /\ (message_history p = message_history (row_data row)
         <-> (length (message_history p) <= Z.to_nat N)%nat))
  /\ (1 <= TTLCache.maxsize (cache d) -> (0 < TTLCache.ttl (cache d))%Q ->
      r.1 = Val tt /\ cached = Some p)
  /\ (1 <= TTLCache.maxsize (cache d) -> (TTLCache.ttl (cache d) <= 0)%Q ->
      r.1 = Val tt /\ cached = None)
  /\ (TTLCache.maxsize (cache d) < 1 ->
      r.1 = Exc ValueError
      /\ TTLCache.links (cache r.2)
         = List.filter (TTLCache.live now) (TTLCache.links (cache d))).
Proof.
  intros N r cached HN _ _. subst N r cached. split; [|split; [|split]].
  - exists (written_row cfg p). split.
    + cbv [update_user_data mbind M_bind bind modify cache_op zoom to_dict].
      cbn [cache with_rows rows].
      destruct (TTLCache.setitem now (user_id p) p (cache d)) as [r c].
      cbn [snd with_cache rows with_message_history user_id].
      unfold written_row. apply lookup_insert_eq.
    + unfold written_row. cbn [row_data].
      rewrite slice_from_most_recent by done. split; [done|].
      cbn [message_history with_message_history]. unfold most_recent. split.
      * intros Heq. apply (f_equal length) in Heq. rewrite length_drop in Heq. lia.
      * intros Hle.
        replace (length (message_history p)
                 - Z.to_nat (cfg_max_message_history_num cfg))%nat with 0%nat by lia.
        done.
  - intros Hsize Httl.
    destruct (update_user_data_spec cfg now p d Hsize Httl)
      as (d' & Hupd & _ & Hpeek & _ & _).
    by rewrite Hupd.
  - intros Hsize Httl.
    cbv [update_user_data mbind M_bind bind modify cache_op zoom to_dict].
    cbn [cache with_rows]. unfold TTLCache.setitem.
    destruct (Z.ltb_spec (TTLCache.maxsize (cache d)) 1) as [|_]; [lia|].
    cbn [fst snd cache with_cache]. split; [done|].
    unfold TTLCache.peek, TTLCache.find.
    cbn [TTLCache.links TTLCache.with_links].
    rewrite find_stored by done. unfold TTLCache.live. cbn [TTLCache.expires].
    cbn [TTLCache.expire TTLCache.ttl TTLCache.with_links].
    replace (Qltb now (now + TTLCache.ttl (cache d))) with false; [done|].
    symmetry. unfold Qltb. apply negb_false_iff, Qle_bool_iff. lra.
  - intros Hsize. apply Z.ltb_lt in Hsize.
    cbv [update_user_data mbind M_bind bind modify cache_op zoom to_dict].
    cbn [cache with_rows]. unfold TTLCache.setitem. rewrite Hsize.
    cbn [fst snd cache with_cache]. done.
Qed.

Lemma C2_update_witness :
  let r := update_user_data cfg0 0 chatty db0 in
  (exists row,
     rows r.2 !! user_id chatty = Some row
     /\ row_data row
        = with_message_history
            (most_recent (cfg_max_message_history_num cfg0) (message_history chatty))
            chatty
     /\ (message_history chatty = message_history (row_data row)
         <-> (length (message_history chatty)
              <= Z.to_nat (cfg_max_message_history_num cfg0))%nat))
  /\ r.1 = Val tt
  /\ TTLCache.peek 0 (user_id chatty) (cache r.2) = Some chatty.
Proof.
  destruct (C2_update_persists_truncated_caches_argument cfg0 0 chatty db0)
    as (Hrow & Hcached & _);
    [vm_compute; discriminate | reflexivity | reflexivity |].
  split; [exact Hrow|]. apply Hcached; [vm_compute; discriminate | reflexivity].
Defined.

(** C8 (the code fails the claim).  For a user with a stored row,
    [set_admin], [set_whitelist] and [set_blacklist] update that one column
    of that one row and remove the user's cache entry, but the read that
    follows does not return the profile: once the cache is bypassed,
    [get_user_data] builds [UserData(..., user_name=..., ...)] from the row
    and raises [TypeError]. *)
Theorem C8_get_after_set_flag_raises_TypeError
    (cfg : Config) (f : flag) (now : Q) (uid : Z) (v : bool)
    (d : UserDataDB) (r : Row) :
  rows d !! uid = Some r ->
  exists d',
    set_flag f now uid v d = (Val tt, d')
    /\ rows d' = <[uid := flagged_row f v r]> (rows d)
    /\ TTLCache.contains now uid (cache d') = false
    /\ get_user_data cfg now uid d' = (Exc TypeError, d').
Proof.
  intros Hr.
  set (d1 := with_rows (update_flag_column f v uid (rows d)) d).
  destruct (invalidate_cache_contains now uid d1) as (Hc & Hrows & Hval).
  exists (invalidate_cache now uid d1).2.
  assert (Hd1 : rows d1 = <[uid := flagged_row f v r]> (rows d)).
  { unfold d1, update_flag_column. cbn [rows with_rows].
    apply map_eq. intros k. rewrite lookup_alter, lookup_insert.
    case_decide as Hk; [|done]. subst k. by rewrite Hr. }
  split.
  - cbv [set_flag mbind M_bind bind modify]. fold d1.
    destruct (invalidate_cache now uid d1) as [[[]| |] d2]; cbn in Hval; done.
  - split; [by rewrite Hrows|]. split; [done|].
    apply (get_user_data_stored cfg now uid _ (flagged_row f v r)); [done|].
    by rewrite Hrows, Hd1, lookup_insert_eq.
Qed.

Lemma C8_get_after_set_admin_witness :
  exists d',
    set_flag Admin 0 7 true db7 = (Val tt, d')
    /\ rows d'
       = <[7 := flagged_row Admin true
                  {| row_user_name := None; row_data := UserData_defaults cfg0 7 |}]>
           (rows db7)
    /\ TTLCache.contains 0 7 (cache d') = false
    /\ get_user_data cfg0 0 7 d' = (Exc TypeError, d').
Proof.
  apply (C8_get_after_set_flag_raises_TypeError cfg0 Admin 0 7 true db7).
  reflexivity.
Defined.

(** ** The limiter *)

Lemma leak_level_nonneg (now : Q) (l : AsyncLimiter.t) :
  (0 <= AsyncLimiter.level (AsyncLimiter.leak now l))%Q.
Proof.
  unfold AsyncLimiter.leak. cbn.
  destruct (Qeq_bool (AsyncLimiter.level l) 0) eqn:E.
  - apply Qeq_bool_iff in E. rewrite E. lra.
  - apply Q.le_max_r.
Qed.

(** A second leak at the same instant changes nothing. *)
Lemma leak_again (now : Q) (l : AsyncLimiter.t) :
  (AsyncLimiter.level (AsyncLimiter.leak now (AsyncLimiter.leak now l))
   == AsyncLimiter.level (AsyncLimiter.leak now l))%Q.
Proof.
  pose proof (leak_level_nonneg now l) as Hnn.
  set (l' := AsyncLimiter.leak now l) in *.
  unfold AsyncLimiter.leak at 1. cbn [AsyncLimiter.level].
  destruct (Qeq_bool (AsyncLimiter.level l') 0); [reflexivity|].
  replace (AsyncLimiter.last_check l') with now by reflexivity.
  rewrite Q.max_l; [ring | ring_simplify; exact Hnn].
Qed.

Lemma has_capacity_eq (now : Q) (l : AsyncLimiter.t) :
  AsyncLimiter.has_capacity now l = (Val (capacity now l), AsyncLimiter.leak now l).
Proof. reflexivity. Qed.

(** The check succeeds exactly when at least one permit is available. *)
Lemma capacity_available (now : Q) (l : AsyncLimiter.t) :
  capacity now l = true <-> (1 <= AsyncLimiter.available now l)%Q.
Proof.
  unfold capacity, AsyncLimiter.available. rewrite Qle_bool_iff. split; lra.
Qed.

(** [acquire] right after a successful check takes one permit at once. *)
Lemma acquire_after_check (now : Q) (l : AsyncLimiter.t) :
  capacity now l = true ->
  AsyncLimiter.acquire now (AsyncLimiter.leak now l) = (Val tt, entered now l).
Proof.
  intros Hcap. pose proof (leak_level_nonneg now l) as Hnn.
  pose proof (leak_again now l) as Hagain.
  unfold capacity in Hcap. apply Qle_bool_iff in Hcap.
  unfold AsyncLimiter.acquire.
  replace (AsyncLimiter.max_rate (AsyncLimiter.leak now l))
    with (AsyncLimiter.max_rate l) by reflexivity.
  destruct (Qltb (AsyncLimiter.max_rate l) 1) eqn:E.
  { apply Qltb_true in E. lra. }
  rewrite has_capacity_eq. unfold capacity.
  replace (AsyncLimiter.max_rate (AsyncLimiter.leak now l))
    with (AsyncLimiter.max_rate l) by reflexivity.
  destruct (Qle_bool _ _) eqn:E2; [reflexivity|].
  apply not_true_iff_false in E2. exfalso. apply E2. apply Qle_bool_iff.
  rewrite Hagain. exact Hcap.
Qed.

Lemma entered_level (now : Q) (l : AsyncLimiter.t) :
  (AsyncLimiter.level (entered now l)
   == AsyncLimiter.level (AsyncLimiter.leak now l) + 1)%Q.
Proof. unfold entered. cbn [AsyncLimiter.add_level AsyncLimiter.level]. by rewrite leak_again. Qed.

(** ** The [rate_limit] decorator, case by case *)

Lemma bind_val {S A B} (m : M S A) (k : A -> M S B) (s s' : S) (a : A) :
  m s = (Val a, s') -> (m ≫= k) s = k a s'.
Proof. intros H. cbv [mbind M_bind bind]. by rewrite H. Qed.

Lemma global_check_eq (b : Bot) :
  on_global_limiter AsyncLimiter.has_capacity b
  = (Val (capacity (clock b) (global_limiter b)), global_checked b).
Proof. reflexivity. Qed.

Lemma user_check_eq (cfg : Config) (uid : Z) (b : Bot) :
  (get_user_limiter cfg uid ≫= fun _ =>
     on_user_limiter uid AsyncLimiter.has_capacity) b
  = (Val (capacity (clock b) (user_limiter_of cfg uid b)), user_checked cfg uid b).
Proof.
  cbv [get_user_limiter mbind M_bind bind modify on_user_limiter].
  unfold user_checked, user_limiter_of.
  destruct (user_limiters b !! uid) as [l|] eqn:E; cbn [default].
  - rewrite E. rewrite has_capacity_eq. done.
  - cbn [user_limiters with_user_limiters clock]. rewrite lookup_insert_eq.
    rewrite has_capacity_eq. cbn [user_limiters with_user_limiters].
    rewrite insert_insert_eq. done.
Qed.

Lemma rate_limit_no_global (cfg : Config) (func : Handler) (update : Update) (b : Bot) :
  capacity (clock b) (global_limiter b) = false ->
  rate_limit cfg func update b
  = reply_text cfg update "NO_GLOBAL_CAPACITY" AsIs (global_checked b).
Proof.
  intros Hg. unfold rate_limit.
  rewrite (bind_val _ _ _ _ _ (global_check_eq b)). by rewrite Hg.
Qed.

Lemma rate_limit_no_user (cfg : Config) (func : Handler) (update : Update) (b : Bot) :
  capacity (clock b) (global_limiter b) = true ->
  capacity (clock b) (user_limiter_of cfg (effective_user update) b) = false ->
  rate_limit cfg func update b
  = reply_text cfg update "NO_USER_CAPACITY" AsIs
      (user_checked cfg (effective_user update) (global_checked b)).
Proof.
  intros Hg Hu. unfold rate_limit.
  rewrite (bind_val _ _ _ _ _ (global_check_eq b)). rewrite Hg. cbn [negb].
  pose proof (user_check_eq cfg (effective_user update) (global_checked b)) as H.
  cbv [mbind M_bind bind] in H |- *.
  destruct (get_user_limiter cfg (effective_user update) (global_checked b))
    as [[[]| |] b1]; try done.
  rewrite H. replace (clock (global_checked b)) with (clock b) by reflexivity.
  replace (user_limiter_of cfg (effective_user update) (global_checked b))
    with (user_limiter_of cfg (effective_user update) b) by reflexivity.
  by rewrite Hu.
Qed.

Lemma rate_limit_admitted (cfg : Config) (func : Handler) (update : Update) (b : Bot) :
  capacity (clock b) (global_limiter b) = true ->
  capacity (clock b) (user_limiter_of cfg (effective_user update) b) = true ->
  rate_limit cfg func update b
  = func update (admitted cfg (effective_user update) b).
Proof.
  intros Hg Hu. unfold rate_limit.
  rewrite (bind_val _ _ _ _ _ (global_check_eq b)). rewrite Hg. cbn [negb].
  pose proof (user_check_eq cfg (effective_user update) (global_checked b)) as H.
  cbv [mbind M_bind bind] in H |- *.
  destruct (get_user_limiter cfg (effective_user update) (global_checked b))
    as [[[]| |] b1]; try done.
  rewrite H. replace (clock (global_checked b)) with (clock b) by reflexivity.
  replace (user_limiter_of cfg (effective_user update) (global_checked b))
    with (user_limiter_of cfg (effective_user update) b) by reflexivity.
  rewrite Hu. cbn [negb].
  cbv [on_global_limiter zoom]. cbn [global_limiter user_checked with_user_limiters clock global_checked with_global_limiter].
  rewrite (acquire_after_check _ _ Hg).
  cbv [on_user_limiter]. unfold user_checked, global_checked.
  cbn [user_limiters with_global_limiter with_user_limiters clock].
  rewrite lookup_insert_eq.
  replace (user_limiter_of cfg (effective_user update)
             (with_global_limiter
                (AsyncLimiter.leak (clock b) (global_limiter b)) b))
    with (user_limiter_of cfg (effective_user update) b) by reflexivity.
  rewrite (acquire_after_check _ _ Hu).
  cbn [user_limiters with_global_limiter with_user_limiters].
  rewrite insert_insert_eq. reflexivity.
Qed.

(** ** Replies *)

Lemma TTLCache_getitem_not_blocked (now : Q) (k : Z) (c : TTLCache.t) :
  (TTLCache.getitem now k c).1 <> Blocked.
Proof.
  unfold TTLCache.getitem. destruct (TTLCache.find k c) as [e|]; [|done].
  by destruct (TTLCache.live now e).
Qed.

Lemma get_user_data_not_blocked (cfg : Config) (now : Q) (uid : Z) (d : UserDataDB) :
  (get_user_data cfg now uid d).1 <> Blocked.
Proof.
  cbv [get_user_data mbind M_bind bind gets cache_op zoom mret M_ret ret raise].
  destruct (TTLCache.contains now uid (cache d)).
  - pose proof (TTLCache_getitem_not_blocked now uid (cache d)) as H.
    destruct (TTLCache.getitem now uid (cache d)) as [[u|e|] c]; done.
  - destruct (rows d !! uid) as [r|]; [|done]. by rewrite UserData_init_row.
Qed.

(** A call into the profile store touches nothing but the store. *)
Lemma db_same_control {A} (m : Q -> M UserDataDB A) (b : Bot) :
  same_control b (db m b).2 /\ outbox (db m b).2 = outbox b.
Proof.
  cbv [db zoom]. destruct (m (clock b) (user_db b)) as [r d]. by repeat split.
Qed.

Lemma loc_same_control (cfg : Config) (key : string) (uid : Z) (b : Bot) :
  (loc cfg key uid b).1 <> Blocked
  /\ same_control b (loc cfg key uid b).2
  /\ outbox (loc cfg key uid b).2 = outbox b.
Proof.
  cbv [loc mbind M_bind bind db zoom mret M_ret ret raise].
  pose proof (get_user_data_not_blocked cfg (clock b) uid (user_db b)) as H.
  destruct (get_user_data cfg (clock b) uid (user_db b)) as [[u|e|] d];
    [|by repeat split|done].
  destruct (bool_decide _); by repeat split.
Qed.

Lemma render_cases (cfg : Config) (t : Text) (u : usage) (b : Bot) :
  render cfg t u b
  = if renders cfg (text_language t) (text_key t) u
    then (Val {| text_language := text_language t; text_key := text_key t;
                 text_args := usage_args u |}, b)
    else (Exc KeyError, b).
Proof. unfold render. by destruct (renders _ _ _ _). Qed.

(** A reply never blocks and touches neither limiters, sessions nor jobs. *)
Lemma reply_text_same_control (cfg : Config) (update : Update) (key : string)
    (u : usage) (b : Bot) :
  (reply_text cfg update key u b).1 <> Blocked
  /\ same_control b (reply_text cfg update key u b).2.
Proof.
  unfold reply_text. destruct (message update) as [msg|]; [|by repeat split].
  destruct (loc_same_control cfg key (effective_user update) b) as (Hb & Hc & _).
  cbv [mbind M_bind bind send modify].
  destruct (loc cfg key (effective_user update) b) as [[t|e|] b1]; try done.
  rewrite render_cases. by destruct (renders _ _ _ _).
Qed.

Lemma loc_cached (cfg : Config) (key : string) (uid : Z) (b : Bot) (p : UserData) :
  TTLCache.peek (clock b) uid (cache (user_db b)) = Some p ->
  language p ∈ cfg_languages cfg ->
  exists d', db_same_view (clock b) (user_db b) d'
    /\ loc cfg key uid b = (Val (text_for p key []), with_user_db d' b).
Proof.
  intros Hp Hl.
  destruct (get_user_data_cached cfg (clock b) uid (user_db b) p Hp) as (d' & Hg & Hv).
  exists d'. split; [done|].
  cbv [loc mbind M_bind bind db zoom mret M_ret ret raise]. rewrite Hg.
  by rewrite bool_decide_eq_true_2.
Qed.

Lemma reply_text_cached (cfg : Config) (update : Update) (key : string)
    (u : usage) (b : Bot) (p : UserData) (msg : Message) :
  message update = Some msg ->
  TTLCache.peek (clock b) (effective_user update) (cache (user_db b)) = Some p ->
  language p ∈ cfg_languages cfg ->
  renders cfg (language p) key u = true ->
  exists d', db_same_view (clock b) (user_db b) d'
    /\ reply_text cfg update key u b
       = (Val tt,
          with_outbox
            (outbox b
             ++ [ReplyText (effective_user update) (text_for p key (usage_args u))])
            (with_user_db d' b)).
Proof.
  intros Hm Hp Hl Hr.
  destruct (loc_cached cfg key _ b p Hp Hl) as (d' & Hv & Hloc).
  exists d'. split; [done|]. unfold reply_text. rewrite Hm.
  rewrite (bind_val _ _ _ _ _ Hloc).
  cbv [mbind M_bind bind]. rewrite render_cases. cbn [text_for text_language text_key].
  rewrite Hr. reflexivity.
Qed.

(** ** Admission *)

(** C3 (counterexample).  The global scope has all five permits free and
    user 1 has none left: the global check of the request succeeds, the
    user check fails, and the request leaves the global level at 0, no
    permit consumed. *)
Lemma C3_successful_check_consumes_nothing :
  ~ check_consumes_permit cfg0 noop (text_update 1 "hi") bot1_user_full.
Proof.
  intros H. specialize (H eq_refl). vm_compute in H. discriminate H.
Qed.

(** C3 (as amended).  The capacity check of a scope succeeds exactly when
    at least one permit is available.  When the global check fails, or the
    global check succeeds and the user check fails, the wrapped handler is
    not run, nothing blocks, and no permit of either scope is consumed: each
    checked limiter is left as its check left it; a message whose sender has
    a cached profile is answered with the reply of the scope that failed.
    Permits are consumed by a separate acquire step, one of each scope, only
    after both checks have succeeded; the handler then runs. *)
Theorem C3_check_then_acquire
    (cfg : Config) (func : Handler) (update : Update) (b : Bot) :
  let now := clock b in
  let uid := effective_user update in
  let g := global_limiter b in
  let u := user_limiter_of cfg uid b in
  let answered (key : string) (r : res unit * Bot) :=
    forall msg p,
      message update = Some msg ->
      TTLCache.peek now uid (cache (user_db b)) = Some p ->
      language p ∈ cfg_languages cfg ->
      r.1 = Val tt
      /\ outbox r.2 = outbox b ++ [ReplyText uid (text_for p key [])] in
  (capacity now g = true <-> (1 <= AsyncLimiter.available now g)%Q)
  /\ (capacity now u = true <-> (1 <= AsyncLimiter.available now u)%Q)
  /\ (capacity now g = false ->
      let r := rate_limit cfg func update b in
      r = reply_text cfg update "NO_GLOBAL_CAPACITY" AsIs (global_checked b)
      /\ r.1 <> Blocked
      /\ global_limiter r.2 = AsyncLimiter.leak now g
      /\ user_limiters r.2 = user_limiters b
      /\ answered "NO_GLOBAL_CAPACITY"%string r)
  /\ (capacity now g = true -> capacity now u = false ->
      let r := rate_limit cfg func update b in
      r = reply_text cfg update "NO_USER_CAPACITY" AsIs
            (user_checked cfg uid (global_checked b))
      /\ r.1 <> Blocked
      /\ global_limiter r.2 = AsyncLimiter.leak now g
      /\ user_limiters r.2 = <[uid := AsyncLimiter.leak now u]> (user_limiters b)
      /\ answered "NO_USER_CAPACITY"%string r)
  /\ (capacity now g = true -> capacity now u = true ->
      rate_limit cfg func update b = func update (admitted cfg uid b)
      /\ (AsyncLimiter.level (global_limiter (admitted cfg uid b))
          == AsyncLimiter.level (AsyncLimiter.leak now g) + 1)%Q
      /\ exists u', user_limiters (admitted cfg uid b) !! uid = Some u'
           /\ (AsyncLimiter.level u'
               == AsyncLimiter.level (AsyncLimiter.leak now u) + 1)%Q).
Proof.
  intros now uid g u answered. subst now uid g u answered.
  split; [apply capacity_available|]. split; [apply capacity_available|].
  split; [|split].
  - intros Hg r. subst r. rewrite (rate_limit_no_global cfg func update b Hg).
    destruct (reply_text_same_control cfg update "NO_GLOBAL_CAPACITY" AsIs
                (global_checked b)) as (Hb & _ & Hgl & Hul & _).
    split; [done|]. split; [done|]. split; [by rewrite Hgl|].
    split; [by rewrite Hul|].
    intros msg p Hm Hp Hl.
    destruct (reply_text_cached cfg update "NO_GLOBAL_CAPACITY" AsIs
                (global_checked b) p msg Hm Hp Hl eq_refl) as (d' & _ & ->).
    done.
  - intros Hg Hu r. subst r. rewrite (rate_limit_no_user cfg func update b Hg Hu).
    destruct (reply_text_same_control cfg update "NO_USER_CAPACITY" AsIs
                (user_checked cfg (effective_user update) (global_checked b)))
      as (Hb & _ & Hgl & Hul & _).
    split; [done|]. split; [done|]. split; [by rewrite Hgl|].
    split; [by rewrite Hul|].
    intros msg p Hm Hp Hl.
    destruct (reply_text_cached cfg update "NO_USER_CAPACITY" AsIs
                (user_checked cfg (effective_user update) (global_checked b))
                p msg Hm Hp Hl eq_refl) as (d' & _ & ->).
    done.
  - intros Hg Hu. split; [by apply rate_limit_admitted|].
    split; [apply entered_level|].
    eexists. split; [|apply entered_level].
    unfold admitted. cbn [user_limiters with_user_limiters].
    by rewrite lookup_insert_eq.
Qed.

Lemma C3_check_then_acquire_witness :
  let r := rate_limit cfg0 noop (text_update 1 "hi") bot1_user_full in
  r = reply_text cfg0 (text_update 1 "hi") "NO_USER_CAPACITY" AsIs
        (user_checked cfg0 1 (global_checked bot1_user_full))
  /\ r.1 <> Blocked
  /\ global_limiter r.2 = AsyncLimiter.leak 0 (global_limiter bot1_user_full)
  /\ user_limiters r.2
     = <[1 := AsyncLimiter.leak 0 (user_limiter_of cfg0 1 bot1_user_full)]>
         (user_limiters bot1_user_full)
  /\ (forall msg p,
        message (text_update 1 "hi") = Some msg ->
        TTLCache.peek 0 1 (cache (user_db bot1_user_full)) = Some p ->
        language p ∈ cfg_languages cfg0 ->
        r.1 = Val tt
        /\ outbox r.2
           = outbox bot1_user_full ++ [ReplyText 1 (text_for p "NO_USER_CAPACITY" [])]).
Proof.
  apply (C3_check_then_acquire cfg0 noop (text_update 1 "hi") bot1_user_full);
    reflexivity.
Defined.

(** C5.  [rate_limit] checks the global scope first.  When that check
    fails the request is answered from the state the global check left:
    the map of user limiters is exactly what it was, so no user limiter was
    looked at or created, and the handler is not run.  The handler runs only
    when both checks have succeeded, and otherwise the outcome does not
    depend on the handler at all. *)
Theorem C5_global_check_runs_first
    (cfg : Config) (func : Handler) (update : Update) (b : Bot) :
  let now := clock b in
  let uid := effective_user update in
  let denied_globally :=
    reply_text cfg update "NO_GLOBAL_CAPACITY" AsIs (global_checked b) in
  rate_limit cfg func update b
  = (if capacity now (global_limiter b) then
       if capacity now (user_limiter_of cfg uid b) then
         func update (admitted cfg uid b)
       else reply_text cfg update "NO_USER_CAPACITY" AsIs
              (user_checked cfg uid (global_checked b))
     else denied_globally)
  /\ user_limiters (global_checked b) = user_limiters b
  /\ user_limiters denied_globally.2 = user_limiters b
  /\ denied_globally.1 <> Blocked.
Proof.
  intros now uid denied. subst now uid denied. split.
  - destruct (capacity (clock b) (global_limiter b)) eqn:Hg.
    + destruct (capacity (clock b) (user_limiter_of cfg (effective_user update) b)) eqn:Hu.
      * by apply rate_limit_admitted.
      * by apply rate_limit_no_user.
    + by apply rate_limit_no_global.
  - split; [done|].
    destruct (reply_text_same_control cfg update "NO_GLOBAL_CAPACITY" AsIs
                (global_checked b)) as (Hb & _ & _ & Hul & _).
    split; [by rewrite Hul|done].
Qed.

(** With the global scope used up, the request of user 1 is refused and
    the bot still has no limiter for any user. *)
Example rate_limit_global_full :
  let r := rate_limit cfg0 noop (text_update 1 "hi") bot1_global_full in
  r.1 = Val tt
  /\ user_limiters r.2 = ∅
  /\ outbox r.2 = [ReplyText 1 (text_for (UserData_defaults cfg0 1)
                                         "NO_GLOBAL_CAPACITY" [])].
Proof. vm_compute. done. Qed.

(** ** The outer decorators on a cached profile *)

Lemma db_get_cached (cfg : Config) (uid : Z) (b : Bot) (p : UserData) :
  TTLCache.peek (clock b) uid (cache (user_db b)) = Some p ->
  exists d', db_same_view (clock b) (user_db b) d'
    /\ db (fun now => get_user_data cfg now uid) b = (Val (Some p), with_user_db d' b).
Proof.
  intros Hp.
  destruct (get_user_data_cached cfg (clock b) uid (user_db b) p Hp) as (d' & Hg & Hv).
  exists d'. split; [done|]. cbv [db zoom]. by rewrite Hg.
Qed.

Lemma view_peek (now : Q) (d d' : UserDataDB) (k : Z) (p : UserData) :
  db_same_view now d d' ->
  TTLCache.peek now k (cache d) = Some p ->
  TTLCache.peek now k (cache d') = Some p.
Proof. intros (_ & _ & _ & H) Hp. by rewrite H. Qed.

Lemma decorators_cached (cfg : Config) (func : Handler) (update : Update)
    (b : Bot) (p : UserData) :
  TTLCache.peek (clock b) (effective_user update) (cache (user_db b)) = Some p ->
  has_access cfg p = true ->
  exists d', db_same_view (clock b) (user_db b) d'
    /\ user_access_required cfg (user_data_required cfg func) update b
       = func update (with_user_db d' b).
Proof.
  intros Hp Hacc.
  destruct (db_get_cached cfg _ b p Hp) as (d1 & Hv1 & Hg1).
  pose proof (view_peek _ _ _ _ _ Hv1 Hp) as Hp1.
  destruct (db_get_cached cfg (effective_user update) (with_user_db d1 b) p Hp1)
    as (d2 & Hv2 & Hg2).
  exists d2. split; [by apply (db_same_view_trans _ _ d1)|].
  unfold user_access_required, check_user_access.
  cbv [mbind M_bind bind] in *. rewrite Hg1.
  unfold has_access in Hacc. apply andb_true_iff in Hacc as [Hb Hw].
  apply negb_true_iff in Hb. apply negb_true_iff in Hw. rewrite Hb, Hw.
  cbv [mret M_ret ret negb].
  unfold user_data_required. cbv [mbind M_bind bind]. rewrite Hg2.
  rewrite bool_decide_eq_false_2 by done. cbv [mret M_ret ret]. reflexivity.
Qed.

(** ** The second entry into the global limiter *)

Lemma acquire_entered (now : Q) (l : AsyncLimiter.t) :
  capacity now l = true ->
  let l1 := AsyncLimiter.leak now (entered now l) in
  (AsyncLimiter.level l1 == AsyncLimiter.level (AsyncLimiter.leak now l) + 1)%Q
  /\ AsyncLimiter.acquire now (entered now l)
     = if Qle_bool (AsyncLimiter.level (AsyncLimiter.leak now l) + 2)
                   (AsyncLimiter.max_rate l)
       then (Val tt, AsyncLimiter.add_level 1 l1) else (Blocked, l1).
Proof.
  intros Hcap l1. pose proof (leak_level_nonneg now l) as Hnn.
  pose proof (entered_level now l) as Hent.
  assert (Hl1 : (AsyncLimiter.level l1
                 == AsyncLimiter.level (AsyncLimiter.leak now l) + 1)%Q).
  { subst l1. unfold AsyncLimiter.leak at 1. cbn [AsyncLimiter.level].
    destruct (Qeq_bool (AsyncLimiter.level (entered now l)) 0) eqn:E.
    - apply Qeq_bool_iff in E. lra.
    - replace (AsyncLimiter.last_check (entered now l)) with now by reflexivity.
      rewrite Q.max_l; [lra | lra]. }
  split; [done|].
  unfold capacity in Hcap. apply Qle_bool_iff in Hcap.
  unfold AsyncLimiter.acquire.
  replace (AsyncLimiter.max_rate (entered now l))
    with (AsyncLimiter.max_rate l) by reflexivity.
  destruct (Qltb (AsyncLimiter.max_rate l) 1) eqn:E.
  { apply Qltb_true in E. lra. }
  rewrite has_capacity_eq. fold l1. unfold capacity. fold l1.
  replace (AsyncLimiter.max_rate (entered now l))
    with (AsyncLimiter.max_rate l) by reflexivity.
  assert (Heq : Qle_bool (AsyncLimiter.level l1 + 1) (AsyncLimiter.max_rate l)
                = Qle_bool (AsyncLimiter.level (AsyncLimiter.leak now l) + 2)
                           (AsyncLimiter.max_rate l)).
  { apply Qleb_comp; [lra|reflexivity]. }
  rewrite Heq. by destruct (Qle_bool _ _).
Qed.

(** C10.  A text or voice message from a user with access that is not part
    of a settings dialog and passes both capacity checks enters the global
    limiter twice: once in [rate_limit], once in the body of
    [handle_message].  When the second permit is available too the message
    is scheduled and the global level has risen by two; when it is not, the
    handler is parked inside its own [async with self.global_limiter],
    holding the one permit the decorator took. *)
Theorem C10_handle_message_enters_global_limiter_twice
    (cfg : Config) (py_float : string -> option pyfloat)
    (py_int : string -> option Z) (update : Update) (b : Bot)
    (p : UserData) (msg : Message) :
  let now := clock b in
  let uid := effective_user update in
  let g := global_limiter b in
  message update = Some msg ->
  TTLCache.peek now uid (cache (user_db b)) = Some p ->
  has_access cfg p = true ->
  in_dialog uid b = false ->
  capacity now g = true ->
  capacity now (user_limiter_of cfg uid b) = true ->
  let r := handle_message cfg py_float py_int update b in
  let used := AsyncLimiter.level (AsyncLimiter.leak now g) in
  if Qle_bool (used + 2) (AsyncLimiter.max_rate g) then
    r.1 = Val tt
    /\ (AsyncLimiter.level (global_limiter r.2) == used + 2)%Q
    /\ job_queue r.2
       = job_queue b ++ [((now + 0)%Q, process_message_job update (Some p))]
  else
    r.1 = Blocked
    /\ (AsyncLimiter.level (global_limiter r.2) == used + 1)%Q
    /\ job_queue r.2 = job_queue b.
Proof.
  intros now uid g Hm Hp Hacc Hdlg Hg Hu r used. subst now uid g r used.
  unfold handle_message.
  destruct (decorators_cached cfg (rate_limit cfg (handle_message_body cfg py_float py_int))
              update b p Hp Hacc) as (d1 & Hv1 & ->).
  rewrite rate_limit_admitted by done.
  set (B := admitted cfg (effective_user update) (with_user_db d1 b)).
  assert (HpB : TTLCache.peek (clock B) (effective_user update) (cache (user_db B)) = Some p).
  { apply (view_peek _ _ _ _ _ Hv1 Hp). }
  destruct (db_get_cached cfg _ B p HpB) as (d2 & Hv2 & Hg2).
  unfold handle_message_body. rewrite (bind_val _ _ _ _ _ Hg2).
  destruct (acquire_entered (clock b) (global_limiter b) Hg) as (Hlvl & Hacq).
  cbv [mbind M_bind bind on_global_limiter zoom].
  replace (clock (with_user_db d2 B)) with (clock b) by reflexivity.
  replace (global_limiter (with_user_db d2 B))
    with (entered (clock b) (global_limiter b)) by reflexivity.
  rewrite Hacq.
  destruct (Qle_bool _ _).
  - cbv [try_except_all mbind M_bind bind gets run_once modify the send mret M_ret ret].
    replace (in_dialog (effective_user update) _) with false.
    rewrite Hm. subst B. unfold admitted.
    cbn [fst snd global_limiter job_queue clock with_outbox with_job_queue
         with_global_limiter with_user_db with_user_limiters
         AsyncLimiter.level AsyncLimiter.add_level].
    split; [done|]. split; [|done]. rewrite Hlvl. ring.
  - subst B. unfold admitted.
    cbn [fst snd global_limiter job_queue clock with_outbox with_job_queue
         with_global_limiter with_user_db with_user_limiters].
    done.
Qed.

Lemma C10_witness :
  let r := handle_message cfg0 (fun _ => None) (fun _ => None)
             (text_update 1 "hi") bot1 in
  r.1 = Val tt
  /\ (AsyncLimiter.level (global_limiter r.2) == 0 + 2)%Q
  /\ job_queue r.2
     = [((0 + 0)%Q, process_message_job (text_update 1 "hi")
                      (Some (UserData_defaults cfg0 1)))].
Proof.
  apply (C10_handle_message_enters_global_limiter_twice cfg0
           (fun _ => None) (fun _ => None) (text_update 1 "hi") bot1
           (UserData_defaults cfg0 1) {| text := Some "hi"%string |});
    reflexivity.
Defined.

Example decimal_examples :
  decimal "2.5" = Some (Finite (25 # 10))
  /\ decimal " +1_2.5e-1 " = Some (Finite (125 # 100))
  /\ decimal "0.1" = Some (Finite (7205759403792794 # 72057594037927936))
  /\ (fun x => pyfloat_eqb x float_0_7) <$> decimal "0.7" = Some true
  /\ decimal "1e400" = Some (Inf false)
  /\ decimal "-inf" = Some (Inf true)
  /\ decimal "NaN" = Some NaN
  /\ decimal "1" = Some (Finite (1 # 1))
  /\ decimal "hot" = None
  /\ decimal "1_" = None
  /\ integer "100" = Some 100
  /\ integer "-5" = Some (-5)
  /\ integer " +1_000 " = Some 1000
  /\ integer "9223372036854775808" = Some (2 ^ 63)
  /\ integer "2.5" = None
  /\ integer "5." = None.
Proof. repeat split; vm_compute; reflexivity. Qed.

Example bot1_awaiting_temperature_state :
  sessions bot1_awaiting_temperature !! 1 = Some UserState.awaiting_temperature
  /\ job_queue bot1_awaiting_temperature = [(300%Q, reset_state_job 1)].
Proof. split; vm_compute; reflexivity. Qed.

(** ** One settings update *)

Lemma try_except_val {S A} (m h : M S A) (E : exn) (s s' : S) (a : A) :
  m s = (Val a, s') -> try_except m E h s = (Val a, s').
Proof. intros H. unfold try_except. by rewrite H. Qed.

Lemma try_except_caught {S A} (m h : M S A) (E : exn) (s s' : S) :
  m s = (Exc E, s') -> try_except m E h s = h s'.
Proof. intros H. unfold try_except. rewrite H. by rewrite bool_decide_eq_true_2. Qed.

Lemma try_except_passed {S A} (m h : M S A) (E e : exn) (s s' : S) :
  e <> E -> m s = (Exc e, s') -> try_except m E h s = (Exc e, s').
Proof. intros He H. unfold try_except. rewrite H. by rewrite bool_decide_eq_false_2. Qed.

Lemma on_user_state_read (uid : Z) (b : Bot) (s : UserState.state) :
  sessions b !! uid = Some s ->
  on_user_state uid (gets (fun s => s)) b = (Val s, b).
Proof.
  intros H. cbv [on_user_state gets]. rewrite H.
  rewrite insert_id by done. by destruct b.
Qed.

Lemma fire_return_to_idle (s : UserState.state) :
  UserState.fire UserState.return_to_idle s = (Val true, UserState.idle).
Proof. by destruct s. Qed.

(** *** An assignment to the cached profile *)

Lemma has_key_reassign (k k' : Z) (v : UserData) (e : TTLCache.link) :
  TTLCache.has_key k' (TTLCache.reassign k v e) = TTLCache.has_key k' e.
Proof. unfold TTLCache.reassign. by destruct (TTLCache.has_key k e). Qed.

Lemma live_reassign (now : Q) (k : Z) (v : UserData) (e : TTLCache.link) :
  TTLCache.live now (TTLCache.reassign k v e) = TTLCache.live now e.
Proof. unfold TTLCache.reassign. by destruct (TTLCache.has_key k e). Qed.

Lemma filter_reassign (f : TTLCache.link -> bool) (k : Z) (v : UserData)
    (l : list TTLCache.link) :
  (forall e, f (TTLCache.reassign k v e) = f e) ->
  List.filter f (List.map (TTLCache.reassign k v) l)
  = List.map (TTLCache.reassign k v) (List.filter f l).
Proof.
  intros Hf. induction l as [|e l IH]; [done|]. cbn [List.map List.filter].
  rewrite Hf. destruct (f e); cbn [List.map]; by rewrite IH.
Qed.

Lemma find_reassign (k k' : Z) (v : UserData) (l : list TTLCache.link) :
  List.find (TTLCache.has_key k') (List.map (TTLCache.reassign k v) l)
  = TTLCache.reassign k v <$> List.find (TTLCache.has_key k') l.
Proof.
  induction l as [|e l IH]; [done|]. cbn [List.map List.find].
  rewrite has_key_reassign. by destruct (TTLCache.has_key k' e).
Qed.

Lemma remove_reassign (k : Z) (v : UserData) (l : list TTLCache.link) :
  TTLCache.remove k (List.map (TTLCache.reassign k v) l) = TTLCache.remove k l.
Proof.
  unfold TTLCache.remove. induction l as [|e l IH]; [done|].
  cbn [List.map List.filter]. rewrite has_key_reassign, IH.
  unfold TTLCache.reassign. by destruct (TTLCache.has_key k e).
Qed.

Lemma existsb_reassign (k k' : Z) (v : UserData) (l : list TTLCache.link) :
  existsb (TTLCache.has_key k') (List.map (TTLCache.reassign k v) l)
  = existsb (TTLCache.has_key k') l.
Proof.
  induction l as [|e l IH]; [done|]. cbn [List.map existsb].
  by rewrite has_key_reassign, IH.
Qed.

(** The cache shows the assigned value for the user, as long as the item
    is alive, and what it showed for everybody else. *)
Lemma peek_assign (t : Q) (k : Z) (v u : UserData) (c : TTLCache.t) :
  TTLCache.peek t k c = Some u -> TTLCache.peek t k (TTLCache.assign k v c) = Some v.
Proof.
  unfold TTLCache.peek, TTLCache.find, TTLCache.assign.
  cbn [TTLCache.links TTLCache.with_links]. rewrite find_reassign.
  destruct (List.find (TTLCache.has_key k) (TTLCache.links c)) as [e|] eqn:E; [|done].
  cbn [fmap option_fmap option_map]. rewrite live_reassign.
  destruct (TTLCache.live t e); [|done]. intros _.
  apply List.find_some in E as [_ E]. unfold TTLCache.reassign. by rewrite E.
Qed.

Lemma peek_assign_ne (t : Q) (k k' : Z) (v : UserData) (c : TTLCache.t) :
  k' <> k -> TTLCache.peek t k' (TTLCache.assign k v c) = TTLCache.peek t k' c.
Proof.
  intros Hk. unfold TTLCache.peek, TTLCache.find, TTLCache.assign.
  cbn [TTLCache.links TTLCache.with_links]. rewrite find_reassign.
  destruct (List.find (TTLCache.has_key k') (TTLCache.links c)) as [e|] eqn:E; [|done].
  cbn [fmap option_fmap option_map]. rewrite live_reassign.
  apply List.find_some in E as [_ E]. unfold TTLCache.has_key in E.
  apply Z.eqb_eq in E. unfold TTLCache.reassign, TTLCache.has_key.
  destruct (Z.eqb_spec (TTLCache.key e) k); [congruence|done].
Qed.

(** Storing the object afterwards renews the item, so the store ends as if
    the assignment had not been seen in between. *)
Lemma drop_reassign (n : nat) (k : Z) (v : UserData) (l : list TTLCache.link) :
  drop n (List.map (TTLCache.reassign k v) l)
  = List.map (TTLCache.reassign k v) (drop n l).
Proof.
  revert n. induction l as [|e l IH]; intros [|n]; try done. cbn. apply IH.
Qed.

Lemma setitem_assign (now : Q) (k : Z) (v v' : UserData) (c : TTLCache.t) :
  1 <= TTLCache.maxsize c ->
  TTLCache.setitem now k v (TTLCache.assign k v' c) = TTLCache.setitem now k v c.
Proof.
  intros Hsize. unfold TTLCache.setitem, TTLCache.expire, TTLCache.assign.
  cbn [TTLCache.links TTLCache.with_links TTLCache.maxsize TTLCache.ttl].
  rewrite filter_reassign by (intros e; apply live_reassign).
  set (l := List.filter (TTLCache.live now) (TTLCache.links c)).
  destruct (Z.ltb_spec (TTLCache.maxsize c) 1) as [|_]; [lia|].
  rewrite existsb_reassign, length_map.
  destruct (existsb (TTLCache.has_key k) l).
  - by rewrite remove_reassign.
  - by rewrite drop_reassign, remove_reassign.
Qed.

Lemma assign_then_store (cfg : Config) (v : Z) (u : UserData) (b : Bot) :
  1 <= TTLCache.maxsize (cache (user_db b)) ->
  fits_int64 v = true ->
  (assign_cached u ≫= fun _ =>
     db (fun now => bound v (update_user_data cfg now u))) b
  = db (fun now => update_user_data cfg now u) b.
Proof.
  intros Hsize Hv.
  cbv [assign_cached bound mbind M_bind bind db zoom cache_op modify update_user_data
       to_dict].
  rewrite Hv. cbn [user_db with_user_db cache with_cache rows with_rows clock fst snd].
  rewrite setitem_assign by done.
  by destruct (TTLCache.setitem _ _ _ _) as [r c].
Qed.

Lemma assign_then_overflow (cfg : Config) (v : Z) (u : UserData) (b : Bot) :
  fits_int64 v = false ->
  (assign_cached u ≫= fun _ =>
     db (fun now => bound v (update_user_data cfg now u))) b
  = (Exc OverflowError,
     with_user_db
       (with_cache (TTLCache.assign (user_id u) u (cache (user_db b))) (user_db b)) b).
Proof.
  intros Hv.
  cbv [assign_cached bound mbind M_bind bind db zoom cache_op modify raise].
  rewrite Hv. reflexivity.
Qed.

(** *** Replies *)

(** A reply to a user with a cached profile: sent in the language of the
    profile when the template takes the keywords, [KeyError] from
    [str.format] otherwise. *)
Lemma reply_text_outcome (cfg : Config) (update : Update) (key : string)
    (u : usage) (b : Bot) (p : UserData) (msg : Message) :
  message update = Some msg ->
  TTLCache.peek (clock b) (effective_user update) (cache (user_db b)) = Some p ->
  language p ∈ cfg_languages cfg ->
  exists d', db_same_view (clock b) (user_db b) d'
    /\ reply_text cfg update key u b
       = if renders cfg (language p) key u
         then (Val tt,
               with_outbox
                 (outbox b
                  ++ [ReplyText (effective_user update) (text_for p key (usage_args u))])
                 (with_user_db d' b))
         else (Exc KeyError, with_user_db d' b).
Proof.
  intros Hm Hp Hl.
  destruct (loc_cached cfg key _ b p Hp Hl) as (d' & Hv & Hloc).
  exists d'. split; [done|]. unfold reply_text. rewrite Hm.
  rewrite (bind_val _ _ _ _ _ Hloc).
  cbv [mbind M_bind bind]. rewrite render_cases. cbn [text_for text_language text_key].
  by destruct (renders cfg (language p) key u).
Qed.

(** The shape shared by the updates: a changed profile is stored, then the
    user is told. *)
Lemma change_then_reply (cfg : Config) (update : Update) (key : string)
    (u : usage) (b : Bot) (p : UserData) (msg : Message)
    (change : option UserData) :
  message update = Some msg ->
  TTLCache.peek (clock b) (effective_user update) (cache (user_db b)) = Some p ->
  language p ∈ cfg_languages cfg ->
  1 <= TTLCache.maxsize (cache (user_db b)) ->
  (0 < TTLCache.ttl (cache (user_db b)))%Q ->
  (forall p', change = Some p' ->
     user_id p' = effective_user update /\ language p' = language p) ->
  exists d',
    stored_change cfg (clock b) change (user_db b) d'
    /\ (match change with
        | Some p' => db (fun now => update_user_data cfg now p')
        | None => mret tt
        end ≫= fun _ => reply_text cfg update key u) b
       = if renders cfg (language p) key u
         then (Val tt,
               with_outbox
                 (outbox b
                  ++ [ReplyText (effective_user update) (text_for p key (usage_args u))])
                 (with_user_db d' b))
         else (Exc KeyError, with_user_db d' b).
Proof.
  intros Hm Hp Hl Hsize Httl Hch. destruct change as [p'|].
  - destruct (Hch p' eq_refl) as [Hid Hlang].
    destruct (update_user_data_spec cfg (clock b) p' (user_db b) Hsize Httl)
      as (d1 & Hupd & Hrows & Hpeek & _ & _).
    assert (Hdb : db (fun now => update_user_data cfg now p') b
                  = (Val tt, with_user_db d1 b)).
    { cbv [db zoom]. by rewrite Hupd. }
    rewrite (bind_val _ _ _ _ _ Hdb).
    assert (Hp1 : TTLCache.peek (clock (with_user_db d1 b)) (effective_user update)
                    (cache (user_db (with_user_db d1 b))) = Some p')
      by (by rewrite <- Hid).
    rewrite <- Hlang in Hl.
    destruct (reply_text_outcome cfg update key u (with_user_db d1 b) p' msg Hm Hp1 Hl)
      as (d2 & Hv2 & Hr).
    exists d2. split.
    + cbn [stored_change user_db with_user_db clock] in *.
      destruct Hv2 as (Hrows2 & _ & _ & Hpk2). split; [by rewrite Hrows2|].
      by rewrite Hpk2.
    + rewrite Hr, Hlang. unfold text_for. rewrite Hlang. reflexivity.
  - destruct (reply_text_outcome cfg update key u b p msg Hm Hp Hl) as (d' & Hv & Hr).
    exists d'. split; [exact Hv|].
    by rewrite (bind_val (mret tt) _ b b tt eq_refl).
Qed.

Lemma try_except_outcome {S} (m h : M S unit) (E : exn) (s s1 s2 : S) (ok : bool) :
  E <> KeyError ->
  m s = (if ok then (Val tt, s1) else (Exc KeyError, s2)) ->
  try_except m E h s = (if ok then (Val tt, s1) else (Exc KeyError, s2)).
Proof.
  intros HE H. destruct ok.
  - by apply try_except_val.
  - by apply try_except_passed.
Qed.

(** *** The update chosen by the dialog state *)

Lemma chosen_update_outcome (cfg : Config) (py_float : string -> option pyfloat)
    (py_int : string -> option Z) (update : Update) (b : Bot) (p : UserData)
    (s : UserState.state) (v : string) (msg : Message) :
  let uid := effective_user update in
  let reply := chosen_reply cfg py_float py_int s v in
  let change := chosen_change cfg py_float py_int s v p in
  let upd :=
    match s with
    | UserState.awaiting_model => update_model cfg update (Some p) (Some v)
    | UserState.awaiting_temperature =>
        update_float_setting cfg py_float update (Some p) P_temperature (Some v)
    | UserState.awaiting_top_p =>
        update_float_setting cfg py_float update (Some p) P_top_p (Some v)
    | UserState.awaiting_max_tokens =>
        update_max_tokens cfg py_int update (Some p) (Some v)
    | UserState.awaiting_system_prompt => update_setting cfg update (Some p) (Some v)
    | UserState.idle => raise IndexError
    end in
  message update = Some msg ->
  s <> UserState.idle ->
  TTLCache.peek (clock b) uid (cache (user_db b)) = Some p ->
  user_id p = uid ->
  language p ∈ cfg_languages cfg ->
  1 <= TTLCache.maxsize (cache (user_db b)) ->
  (0 < TTLCache.ttl (cache (user_db b)))%Q ->
  exists d',
    if overflows py_int s v p then
      upd b = (Exc OverflowError, with_user_db d' b)
      /\ rows d' = rows (user_db b)
      /\ TTLCache.peek (clock b) uid (cache d') = change
    else
      stored_change cfg (clock b) change (user_db b) d'
      /\ upd b
         = if renders cfg (language p) reply.1 reply.2
           then (Val tt,
                 with_outbox
                   (outbox b
                    ++ [ReplyText uid (text_for p reply.1 (usage_args reply.2))])
                   (with_user_db d' b))
           else (Exc KeyError, with_user_db d' b).
Proof.
  intros uid reply change upd Hm Hs Hp Hid Hl Hsize Httl.
  subst uid reply change upd.
  assert (Hsay : forall key u (change : option UserData),
            (forall p', change = Some p' ->
               user_id p' = effective_user update /\ language p' = language p) ->
            exists d',
              stored_change cfg (clock b) change (user_db b) d'
              /\ (match change with
                  | Some p' => db (fun now => update_user_data cfg now p')
                  | None => mret tt
                  end ≫= fun _ => reply_text cfg update key u) b
                 = if renders cfg (language p) key u
                   then (Val tt,
                         with_outbox
                           (outbox b
                            ++ [ReplyText (effective_user update)
                                  (text_for p key (usage_args u))])
                           (with_user_db d' b))
                   else (Exc KeyError, with_user_db d' b))
    by (intros key u change; by apply (change_then_reply cfg update key u b p _ change Hm Hp Hl Hsize Httl)).
  assert (Hno : forall key u,
            exists d',
              db_same_view (clock b) (user_db b) d'
              /\ reply_text cfg update key u b
                 = if renders cfg (language p) key u
                   then (Val tt,
                         with_outbox
                           (outbox b
                            ++ [ReplyText (effective_user update)
                                  (text_for p key (usage_args u))])
                           (with_user_db d' b))
                   else (Exc KeyError, with_user_db d' b))
    by (intros key u; by apply (reply_text_outcome cfg update key u b p _ Hm Hp Hl)).
  assert (Hfloat : forall param,
            exists d',
              stored_change cfg (clock b)
                (match py_float v with
                 | Some x =>
                     if in_unit_interval x
                        && negb (pyfloat_eqb x (getattr_float p param))
                     then Some (setattr_float p param x)
                     else None
                 | None => None
                 end) (user_db b) d'
              /\ update_float_setting cfg py_float update (Some p) param (Some v) b
                 = let reply :=
                     match py_float v with
                     | Some x =>
                         if in_unit_interval x
                         then ("PARAM_SET"%string,
                               Format [("param"%string,
                                        FStr (capitalize (param_name param)));
                                       ("value"%string, FFloat x)])
                         else ("PARAM_INVALID_VALUE"%string,
                               Format [("param"%string,
                                        FStr (capitalize (param_name param)))])
                     | None =>
                         ("PARAM_INVALID_VALUE"%string,
                          Format [("param"%string,
                                   FStr (capitalize (param_name param)))])
                     end in
                   if renders cfg (language p) reply.1 reply.2
                   then (Val tt,
                         with_outbox
                           (outbox b
                            ++ [ReplyText (effective_user update)
                                  (text_for p reply.1 (usage_args reply.2))])
                           (with_user_db d' b))
                   else (Exc KeyError, with_user_db d' b)).
  { intros param. unfold update_float_setting, to_float.
    destruct (py_float v) as [x|].
    - destruct (in_unit_interval x) eqn:Hx; cbn [andb].
      + destruct (Hsay "PARAM_SET"%string
                    (Format [("param"%string, FStr (capitalize (param_name param)));
                             ("value"%string, FFloat x)])
                    (if negb (pyfloat_eqb x (getattr_float p param))
                     then Some (setattr_float p param x) else None))
          as (d' & Hst & Hr).
        { intros p'. destruct (negb _); [|done]. intros [= <-]. by destruct param. }
        exists d'. split; [exact Hst|]. cbn zeta. cbn [fst snd].
        apply try_except_outcome; [done|].
        cbv [the mbind M_bind bind mret M_ret ret] in Hr |- *. rewrite Hx.
        by destruct (negb (pyfloat_eqb x (getattr_float p param))).
      + destruct (Hno "PARAM_INVALID_VALUE"%string
                    (Format [("param"%string, FStr (capitalize (param_name param)))]))
          as (d' & Hv & Hr).
        exists d'. split; [exact Hv|]. cbn zeta. cbn [fst snd].
        apply try_except_outcome; [done|].
        cbv [mbind M_bind bind mret M_ret ret]. rewrite Hx. exact Hr.
    - destruct (Hno "PARAM_INVALID_VALUE"%string
                  (Format [("param"%string, FStr (capitalize (param_name param)))]))
        as (d' & Hv & Hr).
      exists d'. split; [exact Hv|]. cbn zeta. cbn [fst snd].
      rewrite (try_except_caught _ _ _ b b); [exact Hr|reflexivity]. }
  destruct s; [done| | | | | ];
    cbn [overflows chosen_reply chosen_change].
  - (* awaiting_model *)
    unfold update_model.
    destruct (bool_decide (v ∈ cfg_available_models cfg)); cbn [andb].
    + destruct (Hsay "MODEL_SET"%string (Format [("value"%string, FStr v)])
                  (if negb (String.eqb v (model p)) then Some (with_model v p) else None))
        as (d' & Hst & Hr).
      { intros p'. destruct (negb _); [|done]. by intros [= <-]. }
      exists d'. split; [exact Hst|]. cbn [fst snd].
      cbv [the mbind M_bind bind mret M_ret ret] in Hr |- *.
      by destruct (negb (String.eqb v (model p))).
    + destruct (Hno "MODEL_INVALID"%string AsIs) as (d' & Hv & Hr). by exists d'.
  - (* awaiting_system_prompt *)
    unfold update_setting.
    destruct (Hsay "PARAM_SET"%string
                (Format [("param"%string, FStr (capitalize "system_prompt"))])
                (if negb (bool_decide (Some v = system_prompt p))
                 then Some (with_system_prompt (Some v) p) else None))
      as (d' & Hst & Hr).
    { intros p'. destruct (negb _); [|done]. by intros [= <-]. }
    exists d'. split; [exact Hst|]. cbn [fst snd].
    cbv [the mbind M_bind bind mret M_ret ret] in Hr |- *.
    by destruct (negb (bool_decide (Some v = system_prompt p))).
  - (* awaiting_temperature *) apply Hfloat.
  - (* awaiting_top_p *) apply Hfloat.
  - (* awaiting_max_tokens *)
    unfold update_max_tokens, to_int.
    destruct (py_int v) as [z|].
    + destruct (is_positive z) eqn:Hz; cbn [andb].
      * destruct (negb (z =? max_tokens p)) eqn:Hne; cbn [andb].
        -- destruct (fits_int64 z) eqn:Hfit; cbn [negb].
           ++ destruct (Hsay "MAX_TOKENS_SET"%string (Format [("value"%string, FInt z)])
                          (Some (with_max_tokens z p))) as (d' & Hst & Hr).
              { by intros p' [= <-]. }
              exists d'. split; [exact Hst|]. cbn [fst snd].
              apply try_except_outcome; [done|].
              pose proof (assign_then_store cfg z (with_max_tokens z p) b Hsize Hfit) as Ha.
              cbv [the mbind M_bind bind mret M_ret ret] in Hr, Ha |- *.
              rewrite Hz, Hne, Ha. exact Hr.
           ++ eexists. split; [|split].
              ** apply (try_except_passed _ _ _ OverflowError b); [done|].
                 pose proof (assign_then_overflow cfg z (with_max_tokens z p) b Hfit) as Ha.
                 cbv [the mbind M_bind bind mret M_ret ret] in Ha |- *.
                 rewrite Hz, Hne, Ha. reflexivity.
              ** reflexivity.
              ** cbn [cache with_cache user_id with_max_tokens]. rewrite Hid.
                 by apply (peek_assign _ _ _ p).
        -- destruct (Hsay "MAX_TOKENS_SET"%string (Format [("value"%string, FInt z)])
                       None) as (d' & Hst & Hr); [done|].
           exists d'. split; [exact Hst|]. cbn [fst snd].
           apply try_except_outcome; [done|].
           cbv [the mbind M_bind bind mret M_ret ret] in Hr |- *.
           rewrite Hz, Hne. exact Hr.
      * destruct (Hno "MAX_TOKENS_INVALID"%string AsIs) as (d' & Hv & Hr).
        exists d'. split; [exact Hv|]. cbn [fst snd].
        apply try_except_outcome; [done|].
        cbv [mbind M_bind bind mret M_ret ret]. rewrite Hz. exact Hr.
    + destruct (Hno "MAX_TOKENS_INVALID"%string AsIs) as (d' & Hv & Hr).
      exists d'. split; [exact Hv|]. cbn [fst snd].
      rewrite (try_except_caught _ _ _ b b); [exact Hr|reflexivity].
Qed.

(** What [handle_setting_update] does with a text, for a cached profile:
    [return_to_idle] is reached exactly when the update returns. *)
Lemma handle_setting_update_outcome
    (cfg : Config) (py_float : string -> option pyfloat)
    (py_int : string -> option Z) (update : Update) (b : Bot) (p : UserData)
    (s : UserState.state) (v : string) :
  let uid := effective_user update in
  let now := clock b in
  let r := handle_setting_update cfg py_float py_int update (Some p) b in
  let reply := chosen_reply cfg py_float py_int s v in
  let change := chosen_change cfg py_float py_int s v p in
  message update = Some {| text := Some v |} ->
  sessions b !! uid = Some s ->
  s <> UserState.idle ->
  TTLCache.peek now uid (cache (user_db b)) = Some p ->
  user_id p = uid ->
  language p ∈ cfg_languages cfg ->
  1 <= TTLCache.maxsize (cache (user_db b)) ->
  (0 < TTLCache.ttl (cache (user_db b)))%Q ->
  job_queue r.2 = job_queue b
  /\ if overflows py_int s v p then
       r.1 = Exc OverflowError
       /\ sessions r.2 = sessions b
       /\ outbox r.2 = outbox b
       /\ rows (user_db r.2) = rows (user_db b)
       /\ TTLCache.peek now uid (cache (user_db r.2)) = change
     else
       stored_change cfg now change (user_db b) (user_db r.2)
       /\ if renders cfg (language p) reply.1 reply.2 then
            r.1 = Val tt
            /\ sessions r.2 = <[uid := UserState.idle]> (sessions b)
            /\ outbox r.2
               = outbox b ++ [ReplyText uid (text_for p reply.1 (usage_args reply.2))]
          else
            r.1 = Exc KeyError
            /\ sessions r.2 = sessions b
            /\ outbox r.2 = outbox b.
Proof.
  intros uid now r reply change Hm Hsess Hs Hp Hid Hl Hsize Httl.
  subst uid now r reply change.
  destruct (chosen_update_outcome cfg py_float py_int update b p s v _
              Hm Hs Hp Hid Hl Hsize Httl) as (d' & Hout).
  unfold handle_setting_update.
  rewrite (bind_val _ _ _ _ _ (on_user_state_read _ b s Hsess)).
  rewrite Hm. cbv [the]. rewrite (bind_val (mret _) _ b b _ eq_refl).
  cbn [text].
  destruct (overflows py_int s v p).
  - destruct Hout as (Hupd & Hrows & Hpeek).
    cbv [mbind M_bind bind] in *. rewrite Hupd. cbn [fst snd].
    by repeat split.
  - destruct Hout as (Hst & Hupd).
    cbv [mbind M_bind bind] in *. rewrite Hupd.
    destruct (renders cfg (language p) _ _).
    + cbv [on_user_state mret M_ret ret].
      cbn [sessions with_outbox with_user_db]. rewrite Hsess, fire_return_to_idle.
      cbn [fst snd job_queue sessions outbox user_db with_sessions with_outbox
           with_user_db].
      by repeat split.
    + cbn [fst snd]. by repeat split.
Qed.


(** The same run in full: the handler answers with its general error
    message, the dialog stays open, the row keeps the stored count, and the
    cached profile carries the number that could not be stored. *)
Example token_count_beyond_64_bits :
  let r := handle_message cfg0 decimal integer (text_update 1 "9223372036854775808")
             bot1_awaiting_max_tokens in
  r.1 = Val tt
  /\ sessions r.2 !! 1 = Some UserState.awaiting_max_tokens
  /\ last (outbox r.2)
     = Some (ReplyText 1 (text_for (UserData_defaults cfg0 1) "HANDLING_ERROR" []))
  /\ max_tokens <$> TTLCache.peek 10 1 (cache (user_db r.2)) = Some (2 ^ 63)
  /\ (max_tokens ∘ row_data) <$> rows (user_db r.2) !! 1 = Some 256.
Proof. vm_compute. done. Qed.



(** The scenario of the spec, through the whole handler: user 1 is asked
    for a temperature and answers "2.5".  The failure is reported, the
    machine is idle again, and the cached temperature is still the default
    0.7. *)
Example temperature_2_5_is_turned_down :
  let r := handle_message cfg0 decimal integer (text_update 1 "2.5")
             bot1_awaiting_temperature in
  r.1 = Val tt
  /\ sessions r.2 !! 1 = Some UserState.idle
  /\ last (outbox r.2)
     = Some (ReplyText 1 (text_for (UserData_defaults cfg0 1) "PARAM_INVALID_VALUE"
                            [("param"%string, FStr "Temperature")]))
  /\ temperature <$> TTLCache.peek 10 1 (cache (user_db r.2)) = Some float_0_7
  /\ (temperature ∘ row_data) <$> rows (user_db r.2) !! 1 = Some float_0_7.
Proof. vm_compute. done. Qed.

(** ** Validation *)

Lemma in_unit_interval_finite (q : Q) :
  in_unit_interval (Finite q) = true <-> (0 <= q /\ q <= 1)%Q.
Proof.
  unfold in_unit_interval. cbn [pyfloat_le].
  by rewrite andb_true_iff, !Qle_bool_iff.
Qed.

(** C7.  The float validator accepts exactly the finite values of the
    closed interval [0, 1], so -0.01, 0, 0.5, 1, 1.01 are invalid, valid,
    valid, valid, invalid; the token validator accepts exactly the positive
    integers, so 0, -5, 100 are invalid, invalid, valid.  Run on these
    texts, [update_float_setting] (for temperature and for top-p) and
    [update_max_tokens] answer accordingly. *)
Theorem C7_validation_boundaries :
  (forall q, in_unit_interval (Finite q) = true <-> (0 <= q /\ q <= 1)%Q)
  /\ in_unit_interval NaN = false
  /\ (forall negative, in_unit_interval (Inf negative) = false)
  /\ (forall z, is_positive z = true <-> 0 < z)
  /\ List.map in_unit_interval
       [Finite (- (1 # 100)); Finite 0; Finite (1 # 2); Finite 1; Finite (101 # 100)]
     = [false; true; true; true; false]
  /\ List.map is_positive [0; -5; 100] = [false; false; true]
  /\ List.map
       (fun v => last_key (update_float_setting cfg0 decimal (text_update 1 v)
                             (Some (UserData_defaults cfg0 1)) P_temperature
                             (Some v) bot1))
       ["-0.01"; "0"; "0.5"; "1"; "1.01"]%string
     = [Some "PARAM_INVALID_VALUE"; Some "PARAM_SET"; Some "PARAM_SET";
        Some "PARAM_SET"; Some "PARAM_INVALID_VALUE"]%string
  /\ List.map
       (fun v => last_key (update_float_setting cfg0 decimal (text_update 1 v)
                             (Some (UserData_defaults cfg0 1)) P_top_p
                             (Some v) bot1))
       ["-0.01"; "0"; "0.5"; "1"; "1.01"]%string
     = [Some "PARAM_INVALID_VALUE"; Some "PARAM_SET"; Some "PARAM_SET";
        Some "PARAM_SET"; Some "PARAM_INVALID_VALUE"]%string
  /\ List.map
       (fun v => last_key (update_max_tokens cfg0 integer (text_update 1 v)
                             (Some (UserData_defaults cfg0 1)) (Some v) bot1))
       ["0"; "-5"; "100"]%string
     = [Some "MAX_TOKENS_INVALID"; Some "MAX_TOKENS_INVALID";
        Some "MAX_TOKENS_SET"]%string.
Proof.
  split; [apply in_unit_interval_finite|].
  split; [done|]. split; [by intros []|].
  split; [intros z; unfold is_positive; apply Z.ltb_lt|].
  repeat split; vm_compute; reflexivity.
Qed.

(** ** The state machine *)

(** C9 (counterexample).  The machine accepts [to_awaiting_top_p] in
    [awaiting_temperature]: an automatic transition, which is neither
    [return_to_idle] nor a parameter-set transition from [idle]. *)
Lemma C9_automatic_transition_enabled : ~ only_declared_enabled.
Proof.
  intros H.
  destruct (H (UserState.to_ UserState.awaiting_top_p)
              UserState.awaiting_temperature UserState.awaiting_top_p eq_refl)
    as [[Ht _]|[Hs _]]; discriminate.
Qed.

(** C9 (as amended).  The machine of a user starts in [idle] and accepts
    exactly these transitions: [return_to_idle] from any state, each of the
    five parameter-set triggers from [idle] to its awaiting state, and the
    automatic [to_<state>] of the machine library from any state to that
    state.  A parameter-set trigger fired in a non-idle state raises
    [MachineError] and leaves the state as it is, so the triggers the
    source declares enter a non-idle state from [idle] only; the session map
    holds one state per user.  Through the bot: a settings button pressed
    during a dialog fails with [MachineError] and changes nothing, neither
    the state nor the job queue. *)
Theorem C9_enabled_transitions :
  UserState.init = UserState.idle
  /\ (forall t s s',
        UserState.fire t s = (Val true, s') <->
        (t = UserState.return_to_idle /\ s' = UserState.idle)
        \/ (s = UserState.idle /\ awaited t = Some s')
        \/ t = UserState.to_ s')
  /\ (forall t s s0,
        awaited t = Some s0 -> s <> UserState.idle ->
        UserState.fire t s = (Exc MachineError, s))
  /\ (forall t s r s',
        (forall x, t <> UserState.to_ x) ->
        UserState.fire t s = (r, s') -> s' <> UserState.idle ->
        s = UserState.idle \/ s' = s)
  /\ (forall cfg (update : Update) (b : Bot) p s,
        callback_query update = Some (CbSet p) ->
        sessions b !! effective_user update = Some s ->
        s <> UserState.idle ->
        button_body cfg update b = (Exc MachineError, b)).
Proof.
  split; [done|]. split; [|split; [|split]].
  - intros t s s'. split.
    + destruct t as [| | | | | |x]; [destruct s; cbv; intros [= <-]; auto ..|].
      destruct x, s; cbv; intros [= <-]; auto.
    + intros [[-> ->]|[[-> H]| ->]]; [by destruct s| |by destruct s, s'].
      destruct t; cbn in H; inversion H; subst; reflexivity.
  - intros t s s0 Ht Hs. destruct t; cbn in Ht; try discriminate; by destruct s.
  - intros t s r s' Ht H Hs'.
    destruct t as [| | | | | |x]; [| | | | | |by destruct (Ht x)];
      destruct s; cbv in H; injection H as <- <-; first [done | auto].
  - intros cfg update b p s Hq Hsess Hs.
    unfold button_body. rewrite Hq. cbv [the].
    rewrite (bind_val (mret _) _ b b _ eq_refl).
    cbv [mbind M_bind bind modify on_user_state]. rewrite Hsess.
    assert (Hf : UserState.fire (setting_trigger p) s = (Exc MachineError, s))
      by (by destruct p, s).
    rewrite Hsess, Hf. rewrite insert_id by done. by destruct b.
Qed.

Lemma C9_witness :
  button_body cfg0 (press 1 (CbSet Temperature)) bot1_awaiting_top_p
  = (Exc MachineError, bot1_awaiting_top_p).
Proof.
  apply (C9_enabled_transitions) with (p := Temperature)
                                      (s := UserState.awaiting_top_p).
  - reflexivity.
  - vm_compute; reflexivity.
  - discriminate.
Defined.

(** ** The timeout *)

Example run_states :
  sessions run_opened !! 1 = Some UserState.awaiting_temperature
  /\ job_queue run_opened = [(300%Q, reset_state_job 1)]
  /\ sessions run_completed !! 1 = Some UserState.idle
  /\ temperature <$> TTLCache.peek 10 1 (cache (user_db run_completed))
     = Some (Finite (5 # 10))
  /\ List.map fst (job_queue run_completed) = [300%Q]
  /\ sessions run_reopened !! 1 = Some UserState.awaiting_top_p
  /\ List.map fst (job_queue run_reopened) = [300%Q; 590%Q].
Proof. vm_compute. done. Qed.

(** C4 (counterexample).  User 1 completes the temperature dialog at time
    10 and opens the top-p dialog at time 290.  At time 300 the timeout of
    the completed dialog fires all the same and removes the state of the
    dialog that is open. *)
Lemma C4_timeout_fires_after_completion :
  ~ timeout_is_preempted run_reopened 1 300.
Proof.
  unfold timeout_is_preempted. vm_compute. discriminate.
Qed.

Lemma edit_text_same_control (cfg : Config) (update : Update) (key : string)
    (u : usage) (b : Bot) :
  same_control b (edit_text cfg update key u b).2.
Proof.
  destruct (loc_same_control cfg key (effective_user update) b) as (Hb & Hc & _).
  unfold edit_text. cbv [mbind M_bind bind send modify].
  destruct (loc cfg key (effective_user update) b) as [[t|e|] b1]; try done.
  rewrite render_cases. by destruct (renders _ _ _ _).
Qed.

(** The "back" button drops the session and leaves the job queue alone. *)
Lemma button_back (cfg : Config) (update : Update) (b : Bot) :
  callback_query update = Some CbBack ->
  sessions (button_body cfg update b).2 = delete (effective_user update) (sessions b)
  /\ job_queue (button_body cfg update b).2 = job_queue b.
Proof.
  intros Hq. unfold button_body. rewrite Hq. cbv [the].
  rewrite (bind_val (mret _) _ b b _ eq_refl).
  cbv [mbind M_bind bind modify].
  destruct (edit_text_same_control cfg update "OK" AsIs
              (with_sessions (delete (effective_user update) (sessions b)) b))
    as (_ & _ & _ & Hs & Hj).
  by rewrite Hs, Hj.
Qed.

(** A settings button pressed outside a dialog opens it and schedules the
    timeout 300 after the press. *)
Lemma button_opens_dialog (cfg : Config) (update : Update) (b : Bot)
    (p : setting) (prof : UserData) :
  callback_query update = Some (CbSet p) ->
  in_dialog (effective_user update) b = false ->
  TTLCache.peek (clock b) (effective_user update) (cache (user_db b)) = Some prof ->
  language prof ∈ cfg_languages cfg ->
  exists b',
    button_body cfg update b = (Val tt, b')
    /\ sessions b' = <[effective_user update := awaiting p]> (sessions b)
    /\ job_queue b'
       = job_queue b ++ [((clock b + 300)%Q, reset_state_job (effective_user update))].
Proof.
  intros Hq Hdlg Hp Hl. set (uid := effective_user update) in *.
  set (b1 := match sessions b !! uid with
             | Some _ => b
             | None => with_sessions (<[uid := UserState.init]> (sessions b)) b
             end).
  assert (Hb1 : sessions b1 !! uid = Some UserState.idle
                /\ <[uid := awaiting p]> (sessions b1) = <[uid := awaiting p]> (sessions b)
                /\ user_db b1 = user_db b /\ clock b1 = clock b
                /\ job_queue b1 = job_queue b).
  { subst b1. unfold in_dialog in Hdlg.
    destruct (sessions b !! uid) as [s|] eqn:E.
    - rewrite E. destruct s; try done.
    - cbn. rewrite lookup_insert_eq, insert_insert_eq. done. }
  destruct Hb1 as (Hs1 & Hi1 & Hd1 & Hc1 & Hj1).
  set (b2 := with_sessions (<[uid := awaiting p]> (sessions b)) b1).
  assert (Hp2 : TTLCache.peek (clock b2) uid (cache (user_db b2)) = Some prof).
  { subst b2. cbn. by rewrite Hd1, Hc1. }
  assert (Hkey : exists key, state_messages (awaiting p) = Some key)
    by (destruct p; eexists; reflexivity).
  destruct Hkey as (key & Hkey).
  destruct (loc_cached cfg key uid b2 prof Hp2 Hl) as (d' & _ & Hloc).
  eexists. split.
  - unfold button_body. rewrite Hq. cbv [the].
    rewrite (bind_val (mret _) _ b b _ eq_refl).
    cbv [mbind M_bind bind modify on_user_state gets]. fold uid. fold b1.
    rewrite Hs1.
    assert (Hf : UserState.fire (setting_trigger p) UserState.idle
                 = (Val true, awaiting p)) by (by destruct p).
    rewrite Hf, Hi1. cbn [sessions with_sessions].
    rewrite lookup_insert_eq, insert_insert_eq. fold b2.
    replace (with_sessions (<[uid:=awaiting p]> (sessions b)) b2) with b2
      by reflexivity.
    rewrite Hkey. unfold query_reply_text.
    cbv [mbind M_bind bind] in *. fold uid. rewrite Hloc.
    cbv [send modify run_once]. reflexivity.
  - cbn. by rewrite Hj1, Hc1.
Qed.

(** Running timeout jobs only removes session states: the state of every
    user a job names is gone afterwards, and nothing else changes. *)
Lemma run_reset_jobs (process : Update -> option UserData -> M Bot unit)
    (js : list (Q * Job)) (b : Bot) :
  Forall is_reset_job js ->
  let b' := run_jobs process js b in
  user_db b' = user_db b
  /\ job_queue b' = job_queue b
  /\ outbox b' = outbox b
  /\ (forall uid due, (due, reset_state_job uid) ∈ js -> sessions b' !! uid = None)
  /\ (forall uid, sessions b !! uid = None -> sessions b' !! uid = None).
Proof.
  intros Hjs. revert b. induction Hjs as [|j js [u Hj] _ IH]; intros b.
  - cbn. repeat split; [|done]. intros uid due H. by apply elem_of_nil in H.
  - cbn [run_jobs]. rewrite Hj. cbn [run_job].
    set (b1 := (reset_state u b).2).
    destruct (IH b1) as (Hd & Hq & Ho & Hin & Hnone).
    split; [by rewrite Hd|]. split; [by rewrite Hq|]. split; [by rewrite Ho|].
    split.
    + intros uid due H. apply elem_of_cons in H as [H|H].
      * destruct j as [d' j']. cbn in Hj. subst j'. injection H as _ <-.
        apply Hnone. subst b1. cbn. apply lookup_delete_eq.
      * by apply (Hin uid due).
    + intros uid Hn. apply Hnone. subst b1. cbn.
      rewrite lookup_delete. case_decide; done.
Qed.

(** C4 (as amended).  The timeout of the settings dialog is never
    cancelled.  A settings button pressed outside a dialog opens the dialog
    and schedules [reset_state] 300 time units later.  A text consumed in
    the dialog leaves the job queue as it is, whether the update returns
    or raises; the update returns exactly when the number fits the store
    and the reply can be formatted, and the machine is then in [idle].
    Leaving the dialog with the back button leaves the job queue as it is
    too.  Once the clock has reached the due time of a scheduled
    [reset_state] for a user, that user has no session state left, whatever
    state the machine was in, while the profile store is untouched. *)
Theorem C4_timeout_is_never_cancelled
    (cfg : Config) (py_float : string -> option pyfloat)
    (py_int : string -> option Z)
    (process : Update -> option UserData -> M Bot unit)
    (update : Update) (b : Bot) :
  let uid := effective_user update in
  (forall p prof,
      callback_query update = Some (CbSet p) ->
      in_dialog uid b = false ->
      TTLCache.peek (clock b) uid (cache (user_db b)) = Some prof ->
      language prof ∈ cfg_languages cfg ->
      exists b',
        button_body cfg update b = (Val tt, b')
        /\ sessions b' !! uid = Some (awaiting p)
        /\ job_queue b' = job_queue b ++ [((clock b + 300)%Q, reset_state_job uid)])
  /\ (forall s v prof,
        message update = Some {| text := Some v |} ->
        sessions b !! uid = Some s ->
        s <> UserState.idle ->
        TTLCache.peek (clock b) uid (cache (user_db b)) = Some prof ->
        user_id prof = uid ->
        fits_int64 (user_id prof) = true ->
        fits_int64 (max_tokens prof) = true ->
        language prof ∈ cfg_languages cfg ->
        1 <= TTLCache.maxsize (cache (user_db b)) ->
        (0 < TTLCache.ttl (cache (user_db b)))%Q ->
        let r := handle_setting_update cfg py_float py_int update (Some prof) b in
        let reply := chosen_reply cfg py_float py_int s v in
        job_queue r.2 = job_queue b
        /\ (r.1 = Val tt <->
            overflows py_int s v prof = false
            /\ renders cfg (language prof) reply.1 reply.2 = true)
        /\ (r.1 = Val tt -> sessions r.2 !! uid = Some UserState.idle))
  /\ (callback_query update = Some CbBack ->
      sessions (button_body cfg update b).2 !! uid = None
      /\ job_queue (button_body cfg update b).2 = job_queue b)
  /\ (forall t due who,
        (due, reset_state_job who) ∈ job_queue b ->
        (due <= t)%Q ->
        Forall is_reset_job (List.filter (is_due t) (job_queue b)) ->
        let b' := advance_to process t b in
        sessions b' !! who = None
        /\ in_dialog who b' = false
        /\ user_db b' = user_db b).
Proof.
  intros uid. subst uid. split; [|split; [|split]].
  - intros p prof Hq Hdlg Hp Hl.
    destruct (button_opens_dialog cfg update b p prof Hq Hdlg Hp Hl)
      as (b' & Hr & Hs & Hj).
    exists b'. split; [done|]. split; [|done]. by rewrite Hs, lookup_insert_eq.
  - intros s v prof Hm Hsess Hs Hp Hid _ _ Hl Hsize Httl r reply. subst r reply.
    destruct (handle_setting_update_outcome cfg py_float py_int update b prof s v
                Hm Hsess Hs Hp Hid Hl Hsize Httl) as (Hj & Hout).
    split; [exact Hj|].
    destruct (overflows py_int s v prof).
    + destruct Hout as (Hr & _). rewrite Hr. split; [split|]; [done|by intros []|done].
    + destruct Hout as (_ & Hout).
      destruct (renders cfg (language prof) _ _).
      * destruct Hout as (Hr & Hs' & _). split; [done|].
        intros _. by rewrite Hs', lookup_insert_eq.
      * destruct Hout as (Hr & _). rewrite Hr. split; [split|]; [done|by intros []|done].
  - intros Hq. destruct (button_back cfg update b Hq) as (Hs & Hj).
    split; [|done]. rewrite Hs. apply lookup_delete_eq.
  - intros t due who Hin Hdue Hjobs b'. subst b'. unfold advance_to.
    cbn [job_queue with_clock].
    set (b0 := with_job_queue _ (with_clock t b)).
    destruct (run_reset_jobs process (List.filter (is_due t) (job_queue b)) b0 Hjobs)
      as (Hd & _ & _ & Hgone & _).
    assert (Hnone : sessions (run_jobs process (List.filter (is_due t) (job_queue b)) b0)
                    !! who = None).
    { apply (Hgone who due). apply list_elem_of_In, List.filter_In.
      split; [by apply list_elem_of_In|].
      unfold is_due. cbn. by apply Qle_bool_iff. }
    split; [done|]. split; [|by rewrite Hd].
    unfold in_dialog. by rewrite Hnone.
Qed.

Lemma C4_witness :
  let b' := advance_to no_provider 300 run_reopened in
  sessions b' !! 1 = None
  /\ in_dialog 1 b' = false
  /\ user_db b' = user_db run_reopened.
Proof.
  apply (C4_timeout_is_never_cancelled cfg0 decimal integer no_provider
           (press 1 CbBack) run_reopened) with (due := 300%Q).
  - vm_compute. left.
  - vm_compute. discriminate.
  - vm_compute. constructor; [eexists; reflexivity|constructor].
Defined.

(** * Further properties of the profile store *)

(** ** Reading back what was written *)






(** A hit of [get_user_data]: the item read becomes the most recently
    used one. *)
Lemma get_user_data_hit (cfg : Config) (now : Q) (uid : Z) (d : UserDataDB)
    (e : TTLCache.link) :
  TTLCache.find uid (cache d) = Some e ->
  TTLCache.live now e = true ->
  get_user_data cfg now uid d
  = (Val (Some (TTLCache.value e)),
     with_cache
       (TTLCache.with_links (TTLCache.remove uid (TTLCache.links (cache d)) ++ [e])
          (cache d)) d).
Proof.
  intros Hf Hl.
  assert (Hc : TTLCache.contains now uid (cache d) = true).
  { unfold TTLCache.contains. by rewrite Hf. }
  assert (Hg : TTLCache.getitem now uid (cache d)
               = (Val (TTLCache.value e),
                  TTLCache.with_links
                    (TTLCache.remove uid (TTLCache.links (cache d)) ++ [e]) (cache d))).
  { unfold TTLCache.getitem. by rewrite Hf, Hl. }
  cbv [get_user_data mbind M_bind bind gets cache_op zoom].
  rewrite Hc, Hg. reflexivity.
Qed.

(** X2.  A read that hits the cache returns the cached object and leaves
    the rows and the size and time to live of the cache alone; for every
    user and every later time the cache shows what it showed before, so a
    read does not prolong the life of the entry it reads.  One thing
    changes, the order of use: the entry read moves to the most recently
    used end, with its expiry time, and all other entries keep their
    order.  This is the order by which a full cache picks what to evict. *)
Theorem cached_read_changes_the_order_of_use_only
    (cfg : Config) (now : Q) (uid : Z) (d : UserDataDB) (u : UserData) :
  TTLCache.peek now uid (cache d) = Some u ->
  exists d' e,
    get_user_data cfg now uid d = (Val (Some u), d')
    /\ rows d' = rows d
    /\ TTLCache.maxsize (cache d') = TTLCache.maxsize (cache d)
    /\ TTLCache.ttl (cache d') = TTLCache.ttl (cache d)
    /\ (forall t k, TTLCache.peek t k (cache d') = TTLCache.peek t k (cache d))
    /\ TTLCache.find uid (cache d) = Some e
    /\ TTLCache.value e = u
    /\ TTLCache.links (cache d')
       = TTLCache.remove uid (TTLCache.links (cache d)) ++ [e].
Proof.
  intros Hp. unfold TTLCache.peek in Hp.
  destruct (TTLCache.find uid (cache d)) as [e|] eqn:E; [|done].
  destruct (TTLCache.live now e) eqn:L; [|done]. injection Hp as <-.
  eexists _, e. split; [by apply get_user_data_hit|].
  cbn [rows cache with_cache TTLCache.maxsize TTLCache.ttl TTLCache.links
       TTLCache.with_links].
  do 3 (split; [reflexivity|]). split; [|done].
  intros t k. unfold TTLCache.peek, TTLCache.find.
  cbn [TTLCache.links TTLCache.with_links].
  unfold TTLCache.find in E. by rewrite (find_touch _ _ _ _ E).
Qed.

(** In the cache of [db12] user 1 is the least recently used; after a read
    of user 1 it is user 2. *)
Lemma cached_read_witness :
  exists d' e,
    get_user_data cfg1 599 1 db12 = (Val (Some (UserData_defaults cfg1 1)), d')
    /\ rows d' = rows db12
    /\ TTLCache.maxsize (cache d') = TTLCache.maxsize (cache db12)
    /\ TTLCache.ttl (cache d') = TTLCache.ttl (cache db12)
    /\ (forall t k, TTLCache.peek t k (cache d') = TTLCache.peek t k (cache db12))
    /\ TTLCache.find 1 (cache db12) = Some e
    /\ TTLCache.value e = UserData_defaults cfg1 1
    /\ TTLCache.links (cache d')
       = TTLCache.remove 1 (TTLCache.links (cache db12)) ++ [e].
Proof.
  apply (cached_read_changes_the_order_of_use_only cfg1 599 1 db12).
  vm_compute. reflexivity.
Defined.

Example cached_read_order :
  TTLCache.key <$> TTLCache.links (cache db12) = [1; 2]
  /\ TTLCache.key <$> TTLCache.links (cache (get_user_data cfg1 599 1 db12).2) = [2; 1].
Proof. split; vm_compute; reflexivity. Qed.


(** ** The size of the cache *)

Lemma remove_length (k : Z) (l : list TTLCache.link) :
  (length (TTLCache.remove k l) <= length l)%nat.
Proof. unfold TTLCache.remove. apply List.filter_length_le. Qed.

Lemma remove_length_found (k : Z) (l : list TTLCache.link) :
  existsb (TTLCache.has_key k) l = true ->
  (length (TTLCache.remove k l) < length l)%nat.
Proof.
  induction l as [|x l IH]; [done|]. cbn [existsb TTLCache.remove List.filter].
  destruct (TTLCache.has_key k x) eqn:E; cbn [negb orb length].
  - intros _. pose proof (remove_length k l). unfold TTLCache.remove in *. lia.
  - intros H. specialize (IH H). unfold TTLCache.remove in *. lia.
Qed.

Lemma fmap_sublist {A B} (f : A -> B) (l1 l2 : list A) :
  l1 `sublist_of` l2 -> f <$> l1 `sublist_of` f <$> l2.
Proof.
  induction 1 as [|x l1 l2 _ IH|x l1 l2 _ IH]; cbn;
    [constructor | by apply sublist_skip | by apply sublist_cons].
Qed.

Lemma filter_sublist {A} (f : A -> bool) (l : list A) : List.filter f l `sublist_of` l.
Proof.
  induction l as [|x l IH]; [constructor|]. cbn [List.filter].
  destruct (f x); [by apply sublist_skip|by apply sublist_cons].
Qed.

Lemma keys_filter (f : TTLCache.link -> bool) (l : list TTLCache.link) :
  NoDup (TTLCache.key <$> l) -> NoDup (TTLCache.key <$> List.filter f l).
Proof.
  intros H. apply (sublist_NoDup _ _ H), fmap_sublist, filter_sublist.
Qed.

Lemma keys_drop (n : nat) (l : list TTLCache.link) :
  NoDup (TTLCache.key <$> l) -> NoDup (TTLCache.key <$> drop n l).
Proof.
  intros H. apply (sublist_NoDup _ _ H), fmap_sublist, sublist_drop.
Qed.

Lemma key_not_in_remove (k : Z) (l : list TTLCache.link) :
  k ∉ TTLCache.key <$> TTLCache.remove k l.
Proof.
  intros H. apply list_elem_of_fmap in H as (e & -> & He).
  unfold TTLCache.remove in He. apply list_elem_of_In, List.filter_In in He as [_ He].
  unfold TTLCache.has_key in He. by rewrite Z.eqb_refl in He.
Qed.

Lemma keys_restored (k : Z) (l : list TTLCache.link) (e : TTLCache.link) :
  TTLCache.key e = k ->
  NoDup (TTLCache.key <$> l) ->
  NoDup (TTLCache.key <$> (TTLCache.remove k l ++ [e])).
Proof.
  intros He H. rewrite fmap_app. apply NoDup_app. split; [by apply keys_filter|].
  split; [|apply NoDup_singleton].
  intros x Hx Hx'. cbn in Hx'. apply list_elem_of_singleton in Hx'. subst x.
  rewrite He in Hx. by apply key_not_in_remove in Hx.
Qed.

Lemma find_existsb (k : Z) (l : list TTLCache.link) (e : TTLCache.link) :
  List.find (TTLCache.has_key k) l = Some e -> existsb (TTLCache.has_key k) l = true.
Proof.
  intros H. apply List.existsb_exists. exists e.
  by apply List.find_some in H.
Qed.

Lemma getitem_cache_of_size (m : Z) (now : Q) (k : Z) (c : TTLCache.t) :
  cache_of_size m c -> cache_of_size m (TTLCache.getitem now k c).2.
Proof.
  intros [Hm [Hlen Hkeys]]. unfold TTLCache.getitem.
  destruct (TTLCache.find k c) as [e|] eqn:E; [|done].
  assert (Hb : cache_of_size m
                 (TTLCache.with_links (TTLCache.remove k (TTLCache.links c) ++ [e]) c)).
  { split; [done|].
    split; cbn [TTLCache.links TTLCache.with_links TTLCache.maxsize].
    - pose proof (remove_length_found k _ (find_existsb _ _ _ E)).
      rewrite length_app. cbn [length]. lia.
    - apply keys_restored; [|done]. by apply find_has_key in E. }
  by destruct (TTLCache.live now e).
Qed.

Lemma delitem_cache_of_size (m : Z) (now : Q) (k : Z) (c : TTLCache.t) :
  cache_of_size m c -> cache_of_size m (TTLCache.delitem now k c).2.
Proof.
  intros [Hm [Hlen Hkeys]]. unfold TTLCache.delitem.
  destruct (TTLCache.find k c) as [e|] eqn:E; [|done].
  assert (Hb : cache_of_size m
                 (TTLCache.with_links (TTLCache.remove k (TTLCache.links c)) c)).
  { split; [done|].
    split; cbn [TTLCache.links TTLCache.with_links TTLCache.maxsize].
    - pose proof (remove_length k (TTLCache.links c)). lia.
    - by apply keys_filter. }
  by destruct (TTLCache.live now e).
Qed.

Lemma setitem_cache_of_size (m : Z) (now : Q) (k : Z) (v : UserData) (c : TTLCache.t) :
  cache_of_size m c -> cache_of_size m (TTLCache.setitem now k v c).2.
Proof.
  intros [Hm0 [Hlen Hkeys]]. unfold TTLCache.setitem, TTLCache.expire.
  cbn [TTLCache.links TTLCache.with_links TTLCache.maxsize].
  set (l := List.filter (TTLCache.live now) (TTLCache.links c)).
  assert (Hl : (length l <= length (TTLCache.links c))%nat)
    by apply List.filter_length_le.
  assert (Hk : NoDup (TTLCache.key <$> l)) by (by apply keys_filter).
  destruct (TTLCache.maxsize c <? 1) eqn:Hm.
  { split; [done|]. split; [|done].
    cbn [snd TTLCache.links TTLCache.with_links TTLCache.maxsize]. lia. }
  apply Z.ltb_ge in Hm. cbn [snd]. split; [done|].
  split; cbn [TTLCache.links TTLCache.with_links TTLCache.maxsize].
  - rewrite length_app. cbn [length].
    destruct (existsb (TTLCache.has_key k) l) eqn:Ex.
    + pose proof (remove_length_found k l Ex). lia.
    + pose proof (remove_length k
                    (drop (Z.to_nat (Z.of_nat (length l) + 1 - TTLCache.maxsize c)) l)) as H.
      rewrite length_drop in H. lia.
  - apply keys_restored; [done|].
    destruct (existsb (TTLCache.has_key k) l); [done|by apply keys_drop].
Qed.

Lemma get_user_data_cache_of_size (m : Z) (cfg : Config) (now : Q) (uid : Z)
    (d : UserDataDB) :
  cache_of_size m (cache d) ->
  cache_of_size m (cache (get_user_data cfg now uid d).2).
Proof.
  intros H. cbv [get_user_data mbind M_bind bind gets cache_op zoom mret M_ret ret raise].
  destruct (TTLCache.contains now uid (cache d)).
  - pose proof (getitem_cache_of_size m now uid (cache d) H) as Hg.
    by destruct (TTLCache.getitem now uid (cache d)) as [[u|e|] c].
  - destruct (rows d !! uid) as [r|]; [|done]. by rewrite UserData_init_row.
Qed.

Lemma update_user_data_cache_of_size (m : Z) (cfg : Config) (now : Q) (p : UserData)
    (d : UserDataDB) :
  cache_of_size m (cache d) ->
  cache_of_size m (cache (update_user_data cfg now p d).2).
Proof.
  intros H. cbv [update_user_data mbind M_bind bind modify cache_op zoom to_dict].
  cbn [cache with_rows].
  pose proof (setitem_cache_of_size m now (user_id p) p (cache d) H) as Hs.
  by destruct (TTLCache.setitem now (user_id p) p (cache d)) as [r c].
Qed.

Lemma invalidate_cache_cache_of_size (m : Z) (now : Q) (uid : Z) (d : UserDataDB) :
  cache_of_size m (cache d) ->
  cache_of_size m (cache (invalidate_cache now uid d).2).
Proof.
  intros H. cbv [invalidate_cache mbind M_bind bind gets cache_op zoom mret M_ret ret].
  destruct (TTLCache.contains now uid (cache d)); [|done].
  pose proof (delitem_cache_of_size m now uid (cache d) H) as Hd.
  by destruct (TTLCache.delitem now uid (cache d)) as [r c].
Qed.

Lemma after_call_cache_of_size (m : Z) (cfg : Config) (d : UserDataDB) (c : Q * db_call) :
  cache_of_size m (cache d) -> cache_of_size m (cache (after_call cfg d c)).
Proof.
  intros H. destruct c as [now [uid|p|uid name|f uid v|uid]]; cbn [after_call fst snd].
  - by apply get_user_data_cache_of_size.
  - by apply update_user_data_cache_of_size.
  - unfold create_user. destruct name as [name|]; [|done].
    by rewrite UserData_init_user_name.
  - cbv [set_flag mbind M_bind bind modify].
    by apply (invalidate_cache_cache_of_size m now uid (with_rows _ d)).
  - by apply invalidate_cache_cache_of_size.
Qed.

(** X4.  Whatever calls are made on a store after [UserDataDB.__init__],
    in whatever order and at whatever times, and whether they return or
    raise, the cache never holds more than [max_cache_size] profiles and
    never two entries for one user. *)
Theorem cache_stays_within_max_cache_size
    (cfg : Config) (stored : gmap Z Row) (cs : list (Q * db_call)) :
  let c := cache (after_calls cfg cs (UserDataDB_init cfg stored)) in
  Z.of_nat (length (TTLCache.links c)) <= Z.max 0 (cfg_max_cache_size cfg)
  /\ NoDup (TTLCache.key <$> TTLCache.links c).
Proof.
  intros c. subst c.
  assert (H : forall d, cache_of_size (cfg_max_cache_size cfg) (cache d) ->
              cache_of_size (cfg_max_cache_size cfg) (cache (after_calls cfg cs d))).
  { induction cs as [|c cs IH]; intros d Hb; [done|].
    cbn [after_calls foldl]. by apply IH, after_call_cache_of_size. }
  destruct (H (UserDataDB_init cfg stored)) as [Hm [Hlen Hkeys]].
  - split; [done|]. split; [cbn; lia|constructor].
  - rewrite Hm in Hlen. done.
Qed.

(** ** Eviction *)










(** ** Flags *)

(** [invalidate_cache] touches the entry of that one user only. *)
Lemma invalidate_cache_others (now : Q) (uid : Z) (d : UserDataDB) :
  forall t k, k <> uid ->
    TTLCache.peek t k (cache (invalidate_cache now uid d).2) = TTLCache.peek t k (cache d).
Proof.
  intros t k Hk.
  cbv [invalidate_cache mbind M_bind bind gets cache_op zoom mret M_ret ret].
  destruct (TTLCache.contains now uid (cache d)); [|done].
  unfold TTLCache.delitem.
  destruct (TTLCache.find uid (cache d)) as [e|]; [|done].
  assert (H : TTLCache.peek t k
                (TTLCache.with_links (TTLCache.remove uid (TTLCache.links (cache d)))
                   (cache d))
              = TTLCache.peek t k (cache d)).
  { unfold TTLCache.peek, TTLCache.find. cbn [TTLCache.links TTLCache.with_links].
    by rewrite find_remove_ne. }
  by destruct (TTLCache.live now e).
Qed.

Lemma set_flag_spec (f : flag) (now : Q) (uid : Z) (v : bool) (d : UserDataDB) :
  exists d',
    set_flag f now uid v d = (Val tt, d')
    /\ rows d' = update_flag_column f v uid (rows d)
    /\ TTLCache.contains now uid (cache d') = false
    /\ forall t k, k <> uid -> TTLCache.peek t k (cache d') = TTLCache.peek t k (cache d).
Proof.
  set (d1 := with_rows (update_flag_column f v uid (rows d)) d).
  destruct (invalidate_cache_contains now uid d1) as (Hc & Hrows & Hval).
  exists (invalidate_cache now uid d1).2. split.
  - cbv [set_flag mbind M_bind bind modify]. fold d1.
    destruct (invalidate_cache now uid d1) as [[[]| |] d2]; cbn in Hval; done.
  - split; [by rewrite Hrows|]. split; [done|].
    intros t k Hk. by rewrite invalidate_cache_others.
Qed.



(** The results of [get_all_users] and [get_admins]: each id once, in
    ascending order. *)
Lemma get_all_users_spec (d : UserDataDB) :
  exists l, get_all_users d = (Val l, d)
    /\ NoDup l /\ (forall k, k ∈ l <-> is_Some (rows d !! k))
    /\ StronglySorted Z.le l.
Proof.
  eexists. split; [reflexivity|]. split; [|split].
  - rewrite merge_sort_Permutation. apply NoDup_fst_map_to_list.
  - intros k. rewrite merge_sort_Permutation, list_elem_of_fmap. split.
    + intros ([k' r] & -> & H). apply elem_of_map_to_list in H. by exists r.
    + intros [r H]. exists (k, r). split; [done|]. by apply elem_of_map_to_list.
  - apply StronglySorted_merge_sort; apply _.
Qed.



(** ** A cache that holds nothing *)



(** * Further properties of the bot *)

(** ** A bot that starts with nothing cached *)

(** With nothing cached, a read finds no row, or finds one and fails. *)
Lemma get_user_data_empty_cache (cfg : Config) (now : Q) (uid : Z) (d : UserDataDB) :
  TTLCache.links (cache d) = [] ->
  get_user_data cfg now uid d
  = (match rows d !! uid with Some _ => Exc TypeError | None => Val None end, d).
Proof.
  intros Hl.
  assert (Hc : TTLCache.contains now uid (cache d) = false).
  { unfold TTLCache.contains, TTLCache.find. by rewrite Hl. }
  destruct (rows d !! uid) as [r|] eqn:E.
  - by apply (get_user_data_stored cfg now uid d r).
  - by apply get_user_data_absent.
Qed.

Lemma db_get_empty_cache (cfg : Config) (uid : Z) (b : Bot) :
  TTLCache.links (cache (user_db b)) = [] ->
  db (fun now => get_user_data cfg now uid) b
  = (match rows (user_db b) !! uid with Some _ => Exc TypeError | None => Val None end,
     b).
Proof.
  intros Hl. cbv [db zoom]. rewrite (get_user_data_empty_cache cfg _ _ _ Hl).
  by rewrite with_user_db_id.
Qed.

Lemma only_refusals_refl (b : Bot) : only_refusals b b.
Proof.
  do 5 (split; [done|]). exists []. split; [by rewrite app_nil_r|constructor].
Qed.

Lemma only_refusals_trans (b0 b1 b2 : Bot) :
  only_refusals b0 b1 -> only_refusals b1 b2 -> only_refusals b0 b2.
Proof.
  intros (Hd & Hg & Hu & Hs & Hj & r1 & Ho & Hr1)
         (Hd' & Hg' & Hu' & Hs' & Hj' & r2 & Ho' & Hr2).
  split; [congruence|]. split; [congruence|]. split; [congruence|].
  split; [congruence|]. split; [congruence|].
  exists (r1 ++ r2). split; [by rewrite Ho', Ho, app_assoc|by apply Forall_app].
Qed.

(** A refusal sent to a user for whom nothing is cached. *)
Lemma refusal_empty_cache (cfg : Config) (update : Update) (key : string) (b : Bot) :
  TTLCache.links (cache (user_db b)) = [] ->
  (key = "NO_PERMISSION" \/ key = "ADMIN_PERMISSION_DENIED")%string ->
  only_refusals b (reply_text cfg update key AsIs b).2.
Proof.
  intros Hl Hk. unfold reply_text.
  destruct (message update) as [msg|]; [|apply only_refusals_refl].
  cbv [loc mbind M_bind bind]. rewrite (db_get_empty_cache cfg _ b Hl).
  destruct (rows (user_db b) !! effective_user update); [apply only_refusals_refl|].
  destruct (bool_decide ("en"%string ∈ cfg_languages cfg)); [|apply only_refusals_refl].
  cbv [mret M_ret ret render renders send modify].
  cbn [snd text_language text_key usage_args].
  do 5 (split; [done|]). eexists. split; [reflexivity|].
  apply Forall_singleton. by exists (effective_user update), key.
Qed.

Lemma after_event_only_refusals (cfg : Config) (admin_users : gset Z)
    (process : Update -> option UserData -> M Bot unit) (b : Bot) (e : event) :
  TTLCache.links (cache (user_db b)) = [] ->
  job_queue b = [] ->
  only_refusals b (after_event cfg admin_users process b e).
Proof.
  intros Hl Hq. destruct e as [update|body update|body update|t]; cbn [after_event].
  - unfold start, user_data_required. cbv [mbind M_bind bind].
    rewrite (db_get_empty_cache cfg _ b Hl).
    destruct (rows (user_db b) !! effective_user update); [apply only_refusals_refl|].
    rewrite bool_decide_eq_true_2 by done.
    cbv [db zoom create_user raise]. cbn [snd]. rewrite with_user_db_id.
    apply only_refusals_refl.
  - unfold user_access_required, check_user_access. cbv [mbind M_bind bind].
    rewrite (db_get_empty_cache cfg _ b Hl).
    destruct (rows (user_db b) !! effective_user update); [apply only_refusals_refl|].
    cbv [mret M_ret ret negb]. apply refusal_empty_cache; auto.
  - unfold admin_required, TelegramBot_is_admin.
    destruct (bool_decide (effective_user update ∈ admin_users)).
    + cbv [mbind M_bind bind mret M_ret ret negb].
      unfold user_data_required. cbv [mbind M_bind bind].
      rewrite (db_get_empty_cache cfg _ b Hl).
      destruct (rows (user_db b) !! effective_user update); [apply only_refusals_refl|].
      rewrite bool_decide_eq_true_2 by done.
      cbv [db zoom create_user raise]. cbn [snd]. rewrite with_user_db_id.
      apply only_refusals_refl.
    + cbv [mbind M_bind bind].
      rewrite (db_get_empty_cache cfg _ b Hl).
      destruct (rows (user_db b) !! effective_user update); [apply only_refusals_refl|].
      cbv [mret M_ret ret negb]. apply refusal_empty_cache; auto.
  - unfold advance_to. cbn [job_queue with_clock]. rewrite Hq.
    cbn [List.filter run_jobs].
    do 5 (split; [by try rewrite Hq|]).
    exists []. split; [by rewrite app_nil_r|constructor].
Qed.

(** X8.  A bot that has just been created never gets a profile into its
    cache, and so never runs the body of any handler.  Whatever rows the
    database file holds, after any sequence of [/start] commands, updates
    for handlers behind [user_access_required], [user_data_required] and
    [rate_limit], admin commands behind [admin_required] and
    [user_data_required], and clock ticks, and whatever the bodies of those
    handlers would do, the rows are the stored ones, the cache is empty,
    no limiter has been touched or created, there is no session and no job,
    and every text sent by these handlers is a refusal in English: each
    read of a row fails in [UserData(..., user_name=...)], and each attempt
    to create a profile fails in [create_user(user_id)]. *)
Theorem no_profile_is_ever_read_or_created
    (cfg : Config) (admin_users : gset Z)
    (process : Update -> option UserData -> M Bot unit)
    (t0 : Q) (stored : gmap Z Row) (events : list event) :
  let b0 := TelegramBot_init cfg t0 stored in
  let b := foldl (after_event cfg admin_users process) b0 events in
  rows (user_db b) = stored
  /\ TTLCache.links (cache (user_db b)) = []
  /\ global_limiter b = global_limiter b0
  /\ user_limiters b = ∅
  /\ sessions b = ∅
  /\ job_queue b = []
  /\ Forall is_refusal (outbox b).
Proof.
  intros b0 b.
  assert (H : forall b1, TTLCache.links (cache (user_db b1)) = [] -> job_queue b1 = [] ->
              only_refusals b1 (foldl (after_event cfg admin_users process) b1 events)).
  { induction events as [|e events IH]; intros b1 Hl Hq; [apply only_refusals_refl|].
    cbn [foldl].
    pose proof (after_event_only_refusals cfg admin_users process b1 e Hl Hq) as H1.
    apply (only_refusals_trans _ _ _ H1). destruct H1 as (Hd & _ & _ & _ & Hj & _).
    apply IH; [by rewrite Hd|by rewrite Hj]. }
  destruct (H b0 eq_refl eq_refl) as (Hd & Hg & Hu & Hs & Hj & r & Ho & Hr).
  fold b in Hd, Hg, Hu, Hs, Hj, Ho.
  rewrite Hd. split; [done|]. split; [done|]. split; [done|]. split; [done|].
  split; [done|]. split; [done|]. by rewrite Ho.
Qed.

(** ** Refusals *)

Lemma check_user_access_cached (cfg : Config) (uid : Z) (b : Bot) (p : UserData) :
  TTLCache.peek (clock b) uid (cache (user_db b)) = Some p ->
  exists d', db_same_view (clock b) (user_db b) d'
    /\ check_user_access cfg uid b = (Val (has_access cfg p), with_user_db d' b).
Proof.
  intros Hp. destruct (db_get_cached cfg uid b p Hp) as (d' & Hv & Hg).
  exists d'. split; [done|]. unfold check_user_access.
  rewrite (bind_val _ _ _ _ _ Hg). unfold has_access.
  destruct (is_blacklisted p); [done|].
  by destruct (cfg_whitelist_mode cfg && negb (is_whitelisted p)).
Qed.

(** X9.  A user whose cached profile is blacklisted, or is not whitelisted
    while the bot runs in whitelist mode, is refused by
    [user_access_required]: the handler it wraps is not run, whatever it
    is; the user gets the one reply [NO_PERMISSION] in the language of the
    profile; and limiters, sessions, jobs and profiles are as they were, so
    a refused request uses up no permit.  The blacklist wins over the
    whitelist. *)
Theorem user_without_access_is_refused
    (cfg : Config) (func : Handler) (update : Update) (b : Bot)
    (p : UserData) (msg : Message) :
  let uid := effective_user update in
  message update = Some msg ->
  TTLCache.peek (clock b) uid (cache (user_db b)) = Some p ->
  language p ∈ cfg_languages cfg ->
  is_blacklisted p = true
  \/ (cfg_whitelist_mode cfg = true /\ is_whitelisted p = false) ->
  exists b',
    user_access_required cfg func update b = (Val tt, b')
    /\ one_reply uid (text_for p "NO_PERMISSION" []) b b'
    /\ db_same_view (clock b) (user_db b) (user_db b').
Proof.
  intros uid Hm Hp Hl Hwhy. subst uid.
  assert (Hacc : has_access cfg p = false).
  { unfold has_access. destruct Hwhy as [->|[-> ->]]; [done|].
    by destruct (is_blacklisted p). }
  destruct (check_user_access_cached cfg _ b p Hp) as (d1 & Hv1 & Hc).
  pose proof (view_peek _ _ _ _ _ Hv1 Hp) as Hp1.
  destruct (reply_text_cached cfg update "NO_PERMISSION" AsIs (with_user_db d1 b) p msg
              Hm Hp1 Hl eq_refl) as (d2 & Hv2 & Hr).
  eexists. split.
  - unfold user_access_required. rewrite (bind_val _ _ _ _ _ Hc). rewrite Hacc.
    cbn [negb]. exact Hr.
  - split; [split; [by repeat split|reflexivity]|].
    by apply (db_same_view_trans _ _ d1).
Qed.

Lemma user_without_access_witness :
  exists b',
    user_access_required cfg0 noop (text_update 1 "hi") bot1_blacklisted = (Val tt, b')
    /\ one_reply 1 (text_for blacklisted1 "NO_PERMISSION" []) bot1_blacklisted b'
    /\ db_same_view 0 (user_db bot1_blacklisted) (user_db b').
Proof.
  apply (user_without_access_is_refused cfg0 noop (text_update 1 "hi") bot1_blacklisted
           blacklisted1 {| text := Some "hi"%string |}).
  - reflexivity.
  - vm_compute. reflexivity.
  - apply list_elem_of_In. simpl. auto.
  - left. reflexivity.
Defined.

(** X10.  A button press is an update without [update.message], and every
    refusal is sent with [update.message.reply_text].  So when [button] has
    to refuse a press, because the user has no access or because the global
    or the user scope has no capacity, it raises [AttributeError] instead:
    nothing is sent, no session is created, no job is scheduled and the
    profiles are as they were. *)
Theorem refusing_a_button_press_raises_AttributeError
    (cfg : Config) (update : Update) (b : Bot) (p : UserData) :
  let uid := effective_user update in
  let r := button cfg update b in
  message update = None ->
  TTLCache.peek (clock b) uid (cache (user_db b)) = Some p ->
  has_access cfg p = false
  \/ capacity (clock b) (global_limiter b) = false
  \/ capacity (clock b) (user_limiter_of cfg uid b) = false ->
  r.1 = Exc AttributeError
  /\ outbox r.2 = outbox b
  /\ sessions r.2 = sessions b
  /\ job_queue r.2 = job_queue b
  /\ db_same_view (clock b) (user_db b) (user_db r.2).
Proof.
  intros uid r Hm Hp Hwhy. subst uid r.
  assert (Hreply : forall key b1, reply_text cfg update key AsIs b1 = (Exc AttributeError, b1)).
  { intros key b1. unfold reply_text. by rewrite Hm. }
  destruct (has_access cfg p) eqn:Hacc.
  - destruct Hwhy as [?|Hwhy]; [done|].
    unfold button.
    destruct (decorators_cached cfg (rate_limit cfg (button_body cfg)) update b p Hp Hacc)
      as (d1 & Hv1 & ->).
    destruct (capacity (clock b) (global_limiter b)) eqn:Hg.
    + destruct Hwhy as [?|Hu]; [done|].
      rewrite rate_limit_no_user by done. rewrite Hreply.
      do 4 (split; [reflexivity|]). exact Hv1.
    + rewrite rate_limit_no_global by done. rewrite Hreply.
      do 4 (split; [reflexivity|]). exact Hv1.
  - destruct (check_user_access_cached cfg _ b p Hp) as (d1 & Hv1 & Hc).
    unfold button, user_access_required. rewrite (bind_val _ _ _ _ _ Hc), Hacc.
    cbn [negb]. rewrite Hreply.
    do 4 (split; [reflexivity|]). exact Hv1.
Qed.

Lemma refusing_a_button_press_witness :
  let r := button cfg0 (press 1 (CbSet Temperature)) bot1_global_full in
  r.1 = Exc AttributeError
  /\ outbox r.2 = outbox bot1_global_full
  /\ sessions r.2 = sessions bot1_global_full
  /\ job_queue r.2 = job_queue bot1_global_full
  /\ db_same_view 0 (user_db bot1_global_full) (user_db r.2).
Proof.
  apply (refusing_a_button_press_raises_AttributeError cfg0
           (press 1 (CbSet Temperature)) bot1_global_full (UserData_defaults cfg0 1)).
  - reflexivity.
  - vm_compute. reflexivity.
  - right. left. vm_compute. reflexivity.
Defined.

(** X11.  [/start] carries [user_data_required] and [rate_limit] but not
    [user_access_required]: a user with a cached profile gets [WELCOME]
    whatever the flags of the profile are, blacklisted or not, as long as
    both scopes have capacity, and the request takes one permit of each
    scope. *)
Theorem start_is_answered_whatever_the_flags
    (cfg : Config) (update : Update) (b : Bot) (p : UserData) (msg : Message) :
  let now := clock b in
  let uid := effective_user update in
  message update = Some msg ->
  TTLCache.peek now uid (cache (user_db b)) = Some p ->
  language p ∈ cfg_languages cfg ->
  capacity now (global_limiter b) = true ->
  capacity now (user_limiter_of cfg uid b) = true ->
  exists b',
    start cfg update b = (Val tt, b')
    /\ outbox b' = outbox b ++ [ReplyText uid (text_for p "WELCOME" [])]
    /\ global_limiter b' = entered now (global_limiter b)
    /\ user_limiters b' = <[uid := entered now (user_limiter_of cfg uid b)]> (user_limiters b)
    /\ db_same_view now (user_db b) (user_db b').
Proof.
  intros now uid Hm Hp Hl Hg Hu. subst now uid.
  destruct (db_get_cached cfg _ b p Hp) as (d1 & Hv1 & Hg1).
  unfold start, user_data_required. rewrite (bind_val _ _ _ _ _ Hg1).
  rewrite bool_decide_eq_false_2 by done.
  rewrite (bind_val (mret tt) _ _ _ tt eq_refl).
  rewrite rate_limit_admitted by done.
  set (B := admitted cfg (effective_user update) (with_user_db d1 b)).
  assert (HpB : TTLCache.peek (clock B) (effective_user update) (cache (user_db B)) = Some p).
  { apply (view_peek _ _ _ _ _ Hv1 Hp). }
  destruct (db_get_cached cfg _ B p HpB) as (d2 & Hv2 & Hg2).
  unfold start_body. rewrite (bind_val _ _ _ _ _ Hg2).
  assert (Hp2 : TTLCache.peek (clock (with_user_db d2 B)) (effective_user update)
                  (cache (user_db (with_user_db d2 B))) = Some p).
  { apply (view_peek _ _ _ _ _ Hv2 HpB). }
  destruct (reply_text_cached cfg update "WELCOME" AsIs (with_user_db d2 B) p msg
              Hm Hp2 Hl eq_refl) as (d3 & Hv3 & Hr).
  eexists. split; [exact Hr|]. split; [reflexivity|]. split; [reflexivity|].
  split; [reflexivity|].
  apply (db_same_view_trans _ _ d1); [done|].
  apply (db_same_view_trans _ _ d2); [done|]. exact Hv3.
Qed.

Lemma start_is_answered_witness :
  exists b',
    start cfg0 (start_update 1) bot1_blacklisted = (Val tt, b')
    /\ outbox b'
       = outbox bot1_blacklisted ++ [ReplyText 1 (text_for blacklisted1 "WELCOME" [])]
    /\ global_limiter b' = entered 0 (global_limiter bot1_blacklisted)
    /\ user_limiters b'
       = <[1 := entered 0 (user_limiter_of cfg0 1 bot1_blacklisted)]>
           (user_limiters bot1_blacklisted)
    /\ db_same_view 0 (user_db bot1_blacklisted) (user_db b').
Proof.
  apply (start_is_answered_whatever_the_flags cfg0 (start_update 1) bot1_blacklisted
           blacklisted1 {| text := Some "/start"%string |}).
  - reflexivity.
  - vm_compute. reflexivity.
  - apply list_elem_of_In. simpl. auto.
  - vm_compute. reflexivity.
  - vm_compute. reflexivity.
Defined.

(** ** Voice messages and failing replies in the settings dialog *)



(** X12.  A voice message has no text.  When it arrives while the user is
    asked for a temperature, a top-p value or a token count, [float(None)]
    or [int(None)] raises [TypeError], which the [except ValueError] of the
    update does not catch: [handle_setting_update] fails before
    [return_to_idle], leaving everything as it was.  [handle_message]
    catches the error and answers [HANDLING_ERROR]; the dialog stays open in
    the same state and no profile changes. *)
Theorem voice_message_leaves_numeric_dialog_open
    (cfg : Config) (py_float : string -> option pyfloat)
    (py_int : string -> option Z) (update : Update) (b : Bot)
    (p : UserData) (s : UserState.state) :
  let uid := effective_user update in
  message update = Some {| text := None |} ->
  sessions b !! uid = Some s ->
  s = UserState.awaiting_temperature \/ s = UserState.awaiting_top_p
  \/ s = UserState.awaiting_max_tokens ->
  TTLCache.peek (clock b) uid (cache (user_db b)) = Some p ->
  language p ∈ cfg_languages cfg ->
  (AsyncLimiter.acquire (clock b) (global_limiter b)).1 = Val tt ->
  (forall user_data,
     handle_setting_update cfg py_float py_int update user_data b = (Exc TypeError, b))
  /\ exists b',
       handle_message_body cfg py_float py_int update b = (Val tt, b')
       /\ sessions b' = sessions b
       /\ outbox b' = outbox b ++ [ReplyText uid (text_for p "HANDLING_ERROR" [])]
       /\ job_queue b' = job_queue b
       /\ db_same_view (clock b) (user_db b) (user_db b').
Proof.
  intros uid Hm Hsess Hs Hp Hl Hacq. subst uid.
  assert (Hset : forall b1 user_data,
            sessions b1 !! effective_user update = Some s ->
            handle_setting_update cfg py_float py_int update user_data b1
            = (Exc TypeError, b1)).
  { intros b1 user_data Hs1. unfold handle_setting_update.
    rewrite (bind_val _ _ _ _ _ (on_user_state_read _ b1 s Hs1)).
    rewrite Hm. cbv [the]. rewrite (bind_val (mret _) _ b1 b1 _ eq_refl).
    cbn [text].
    destruct Hs as [->|[->| ->]]; reflexivity. }
  split; [intros user_data; by apply Hset|].
  destruct (db_get_cached cfg _ b p Hp) as (d1 & Hv1 & Hg1).
  unfold handle_message_body. rewrite (bind_val _ _ _ _ _ Hg1).
  cbv [mbind M_bind bind on_global_limiter zoom].
  replace (clock (with_user_db d1 b)) with (clock b) by reflexivity.
  replace (global_limiter (with_user_db d1 b)) with (global_limiter b) by reflexivity.
  destruct (AsyncLimiter.acquire (clock b) (global_limiter b)) as [r g'].
  cbn [fst] in Hacq. subst r.
  set (B := with_global_limiter g' (with_user_db d1 b)).
  assert (HsB : sessions B !! effective_user update = Some s) by exact Hsess.
  assert (Hdlg : in_dialog (effective_user update) B = true).
  { unfold in_dialog. rewrite HsB. by destruct Hs as [->|[->| ->]]. }
  assert (HpB : TTLCache.peek (clock B) (effective_user update) (cache (user_db B)) = Some p).
  { apply (view_peek _ _ _ _ _ Hv1 Hp). }
  destruct (reply_text_cached cfg update "HANDLING_ERROR" AsIs B p _ Hm HpB Hl eq_refl)
    as (d2 & Hv2 & Hr).
  cbv [try_except_all mbind M_bind bind gets]. rewrite Hdlg, (Hset B (Some p) HsB), Hr.
  eexists. split; [reflexivity|]. do 3 (split; [reflexivity|]).
  by apply (db_same_view_trans _ _ d1).
Qed.

Lemma voice_message_numeric_witness :
  (forall user_data,
     handle_setting_update cfg0 decimal integer (voice_update 1) user_data
       bot1_awaiting_temperature
     = (Exc TypeError, bot1_awaiting_temperature))
  /\ exists b',
       handle_message_body cfg0 decimal integer (voice_update 1)
         bot1_awaiting_temperature = (Val tt, b')
       /\ sessions b' = sessions bot1_awaiting_temperature
       /\ outbox b'
          = outbox bot1_awaiting_temperature
            ++ [ReplyText 1 (text_for (UserData_defaults cfg0 1) "HANDLING_ERROR" [])]
       /\ job_queue b' = job_queue bot1_awaiting_temperature
       /\ db_same_view (clock bot1_awaiting_temperature)
            (user_db bot1_awaiting_temperature) (user_db b').
Proof.
  apply (voice_message_leaves_numeric_dialog_open cfg0 decimal integer (voice_update 1)
           bot1_awaiting_temperature (UserData_defaults cfg0 1)
           UserState.awaiting_temperature).
  - reflexivity.
  - vm_compute. reflexivity.
  - left. reflexivity.
  - vm_compute. reflexivity.
  - apply list_elem_of_In. simpl. auto.
  - vm_compute. reflexivity.
Defined.





(** ** Choosing a language *)



(** ** The administration commands *)

Lemma contains_peek (now : Q) (k : Z) (c : TTLCache.t) :
  TTLCache.contains now k c = false <-> TTLCache.peek now k c = None.
Proof.
  unfold TTLCache.contains, TTLCache.peek.
  destruct (TTLCache.find k c) as [e|]; [|done]. by destruct (TTLCache.live now e).
Qed.

Lemma flag_command_eq (cfg : Config) (py_int : string -> option Z)
    (admin_users : gset Z) (f : flag) (args : list string) :
  flag_command cfg py_int admin_users f args
  = admin_required cfg admin_users
      (user_data_required cfg (admin_flag_body cfg py_int f (flag_reply f) args)).
Proof. by destruct f. Qed.

Lemma is_admin_cached (cfg : Config) (admin_users : gset Z) (uid : Z) (b : Bot)
    (p : UserData) :
  TTLCache.peek (clock b) uid (cache (user_db b)) = Some p ->
  exists d', db_same_view (clock b) (user_db b) d'
    /\ TelegramBot_is_admin cfg admin_users uid b
       = (Val (admin_by admin_users uid p), with_user_db d' b).
Proof.
  intros Hp. unfold TelegramBot_is_admin, admin_by.
  destruct (bool_decide (uid ∈ admin_users)).
  - exists (user_db b). split; [by repeat split|]. by rewrite with_user_db_id.
  - destruct (db_get_cached cfg uid b p Hp) as (d' & Hv & Hg).
    exists d'. split; [done|]. by rewrite (bind_val _ _ _ _ _ Hg).
Qed.

Lemma user_data_required_cached (cfg : Config) (func : Handler) (update : Update)
    (b : Bot) (p : UserData) :
  TTLCache.peek (clock b) (effective_user update) (cache (user_db b)) = Some p ->
  exists d', db_same_view (clock b) (user_db b) d'
    /\ user_data_required cfg func update b = func update (with_user_db d' b).
Proof.
  intros Hp. destruct (db_get_cached cfg _ b p Hp) as (d' & Hv & Hg).
  exists d'. split; [done|]. unfold user_data_required.
  rewrite (bind_val _ _ _ _ _ Hg). rewrite bool_decide_eq_false_2 by done.
  by rewrite (bind_val (mret tt) _ _ _ tt eq_refl).
Qed.

(** X16.  [admin_required] by cases.  A user listed in the configuration
    is admitted without any look at the store: the wrapped handler runs on
    the bot as it is.  A user who is not listed is admitted when the cached
    profile has the admin flag, and is otherwise answered
    [ADMIN_PERMISSION_DENIED] once, in the language of the profile, the
    handler not being run and nothing else changing. *)
Theorem admin_required_admits_listed_and_flagged_users
    (cfg : Config) (admin_users : gset Z) (func : Handler) (update : Update)
    (b : Bot) :
  let uid := effective_user update in
  (uid ∈ admin_users -> admin_required cfg admin_users func update b = func update b)
  /\ (forall p, uid ∉ admin_users ->
        TTLCache.peek (clock b) uid (cache (user_db b)) = Some p ->
        is_admin p = true ->
        exists d', db_same_view (clock b) (user_db b) d'
          /\ admin_required cfg admin_users func update b
             = func update (with_user_db d' b))
  /\ (forall p msg, uid ∉ admin_users ->
        TTLCache.peek (clock b) uid (cache (user_db b)) = Some p ->
        is_admin p = false ->
        message update = Some msg ->
        language p ∈ cfg_languages cfg ->
        exists b', admin_required cfg admin_users func update b = (Val tt, b')
          /\ one_reply uid (text_for p "ADMIN_PERMISSION_DENIED" []) b b'
          /\ db_same_view (clock b) (user_db b) (user_db b')).
Proof.
  intros uid. subst uid. split; [|split].
  - intros Hin. unfold admin_required, TelegramBot_is_admin.
    by rewrite bool_decide_eq_true_2.
  - intros p Hout Hp Hadm.
    destruct (is_admin_cached cfg admin_users _ b p Hp) as (d' & Hv & Hc).
    exists d'. split; [done|]. unfold admin_required.
    rewrite (bind_val _ _ _ _ _ Hc). unfold admin_by. rewrite Hadm.
    by rewrite orb_true_r.
  - intros p msg Hout Hp Hadm Hm Hl.
    destruct (is_admin_cached cfg admin_users _ b p Hp) as (d1 & Hv1 & Hc).
    pose proof (view_peek _ _ _ _ _ Hv1 Hp) as Hp1.
    destruct (reply_text_cached cfg update "ADMIN_PERMISSION_DENIED" AsIs
                (with_user_db d1 b) p msg Hm Hp1 Hl eq_refl) as (d2 & Hv2 & Hr).
    eexists. split.
    + unfold admin_required. rewrite (bind_val _ _ _ _ _ Hc). unfold admin_by.
      rewrite Hadm, bool_decide_eq_false_2 by done. cbn [orb negb]. exact Hr.
    + split; [split; [by repeat split|reflexivity]|].
      by apply (db_same_view_trans _ _ d1).
Qed.

(** X17.  A flag command ([/whitelist], [/blacklist], [/grant_admin]) of an
    admin with a cached profile, whose first argument is the id of another
    user.  For an id that fits 64 bits the admin is told of success, with
    the id and the mode, whether or not that user exists: when the user has
    a row, that row gets the flag set to the mode and every other row is
    untouched; when there is no row, no row is written at all; either way
    the target has no cache entry afterwards, and the admin's own profile
    stays cached.  For an id that does not fit, the UPDATE raises
    [OverflowError]: nothing is written and nothing is sent. *)
Theorem flag_command_reports_success_whether_or_not_the_user_exists
    (cfg : Config) (py_int : string -> option Z) (admin_users : gset Z)
    (f : flag) (update : Update) (b : Bot) (p : UserData) (msg : Message)
    (first : string) (more : list string) (target : Z) :
  let now := clock b in
  let uid := effective_user update in
  let args := first :: more in
  let mode := mode_of args in
  let r := flag_command cfg py_int admin_users f args update b in
  message update = Some msg ->
  TTLCache.peek now uid (cache (user_db b)) = Some p ->
  admin_by admin_users uid p = true ->
  language p ∈ cfg_languages cfg ->
  template_takes cfg (language p) (flag_reply f) ["user_id"; "mode"]%string = true ->
  py_int first = Some target ->
  target <> uid ->
  if fits_int64 target then
    r.1 = Val tt
    /\ rows (user_db r.2)
       = match rows (user_db b) !! target with
         | Some row => <[target := flagged_row f mode row]> (rows (user_db b))
         | None => rows (user_db b)
         end
    /\ TTLCache.contains now target (cache (user_db r.2)) = false
    /\ TTLCache.peek now uid (cache (user_db r.2)) = Some p
    /\ outbox r.2
       = outbox b
         ++ [ReplyText uid (text_for p (flag_reply f)
                              [("user_id"%string, FInt target);
                               ("mode"%string, FBool mode)])]
  else
    r.1 = Exc OverflowError
    /\ db_same_view now (user_db b) (user_db r.2)
    /\ outbox r.2 = outbox b.
Proof.
  intros now uid args mode r Hm Hp Hadm Hl Hfit Hint Hne. subst now uid args mode r.
  set (args := first :: more).
  rewrite flag_command_eq. unfold admin_required.
  destruct (is_admin_cached cfg admin_users _ b p Hp) as (d1 & Hv1 & Hc).
  rewrite (bind_val _ _ _ _ _ Hc), Hadm. cbn [negb].
  pose proof (view_peek _ _ _ _ _ Hv1 Hp) as Hp1.
  destruct (user_data_required_cached cfg
              (admin_flag_body cfg py_int f (flag_reply f) args) update
              (with_user_db d1 b) p Hp1) as (d2 & Hv2 & ->).
  pose proof (view_peek _ _ _ _ _ Hv2 Hp1) as Hp2.
  cbn [user_db with_user_db clock] in Hp2, Hv2.
  replace (with_user_db d2 (with_user_db d1 b)) with (with_user_db d2 b) by reflexivity.
  destruct (fits_int64 target) eqn:Hfits.
  - destruct (set_flag_spec f (clock b) target (mode_of args) d2)
      as (d3 & Hset & Hrows3 & Hgone & Hothers).
    assert (Hp3 : TTLCache.peek (clock (with_user_db d3 b)) (effective_user update)
                    (cache (user_db (with_user_db d3 b))) = Some p).
    { cbn [user_db with_user_db clock]. rewrite Hothers by done. exact Hp2. }
    destruct (reply_text_cached cfg update (flag_reply f)
                (Format [("user_id"%string, FInt target);
                         ("mode"%string, FBool (mode_of args))])
                (with_user_db d3 b) p msg Hm Hp3 Hl Hfit) as (d4 & Hv4 & Hr).
    assert (Hdb : db (fun now => bound target (set_flag f now target (mode_of args)))
                    (with_user_db d2 b)
                  = (Val tt, with_user_db d3 b)).
    { cbv [db zoom bound]. cbn [user_db with_user_db clock]. by rewrite Hfits, Hset. }
    unfold admin_flag_body, to_int. subst args.
    cbv [mbind M_bind bind mret M_ret ret] in Hdb, Hr |- *.
    rewrite Hint, Hdb, Hr.
    cbn [fst snd user_db with_outbox with_user_db outbox clock] in Hv4 |- *.
    destruct Hv4 as (Hrows4 & _ & _ & Hpeek4).
    split; [reflexivity|]. split; [|split; [|split; [|reflexivity]]].
    + rewrite Hrows4, Hrows3. destruct Hv2 as (-> & _). destruct Hv1 as (-> & _).
      unfold update_flag_column. apply map_eq. intros k.
      rewrite lookup_alter.
      destruct (rows (user_db b) !! target) as [row|] eqn:E.
      * rewrite lookup_insert. by case_decide.
      * case_decide as Hk; [|done]. by subst k.
    + apply contains_peek. rewrite Hpeek4. cbn [user_db with_user_db].
      by apply contains_peek.
    + rewrite Hpeek4. exact Hp3.
  - assert (Hdb : db (fun now => bound target (set_flag f now target (mode_of args)))
                    (with_user_db d2 b)
                  = (Exc OverflowError, with_user_db d2 b)).
    { cbv [db zoom bound raise]. by rewrite Hfits. }
    unfold admin_flag_body, to_int. subst args.
    cbv [mbind M_bind bind mret M_ret ret] in Hdb |- *.
    rewrite Hint, Hdb. cbn [fst snd user_db with_user_db outbox].
    split; [reflexivity|]. split; [|reflexivity].
    by apply (db_same_view_trans _ _ d1).
Qed.

Lemma flag_command_witness :
  let p := UserData_defaults cfg0 1 in
  let update := text_update 1 "/blacklist 9 OFF" in
  let r := flag_command cfg0 integer {[1]} Blacklist ["9"; "OFF"]%string update bot1 in
  r.1 = Val tt
  /\ rows (user_db r.2)
     = match rows (user_db bot1) !! 9 with
       | Some row =>
           <[9 := flagged_row Blacklist (mode_of ["9"; "OFF"]%string) row]>
             (rows (user_db bot1))
       | None => rows (user_db bot1)
       end
  /\ TTLCache.contains 0 9 (cache (user_db r.2)) = false
  /\ TTLCache.peek 0 1 (cache (user_db r.2)) = Some p
  /\ outbox r.2
     = outbox bot1
       ++ [ReplyText 1 (text_for p (flag_reply Blacklist)
                          [("user_id"%string, FInt 9);
                           ("mode"%string, FBool (mode_of ["9"; "OFF"]%string))])].
Proof.
  apply (flag_command_reports_success_whether_or_not_the_user_exists cfg0 integer {[1]}
           Blacklist (text_update 1 "/blacklist 9 OFF") bot1 (UserData_defaults cfg0 1)
           {| text := Some "/blacklist 9 OFF"%string |} "9" ["OFF"%string] 9).
  - reflexivity.
  - vm_compute. reflexivity.
  - vm_compute. reflexivity.
  - apply list_elem_of_In. simpl. auto.
  - vm_compute. reflexivity.
  - vm_compute. reflexivity.
  - discriminate.
Defined.

(** The same command for an id of twenty digits: no reply, no change. *)
Example flag_command_beyond_64_bits :
  let r := flag_command cfg0 integer {[1]} Blacklist ["18446744073709551616"%string]
             (text_update 1 "/blacklist 18446744073709551616") bot1 in
  r.1 = Exc OverflowError /\ outbox r.2 = outbox bot1
  /\ rows (user_db r.2) = rows (user_db bot1).
Proof. vm_compute. done. Qed.

(** X18.  A flag command without a first argument raises [IndexError], and
    one whose first argument is no integer raises [ValueError]; in both
    cases before anything is written: rows and cached profiles are as they
    were and nothing is sent. *)
Theorem flag_command_without_a_number_changes_nothing
    (cfg : Config) (py_int : string -> option Z) (admin_users : gset Z)
    (f : flag) (update : Update) (b : Bot) (p : UserData) (args : list string) :
  let now := clock b in
  let uid := effective_user update in
  let r := flag_command cfg py_int admin_users f args update b in
  TTLCache.peek now uid (cache (user_db b)) = Some p ->
  admin_by admin_users uid p = true ->
  (head args ≫= py_int) = None ->
  r.1 = Exc (if args is [] then IndexError else ValueError)
  /\ db_same_view now (user_db b) (user_db r.2)
  /\ outbox r.2 = outbox b.
Proof.
  intros now uid r Hp Hadm Hbad. subst now uid r.
  rewrite flag_command_eq. unfold admin_required.
  destruct (is_admin_cached cfg admin_users _ b p Hp) as (d1 & Hv1 & Hc).
  rewrite (bind_val _ _ _ _ _ Hc), Hadm. cbn [negb].
  pose proof (view_peek _ _ _ _ _ Hv1 Hp) as Hp1.
  destruct (user_data_required_cached cfg
              (admin_flag_body cfg py_int f (flag_reply f) args) update
              (with_user_db d1 b) p Hp1) as (d2 & Hv2 & ->).
  unfold admin_flag_body, to_int.
  destruct args as [|a more]; cbn [head mbind option_bind] in Hbad.
  - cbn. split; [done|]. split; [|done]. by apply (db_same_view_trans _ _ d1).
  - cbv [mbind M_bind bind mret M_ret ret raise]. rewrite Hbad.
    cbn. split; [done|]. split; [|done]. by apply (db_same_view_trans _ _ d1).
Qed.

Lemma flag_command_without_a_number_witness :
  let r := flag_command cfg0 integer {[1]} Whitelist ["nine"%string]
             (text_update 1 "/whitelist nine") bot1 in
  r.1 = Exc ValueError
  /\ db_same_view 0 (user_db bot1) (user_db r.2)
  /\ outbox r.2 = outbox bot1.
Proof.
  apply (flag_command_without_a_number_changes_nothing cfg0 integer {[1]} Whitelist
           (text_update 1 "/whitelist nine") bot1 (UserData_defaults cfg0 1)
           ["nine"%string]).
  - vm_compute. reflexivity.
  - vm_compute. reflexivity.
  - vm_compute. reflexivity.
Defined.

(** ** Broadcasts *)

Lemma for_each_send_message (delivers : Z -> bool) (text : string) (users : list Z)
    (b : Bot) (sent : list Outgoing) :
  for_each users (send_message delivers text) (b, sent)
  = (Val tt,
     (b, sent ++ ((fun u => {| chat_id := u; body := text |})
                    <$> List.filter delivers users))).
Proof.
  revert sent. induction users as [|u users IH]; intros sent.
  - cbn. by rewrite app_nil_r.
  - cbn [for_each]. cbv [mbind M_bind bind send_message modify].
    cbn [List.filter]. destruct (delivers u); cbn [fst snd].
    + cbv [mbind M_bind bind] in IH. rewrite IH. cbn [fmap list_fmap].
      by rewrite <- app_assoc.
    + cbv [mbind M_bind bind] in IH. by rewrite IH.
Qed.

Lemma last_is_Some {A} (l : list A) (x d : A) :
  last l = Some x -> List.last l d = x.
Proof.
  induction l as [|y l IH]; [done|]. destruct l as [|z l]; [by intros [= ->]|].
  intros H. cbn [List.last]. by apply IH.
Qed.

Lemma last_elem_of {A} (l : list A) (x : A) : last l = Some x -> x ∈ l.
Proof.
  induction l as [|y l IH]; [done|]. destruct l as [|z l].
  - intros [= ->]. apply list_elem_of_here.
  - intros H. apply list_elem_of_further. by apply IH.
Qed.

Lemma last_of_sorted (l : list Z) (u : Z) :
  StronglySorted Z.le l -> last l = Some u -> forall k, k ∈ l -> k <= u.
Proof.
  induction 1 as [|x l Hl IH Hx]; [done|]. intros Hlast k Hk.
  destruct l as [|y l].
  - injection Hlast as <-. apply list_elem_of_singleton in Hk. lia.
  - change (last (y :: l) = Some u) in Hlast.
    apply elem_of_cons in Hk as [->|Hk]; [|by apply IH].
    rewrite Forall_forall in Hx. apply Hx. by apply last_elem_of.
Qed.

(** X19.  [admin_broadcast] hands the words of the command, joined by
    blanks, to every user that has a row, in ascending order of the ids (a
    delivery that fails is skipped), and then confirms to the admin.  Its
    loop reuses the variable [user_id], so with at least one recipient the
    confirmation [BROADCAST_SENT] is looked up for the last recipient, the
    user with the largest id, not for the admin: it comes in the language
    of that recipient's cached profile, and when that recipient has no live
    cache entry the lookup reads the row and the command ends in
    [TypeError] after all texts have gone out. *)
Theorem broadcast_is_confirmed_in_the_language_of_the_last_recipient
    (cfg : Config) (delivers : Z -> bool) (args : list string) (update : Update)
    (b : Bot) (sent : list Outgoing) (msg : Message) (users : list Z) (u : Z) :
  let r := admin_broadcast_body cfg delivers args update (b, sent) in
  message update = Some msg ->
  get_all_users (user_db b) = (Val users, user_db b) ->
  last users = Some u ->
  StronglySorted Z.le users
  /\ (forall k, k ∈ users <-> is_Some (rows (user_db b) !! k))
  /\ is_Some (rows (user_db b) !! u)
  /\ (forall k, is_Some (rows (user_db b) !! k) -> k <= u)
  /\ r.2.2 = sent ++ broadcast_texts delivers args users
  /\ (TTLCache.contains (clock b) u (cache (user_db b)) = false ->
      r.1 = Exc TypeError /\ r.2.1 = b)
  /\ (forall q,
        TTLCache.peek (clock b) u (cache (user_db b)) = Some q ->
        language q ∈ cfg_languages cfg ->
        r.1 = Val tt
        /\ outbox r.2.1
           = outbox b ++ [ReplyText (effective_user update) (text_for q "BROADCAST_SENT" [])]).
Proof.
  intros r Hm Husers Hlast. subst r.
  destruct (get_all_users_spec (user_db b)) as (l & Hl & _ & Hin & Hsorted).
  rewrite Husers in Hl. injection Hl as <-.
  assert (Hrow : is_Some (rows (user_db b) !! u)) by (by apply Hin, last_elem_of).
  split; [exact Hsorted|]. split; [exact Hin|]. split; [exact Hrow|]. split.
  { intros k Hk. apply (last_of_sorted users u Hsorted Hlast). by apply Hin. }
  assert (Hall : on_bot (db (fun _ => get_all_users)) (b, sent) = (Val users, (b, sent))).
  { cbv [on_bot zoom db]. cbn [fst snd]. rewrite Husers. by rewrite with_user_db_id. }
  unfold admin_broadcast_body.
  rewrite (bind_val _ _ _ _ _ Hall).
  rewrite (bind_val _ _ _ _ _ (for_each_send_message delivers _ users b sent)).
  rewrite (last_is_Some _ _ _ Hlast), Hm.
  cbv [on_bot zoom]. cbn [fst snd].
  split; [|split].
  - by destruct ((loc cfg "BROADCAST_SENT" u ≫= _) b) as [x b'].
  - intros Hc. destruct Hrow as [row Hrow].
    cbv [loc mbind M_bind bind db zoom].
    rewrite (get_user_data_stored cfg _ _ _ row Hc Hrow). cbn [fst snd].
    by rewrite with_user_db_id.
  - intros q Hq Hl.
    destruct (loc_cached cfg "BROADCAST_SENT" u b q Hq Hl) as (d' & Hv & Hloc).
    rewrite (bind_val _ _ _ _ _ Hloc). cbn. done.
Qed.

(** Admin 1, whose language is English, broadcasts to users 1 and 2; the
    confirmation to the admin comes in Russian, the language of user 2. *)
Lemma broadcast_witness :
  let update := text_update 1 "/broadcast back at noon" in
  let r := admin_broadcast_body cfg0 (fun _ => true) ["back"; "at"; "noon"]%string
             update (bot1_and_2, []) in
  r.2.2 = [{| chat_id := 1; body := "back at noon" |};
           {| chat_id := 2; body := "back at noon" |}]
  /\ r.1 = Val tt
  /\ outbox r.2.1
     = outbox bot1_and_2
       ++ [ReplyText 1 {| text_language := "ru"; text_key := "BROADCAST_SENT";
                          text_args := [] |}].
Proof.
  destruct (broadcast_is_confirmed_in_the_language_of_the_last_recipient cfg0
              (fun _ => true) ["back"; "at"; "noon"]%string
              (text_update 1 "/broadcast back at noon") bot1_and_2 []
              {| text := Some "/broadcast back at noon"%string |} [1; 2] 2)
    as (_ & _ & _ & _ & Hsent & _ & Hreply);
    [reflexivity | vm_compute; reflexivity | reflexivity |].
  split; [exact Hsent|].
  apply (Hreply russian2); [vm_compute; reflexivity|].
  apply list_elem_of_In. simpl. auto.
Defined.

(** ** Accepted values of the settings dialog *)




(** X24.  [update_max_tokens], given text that [int] reads as a positive
    number, in a chat whose profile is cached (the id of the user being one
    that fits the table's 64-bit key).  A number that fits 64 bits
    is confirmed with [MAX_TOKENS_SET]; when it differs from the stored one
    it is written to the row and to the cache, when it is the stored one
    the store stays as it is.  A number that differs and does not fit is
    assigned to the cached profile and then refused by the INSERT with
    [OverflowError]: no row is written and nothing is sent, yet the cache
    shows the profile with that number. *)
Theorem accepted_token_count_is_stored_if_it_fits
    (cfg : Config) (py_int : string -> option Z) (update : Update) (b : Bot)
    (p : UserData) (v : string) (z : Z) (msg : Message) :
  let now := clock b in
  let uid := effective_user update in
  let p' := with_max_tokens z p in
  let r := update_max_tokens cfg py_int update (Some p) (Some v) b in
  message update = Some msg ->
  TTLCache.peek now uid (cache (user_db b)) = Some p ->
  user_id p = uid ->
  fits_int64 (user_id p) = true ->
  language p ∈ cfg_languages cfg ->
  template_takes cfg (language p) "MAX_TOKENS_SET" ["value"%string] = true ->
  1 <= TTLCache.maxsize (cache (user_db b)) ->
  (0 < TTLCache.ttl (cache (user_db b)))%Q ->
  py_int v = Some z ->
  0 < z ->
  if z =? max_tokens p then
    r.1 = Val tt
    /\ outbox r.2
       = outbox b ++ [ReplyText uid (text_for p "MAX_TOKENS_SET" [("value"%string, FInt z)])]
    /\ db_same_view now (user_db b) (user_db r.2)
  else if fits_int64 z then
    r.1 = Val tt
    /\ outbox r.2
       = outbox b ++ [ReplyText uid (text_for p "MAX_TOKENS_SET" [("value"%string, FInt z)])]
    /\ TTLCache.peek now uid (cache (user_db r.2)) = Some p'
    /\ rows (user_db r.2) = <[uid := written_row cfg p']> (rows (user_db b))
  else
    r.1 = Exc OverflowError
    /\ outbox r.2 = outbox b
    /\ TTLCache.peek now uid (cache (user_db r.2)) = Some p'
    /\ rows (user_db r.2) = rows (user_db b).
Proof.
  intros now uid p' r Hm Hp Hid _ Hl Hfit Hsize Httl Hv Hz. subst now uid r.
  assert (Hpos : is_positive z = true) by (by apply Z.ltb_lt).
  destruct (chosen_update_outcome cfg (fun _ => None) py_int update b p
              UserState.awaiting_max_tokens v msg Hm ltac:(done) Hp Hid Hl Hsize Httl)
    as (d' & Hout).
  cbn [overflows chosen_change chosen_reply] in Hout.
  rewrite Hv, Hpos in Hout. cbn [andb fst snd usage_args] in Hout.
  unfold template_takes in Hfit. cbn [renders fmap list_fmap fst] in Hout.
  destruct (z =? max_tokens p); cbn [negb andb] in Hout.
  - destruct Hout as (Hst & ->). rewrite Hfit.
    cbn [fst snd outbox user_db with_outbox with_user_db].
    split; [reflexivity|]. split; [reflexivity|exact Hst].
  - destruct (fits_int64 z); cbn [negb] in Hout.
    + destruct Hout as ((Hrows & Hpk) & ->). rewrite Hfit.
      cbn [fst snd outbox user_db with_outbox with_user_db].
      cbn [user_id with_max_tokens] in Hrows, Hpk. rewrite Hid in Hrows, Hpk.
      split; [reflexivity|]. split; [reflexivity|]. split; [exact Hpk|exact Hrows].
    + destruct Hout as (-> & Hrows & Hpk).
      cbn [fst snd outbox user_db with_outbox with_user_db].
      split; [reflexivity|]. split; [reflexivity|]. split; [exact Hpk|exact Hrows].
Qed.

Lemma accepted_token_count_witness :
  let p := UserData_defaults cfg0 1 in
  let r := update_max_tokens cfg0 integer (text_update 1 "128") (Some p)
             (Some "128"%string) bot1 in
  r.1 = Val tt
  /\ outbox r.2
     = outbox bot1
       ++ [ReplyText 1 (text_for p "MAX_TOKENS_SET" [("value"%string, FInt 128)])]
  /\ TTLCache.peek (clock bot1) 1 (cache (user_db r.2)) = Some (with_max_tokens 128 p)
  /\ rows (user_db r.2)
     = <[1 := written_row cfg0 (with_max_tokens 128 p)]> (rows (user_db bot1)).
Proof.
  apply (accepted_token_count_is_stored_if_it_fits cfg0 integer (text_update 1 "128")
           bot1 (UserData_defaults cfg0 1) "128" 128 {| text := Some "128"%string |}).
  - reflexivity.
  - vm_compute. reflexivity.
  - reflexivity.
  - reflexivity.
  - compute_done.
  - reflexivity.
  - vm_compute. discriminate.
  - reflexivity.
  - reflexivity.
  - reflexivity.
Defined.

(** ** The dialog states the handlers reach *)

Lemma keeps_sessions_bind {A B} (m : M Bot A) (k : A -> M Bot B) :
  keeps_sessions m -> (forall a, keeps_sessions (k a)) -> keeps_sessions (m ≫= k).
Proof.
  intros Hm Hk b. cbv [mbind M_bind bind]. specialize (Hm b).
  destruct (m b) as [[a|e|] b1]; cbn [snd] in *; [|done..].
  by rewrite Hk.
Qed.

Lemma keeps_sessions_try_except {A} (m h : M Bot A) (E : exn) :
  keeps_sessions m -> keeps_sessions h -> keeps_sessions (try_except m E h).
Proof.
  intros Hm Hh b. unfold try_except. specialize (Hm b).
  destruct (m b) as [[a|e|] b1]; cbn [snd] in *; [done| |done].
  destruct (bool_decide (e = E)); [by rewrite Hh|done].
Qed.

Lemma keeps_sessions_db {A} (m : Q -> M UserDataDB A) : keeps_sessions (db m).
Proof. intros b. by destruct (db_same_control m b) as ((_ & _ & _ & -> & _) & _). Qed.

Lemma keeps_sessions_the {A} (o : option A) : keeps_sessions (the o).
Proof. by destruct o. Qed.

Lemma keeps_sessions_reply_text (cfg : Config) (update : Update) (key : string)
    (u : usage) :
  keeps_sessions (reply_text cfg update key u).
Proof.
  intros b.
  by destruct (reply_text_same_control cfg update key u b) as (_ & _ & _ & _ & -> & _).
Qed.

Lemma keeps_sessions_edit_text (cfg : Config) (update : Update) (key : string)
    (u : usage) :
  keeps_sessions (edit_text cfg update key u).
Proof.
  intros b. by destruct (edit_text_same_control cfg update key u b) as (_ & _ & _ & -> & _).
Qed.

Lemma keeps_sessions_loc (cfg : Config) (key : string) (uid : Z) :
  keeps_sessions (loc cfg key uid).
Proof.
  intros b. by destruct (loc_same_control cfg key uid b) as (_ & (_ & _ & _ & -> & _) & _).
Qed.

Lemma keeps_sessions_set_choice (cfg : Config) (allowed : list string)
    (get : UserData -> string) (set : string -> UserData -> UserData)
    (shown : string -> fmt_arg) (ok_key bad_key : string) (update : Update)
    (choice : string) :
  keeps_sessions (set_choice cfg allowed get set shown ok_key bad_key update choice).
Proof.
  unfold set_choice. apply keeps_sessions_bind; [apply keeps_sessions_db|]. intros o.
  destruct (bool_decide _); [|apply keeps_sessions_edit_text].
  apply keeps_sessions_bind; [apply keeps_sessions_the|]. intros u.
  apply keeps_sessions_bind; [|intros; apply keeps_sessions_edit_text].
  destruct (negb _); [apply keeps_sessions_db|done].
Qed.

Lemma keeps_sessions_update_float_setting (cfg : Config)
    (py_float : string -> option pyfloat) (update : Update) (o : option UserData)
    (param : float_param) (value : option string) :
  keeps_sessions (update_float_setting cfg py_float update o param value).
Proof.
  unfold update_float_setting.
  apply keeps_sessions_try_except; [|apply keeps_sessions_reply_text].
  apply keeps_sessions_bind.
  { unfold to_float. destruct value as [s|]; [|done]. by destruct (py_float s). }
  intros v. destruct (in_unit_interval v); [|apply keeps_sessions_reply_text].
  apply keeps_sessions_bind; [apply keeps_sessions_the|]. intros u.
  apply keeps_sessions_bind; [|intros; apply keeps_sessions_reply_text].
  destruct (negb _); [apply keeps_sessions_db|done].
Qed.

Lemma keeps_sessions_update_max_tokens (cfg : Config) (py_int : string -> option Z)
    (update : Update) (o : option UserData) (value : option string) :
  keeps_sessions (update_max_tokens cfg py_int update o value).
Proof.
  unfold update_max_tokens.
  apply keeps_sessions_try_except; [|apply keeps_sessions_reply_text].
  apply keeps_sessions_bind.
  { unfold to_int. destruct value as [s|]; [|done]. by destruct (py_int s). }
  intros v. destruct (is_positive v); [|apply keeps_sessions_reply_text].
  apply keeps_sessions_bind; [apply keeps_sessions_the|]. intros u.
  apply keeps_sessions_bind; [|intros; apply keeps_sessions_reply_text].
  destruct (negb _); [|done].
  apply keeps_sessions_bind; [|intros _]; apply keeps_sessions_db.
Qed.

Lemma keeps_sessions_update_setting (cfg : Config) (update : Update)
    (o : option UserData) (value : option string) :
  keeps_sessions (update_setting cfg update o value).
Proof.
  unfold update_setting.
  apply keeps_sessions_bind; [apply keeps_sessions_the|]. intros u.
  apply keeps_sessions_bind; [|intros; apply keeps_sessions_reply_text].
  destruct (negb _); [apply keeps_sessions_db|done].
Qed.

Lemma keeps_sessions_update_model (cfg : Config) (update : Update)
    (o : option UserData) (value : option string) :
  keeps_sessions (update_model cfg update o value).
Proof.
  unfold update_model. destruct value as [v|]; [|apply keeps_sessions_reply_text].
  destruct (bool_decide _); [|apply keeps_sessions_reply_text].
  apply keeps_sessions_bind; [apply keeps_sessions_the|]. intros u.
  apply keeps_sessions_bind; [|intros; apply keeps_sessions_reply_text].
  destruct (negb _); [apply keeps_sessions_db|done].
Qed.

Lemma opens_no_model_dialog_keeps {A} (m : M Bot A) :
  keeps_sessions m -> opens_no_model_dialog m.
Proof. intros Hm b Hb uid. rewrite Hm. apply Hb. Qed.

Lemma opens_no_model_dialog_bind {A B} (m : M Bot A) (k : A -> M Bot B) :
  opens_no_model_dialog m -> (forall a, opens_no_model_dialog (k a)) ->
  opens_no_model_dialog (m ≫= k).
Proof.
  intros Hm Hk b Hb. cbv [mbind M_bind bind]. specialize (Hm b Hb).
  destruct (m b) as [[a|e|] b1]; cbn [snd] in *; [|done..].
  by apply Hk.
Qed.

Lemma opens_no_model_dialog_try_except_all {A} (m h : M Bot A) :
  opens_no_model_dialog m -> opens_no_model_dialog h ->
  opens_no_model_dialog (try_except_all m h).
Proof.
  intros Hm Hh b Hb. unfold try_except_all. specialize (Hm b Hb).
  destruct (m b) as [[a|e|] b1]; cbn [snd] in *; [done| |done].
  by apply Hh.
Qed.

(** A call on the dialog state of one user opens no model dialog when the
    call itself does not leave the state at [awaiting_model]. *)
Lemma opens_no_model_dialog_on_user_state {A} (uid : Z) (m : M UserState.state A) :
  (forall s, s <> UserState.awaiting_model -> (m s).2 <> UserState.awaiting_model) ->
  opens_no_model_dialog (on_user_state uid m).
Proof.
  intros Hm b Hb v. unfold on_user_state.
  destruct (sessions b !! uid) as [s|] eqn:Hs; [|apply Hb].
  specialize (Hm s). destruct (m s) as [r s']. cbn [snd sessions with_sessions] in *.
  destruct (decide (v = uid)) as [->|Hv].
  - rewrite lookup_insert_eq. intros [= ->]. apply Hm; [|done].
    intros ->. by apply (Hb uid).
  - rewrite lookup_insert_ne by done. apply Hb.
Qed.

Lemma fire_opens_no_model_dialog (t : UserState.trigger) (s : UserState.state) :
  t <> UserState.set_model ->
  t <> UserState.to_ UserState.awaiting_model ->
  s <> UserState.awaiting_model ->
  (UserState.fire t s).2 <> UserState.awaiting_model.
Proof.
  intros Ht Ht' Hs. destruct t as [| | | | | |[]], s; try done.
Qed.

Lemma reset_state_opens_no_model_dialog (uid : Z) :
  opens_no_model_dialog (reset_state uid).
Proof.
  intros b Hb v. cbv [reset_state modify]. cbn [snd sessions with_sessions].
  intros H. apply lookup_delete_Some in H as [_ H]. by apply (Hb v).
Qed.

Lemma handle_setting_update_opens_no_model_dialog (cfg : Config)
    (py_float : string -> option pyfloat) (py_int : string -> option Z)
    (update : Update) (o : option UserData) :
  opens_no_model_dialog (handle_setting_update cfg py_float py_int update o).
Proof.
  unfold handle_setting_update.
  apply opens_no_model_dialog_bind.
  { by apply opens_no_model_dialog_on_user_state. }
  intros state. apply opens_no_model_dialog_bind.
  { apply opens_no_model_dialog_keeps, keeps_sessions_the. }
  intros msg. apply opens_no_model_dialog_bind.
  { apply opens_no_model_dialog_keeps. destruct state; try done.
    - apply keeps_sessions_update_model.
    - apply keeps_sessions_update_setting.
    - apply keeps_sessions_update_float_setting.
    - apply keeps_sessions_update_float_setting.
    - apply keeps_sessions_update_max_tokens. }
  intros _. apply opens_no_model_dialog_bind; [|by intros _ b1 Hb1].
  apply opens_no_model_dialog_on_user_state. intros s.
  by apply fire_opens_no_model_dialog.
Qed.

Lemma button_body_opens_no_model_dialog (cfg : Config) (update : Update) :
  opens_no_model_dialog (button_body cfg update).
Proof.
  unfold button_body. apply opens_no_model_dialog_bind.
  { apply opens_no_model_dialog_keeps, keeps_sessions_the. }
  intros query.
  assert (Hnew : opens_no_model_dialog
            (modify (fun b : Bot =>
               match sessions b !! effective_user update with
               | Some _ => b
               | None =>
                   with_sessions
                     (<[effective_user update := UserState.init]> (sessions b)) b
               end))).
  { intros b Hb v. unfold modify. cbn [snd].
    destruct (sessions b !! effective_user update) eqn:Hs; [apply Hb|].
    cbn [sessions with_sessions]. destruct (decide (v = effective_user update)) as [->|Hv].
    - by rewrite lookup_insert_eq.
    - rewrite lookup_insert_ne by done. apply Hb. }
  destruct query as [|lang|name| |name|p].
  - apply opens_no_model_dialog_bind; [apply reset_state_opens_no_model_dialog|].
    intros _. apply opens_no_model_dialog_keeps, keeps_sessions_edit_text.
  - apply opens_no_model_dialog_bind; [exact Hnew|]. intros _.
    apply opens_no_model_dialog_keeps, keeps_sessions_set_choice.
  - apply opens_no_model_dialog_bind; [exact Hnew|]. intros _.
    apply opens_no_model_dialog_keeps, keeps_sessions_set_choice.
  - apply opens_no_model_dialog_bind; [exact Hnew|]. intros _.
    apply opens_no_model_dialog_keeps. unfold show_model_options.
    apply keeps_sessions_bind; [apply keeps_sessions_loc|].
    intros _. apply keeps_sessions_edit_text.
  - apply opens_no_model_dialog_bind; [exact Hnew|]. intros _.
    apply opens_no_model_dialog_keeps, keeps_sessions_set_choice.
  - apply opens_no_model_dialog_bind; [exact Hnew|]. intros _.
    apply opens_no_model_dialog_bind.
    { apply opens_no_model_dialog_on_user_state. intros s.
      apply fire_opens_no_model_dialog; by destruct p. }
    intros _. apply opens_no_model_dialog_bind.
    { by apply opens_no_model_dialog_on_user_state. }
    intros state. destruct (state_messages state) as [key|]; [|by intros b1 Hb1].
    apply opens_no_model_dialog_keeps.
    apply keeps_sessions_bind; [|by intros _ b1].
    unfold query_reply_text.
    apply keeps_sessions_bind; [apply keeps_sessions_loc|by intros t b1].
Qed.

Lemma handle_message_body_opens_no_model_dialog (cfg : Config)
    (py_float : string -> option pyfloat) (py_int : string -> option Z)
    (update : Update) :
  opens_no_model_dialog (handle_message_body cfg py_float py_int update).
Proof.
  unfold handle_message_body.
  apply opens_no_model_dialog_bind.
  { apply opens_no_model_dialog_keeps, keeps_sessions_db. }
  intros o. apply opens_no_model_dialog_bind.
  { apply opens_no_model_dialog_keeps. intros b. cbv [on_global_limiter zoom].
    by destruct (AsyncLimiter.acquire _ _). }
  intros _. apply opens_no_model_dialog_try_except_all.
  - apply opens_no_model_dialog_bind; [by intros b1 Hb1|]. intros dialog.
    destruct dialog; [apply handle_setting_update_opens_no_model_dialog|].
    apply opens_no_model_dialog_keeps.
    apply keeps_sessions_bind; [by intros b1|]. intros _.
    apply keeps_sessions_bind; [apply keeps_sessions_the|by intros _ b1].
  - apply opens_no_model_dialog_keeps, keeps_sessions_reply_text.
Qed.

(** X25. [button], [handle_message] and [reset_state], the three functions
    that touch the dialog state, open no model dialog: when no user is in
    state [awaiting_model] before one of them runs, none is afterwards.  The
    button [set_model] shows the list of models and fires no trigger, so the
    branch of [handle_setting_update] that reads a model name from a text
    message is not reached from the keyboards. *)
Theorem keyboards_never_open_the_model_dialog
    (cfg : Config) (py_float : string -> option pyfloat) (py_int : string -> option Z)
    (update : Update) (b : Bot) :
  no_model_dialog b ->
  no_model_dialog (button_body cfg update b).2
  /\ no_model_dialog (handle_message_body cfg py_float py_int update b).2
  /\ no_model_dialog (reset_state (effective_user update) b).2.
Proof.
  intros Hb. split; [by apply button_body_opens_no_model_dialog|].
  split; [by apply handle_message_body_opens_no_model_dialog|].
  by apply reset_state_opens_no_model_dialog.
Qed.

Lemma keyboards_never_open_the_model_dialog_witness :
  no_model_dialog (button_body cfg0 (press 1 (CbSet Temperature)) bot1).2
  /\ no_model_dialog
       (handle_message_body cfg0 decimal integer (press 1 (CbSet Temperature)) bot1).2
  /\ no_model_dialog (reset_state (effective_user (press 1 (CbSet Temperature))) bot1).2.
Proof.
  apply (keyboards_never_open_the_model_dialog cfg0 decimal integer
           (press 1 (CbSet Temperature)) bot1).
  intros uid. vm_compute. discriminate.
Defined.

(** * Further properties of the rate limit *)

Lemma reply_text_runs (cfg : Config) (update : Update) (key : string) (u : usage)
    (b : Bot) :
  runs (reply_text cfg update key u b).2 = runs b.
Proof.
  unfold reply_text. destruct (message update) as [msg|]; [|done].
  destruct (loc_same_control cfg key (effective_user update) b) as (_ & _ & Ho).
  cbv [mbind M_bind bind send modify].
  destruct (loc cfg key (effective_user update) b) as [[t|e|] b1];
    cbn [snd] in Ho |- *; try (unfold runs; by rewrite Ho).
  rewrite render_cases. destruct (renders _ _ _ _); cbn [snd];
    unfold runs; cbn [outbox with_outbox]; rewrite ?Ho; [|done].
  rewrite List.filter_app. cbn. by rewrite app_nil_r.
Qed.

Lemma available_leak (now : Q) (l : AsyncLimiter.t) :
  (AsyncLimiter.available now (AsyncLimiter.leak now l) == AsyncLimiter.available now l)%Q.
Proof.
  unfold AsyncLimiter.available.
  replace (AsyncLimiter.max_rate (AsyncLimiter.leak now l))
    with (AsyncLimiter.max_rate l) by reflexivity.
  by rewrite leak_again.
Qed.

Lemma available_entered (now : Q) (l : AsyncLimiter.t) :
  capacity now l = true ->
  (AsyncLimiter.available now (entered now l) == AsyncLimiter.available now l - 1)%Q.
Proof.
  intros Hcap. destruct (acquire_entered now l Hcap) as (Hlvl & _).
  unfold AsyncLimiter.available.
  replace (AsyncLimiter.max_rate (entered now l))
    with (AsyncLimiter.max_rate l) by reflexivity.
  rewrite Hlvl. ring.
Qed.

(** One request through [rate_limit] around the probe: either it is
    refused and both scopes keep their permits, or the probe runs once and
    each scope has one permit less. *)
Lemma rate_limit_probe (cfg : Config) (update : Update) (b : Bot) :
  let now := clock b in
  let uid := effective_user update in
  let b1 := (rate_limit cfg probe update b).2 in
  clock b1 = now
  /\ ((runs b1 = runs b
       /\ (AsyncLimiter.available now (global_limiter b1)
           == AsyncLimiter.available now (global_limiter b))%Q
       /\ (AsyncLimiter.available now (user_limiter_of cfg uid b1)
           == AsyncLimiter.available now (user_limiter_of cfg uid b))%Q)
      \/ (runs b1 = S (runs b)
          /\ (1 <= AsyncLimiter.available now (global_limiter b))%Q
          /\ (1 <= AsyncLimiter.available now (user_limiter_of cfg uid b))%Q
          /\ (AsyncLimiter.available now (global_limiter b1)
              == AsyncLimiter.available now (global_limiter b) - 1)%Q
          /\ (AsyncLimiter.available now (user_limiter_of cfg uid b1)
              == AsyncLimiter.available now (user_limiter_of cfg uid b) - 1)%Q)).
Proof.
  intros now uid b1. subst now uid b1.
  destruct (capacity (clock b) (global_limiter b)) eqn:Hg.
  - destruct (capacity (clock b) (user_limiter_of cfg (effective_user update) b)) eqn:Hu.
    + rewrite rate_limit_admitted by done. split; [done|]. right.
      split.
      { unfold runs, probe, send, modify, admitted. cbn [snd outbox with_outbox
          with_user_limiters with_global_limiter].
        rewrite List.filter_app, length_app. cbn. lia. }
      split; [by apply capacity_available|]. split; [by apply capacity_available|].
      split; [by apply available_entered|].
      unfold probe, send, modify, admitted, user_limiter_of.
      cbn [snd user_limiters with_outbox with_user_limiters with_global_limiter].
      rewrite lookup_insert_eq. cbn [default]. by apply available_entered.
    + rewrite rate_limit_no_user by done.
      set (B := user_checked cfg (effective_user update) (global_checked b)).
      destruct (reply_text_same_control cfg update "NO_USER_CAPACITY" AsIs B)
        as (_ & Hc & Hgl & Hul & _).
      split; [by rewrite Hc|]. left.
      split; [by rewrite reply_text_runs|].
      split; [rewrite Hgl; apply available_leak|].
      unfold user_limiter_of at 1. rewrite Hul. subst B. unfold user_checked.
      cbn [user_limiters with_user_limiters global_checked with_global_limiter clock].
      rewrite lookup_insert_eq. cbn [default]. apply available_leak.
  - rewrite rate_limit_no_global by done.
    destruct (reply_text_same_control cfg update "NO_GLOBAL_CAPACITY" AsIs
                (global_checked b)) as (_ & Hc & Hgl & Hul & _).
    split; [by rewrite Hc|]. left.
    split; [by rewrite reply_text_runs|].
    split; [rewrite Hgl; apply available_leak|].
    unfold user_limiter_of. by rewrite Hul.
Qed.

(** X20.  [rate_limit] never lets more requests through than there are
    permits.  Of [n] requests that one user sends at one instant, the
    handler runs for some number [k] of them, and unless [k] is zero, [k] is
    at most the number of global permits and at most the number of that
    user's permits that were available when the burst began. *)
Theorem burst_admits_no_more_than_the_permits_available
    (cfg : Config) (n : nat) (update : Update) (b : Bot) :
  let now := clock b in
  let uid := effective_user update in
  exists k,
    runs (burst cfg n update b) = (runs b + k)%nat
    /\ (k <= n)%nat
    /\ (k = 0%nat
        \/ (inject_Z (Z.of_nat k) <= AsyncLimiter.available now (global_limiter b)
            /\ inject_Z (Z.of_nat k)
               <= AsyncLimiter.available now (user_limiter_of cfg uid b))%Q).
Proof.
  intros now uid. subst now uid. revert b.
  induction n as [|n IH]; intros b.
  { exists 0%nat. cbn. split; [lia|]. split; [lia|]. by left. }
  cbn [burst].
  destruct (rate_limit_probe cfg update b) as (Hc & Hcase).
  destruct (IH (rate_limit cfg probe update b).2) as (k & Hruns & Hkn & Hk).
  rewrite Hc in Hk.
  destruct Hcase as [(Hr & Hag & Hau)|(Hr & H1g & H1u & Hag & Hau)].
  - exists k. split; [by rewrite Hruns, Hr|]. split; [lia|].
    destruct Hk as [->|[Hkg Hku]]; [by left|right].
    rewrite Hag in Hkg. rewrite Hau in Hku. done.
  - exists (S k). split; [rewrite Hruns, Hr; lia|]. split; [lia|]. right.
    rewrite Nat2Z.inj_succ. unfold Z.succ. rewrite inject_Z_plus.
    assert (H1 : (inject_Z 1 == 1)%Q) by reflexivity.
    destruct Hk as [->|[Hkg Hku]].
    + assert (H0 : (inject_Z (Z.of_nat 0) == 0)%Q) by reflexivity. split; lra.
    + rewrite Hag in Hkg. rewrite Hau in Hku. split; lra.
Qed.

(** In a burst of four requests of user 1 on [bot1], whose user scope
    allows one request per ten seconds, the handler runs once. *)
Example burst_of_four :
  runs (burst cfg0 4 (text_update 1 "hi") bot1) = 1%nat.
Proof. vm_compute. reflexivity. Qed.

Lemma user_limiter_of_admitted (cfg : Config) (uid : Z) (b : Bot) :
  user_limiter_of cfg uid (admitted cfg uid b)
  = entered (clock b) (user_limiter_of cfg uid b).
Proof.
  unfold admitted, user_limiter_of at 1.
  cbn [user_limiters with_user_limiters with_global_limiter].
  by rewrite lookup_insert_eq.
Qed.

Lemma rested_level (now : Q) (l : AsyncLimiter.t) :
  rested now l -> (AsyncLimiter.level (AsyncLimiter.leak now l) == 0)%Q.
Proof.
  intros (Hmax & Hper & Hlvl & Hidle).
  pose proof (leak_level_nonneg now l) as Hnn.
  assert (Hz : (AsyncLimiter.level (AsyncLimiter.leak now l) <= 0)%Q); [|lra].
  unfold AsyncLimiter.leak. cbn [AsyncLimiter.level].
  destruct (Qeq_bool (AsyncLimiter.level l) 0) eqn:E.
  - apply Qeq_bool_iff in E. rewrite E. lra.
  - apply Q.max_lub; [|lra]. unfold AsyncLimiter.rate_per_sec.
    assert (Hrate : (AsyncLimiter.max_rate l
                     <= (now - AsyncLimiter.last_check l)
                        * (AsyncLimiter.max_rate l / AsyncLimiter.time_period l))%Q).
    { assert (Hpos : (0 <= AsyncLimiter.max_rate l / AsyncLimiter.time_period l)%Q).
      { apply Qle_shift_div_l; [done|]. lra. }
      assert (Heq : (AsyncLimiter.max_rate l
                     == AsyncLimiter.time_period l
                        * (AsyncLimiter.max_rate l / AsyncLimiter.time_period l))%Q).
      { field. lra. }
      rewrite Heq at 1. apply Qmult_le_compat_r; [lra|done]. }
    lra.
Qed.

Lemma rested_capacity (now : Q) (l : AsyncLimiter.t) :
  rested now l -> capacity now l = true.
Proof.
  intros H. pose proof (rested_level now l H) as Hz. destruct H as (Hmax & _).
  unfold capacity. apply Qle_bool_iff. lra.
Qed.

(** X21.  The rate limit is not permanent.  When the global limiter and
    the user's limiter each allow at least one request per time frame, hold
    no more than their maximum, and were last looked at a full time frame
    ago or longer, the next request passes both checks whatever happened
    before: the handler runs, and each scope then counts exactly this one
    request. *)
Theorem rate_limit_admits_after_an_idle_time_frame
    (cfg : Config) (func : Handler) (update : Update) (b : Bot) :
  let now := clock b in
  let uid := effective_user update in
  rested now (global_limiter b) ->
  rested now (user_limiter_of cfg uid b) ->
  rate_limit cfg func update b = func update (admitted cfg uid b)
  /\ (AsyncLimiter.level (global_limiter (admitted cfg uid b)) == 1)%Q
  /\ (AsyncLimiter.level (user_limiter_of cfg uid (admitted cfg uid b)) == 1)%Q.
Proof.
  intros now uid Hg Hu. subst now uid.
  split; [apply rate_limit_admitted; by apply rested_capacity|].
  rewrite user_limiter_of_admitted.
  replace (global_limiter (admitted cfg (effective_user update) b))
    with (entered (clock b) (global_limiter b)) by reflexivity.
  pose proof (entered_level (clock b) (global_limiter b)) as H1.
  pose proof (entered_level (clock b) (user_limiter_of cfg (effective_user update) b)) as H2.
  pose proof (rested_level _ _ Hg) as H3.
  pose proof (rested_level _ _ Hu) as H4.
  split; lra.
Qed.

Lemma rate_limit_after_idle_witness :
  let b := with_clock 10 bot1_user_full in
  rate_limit cfg0 noop (text_update 1 "hi") b
  = noop (text_update 1 "hi") (admitted cfg0 1 b)
  /\ (AsyncLimiter.level (global_limiter (admitted cfg0 1 b)) == 1)%Q
  /\ (AsyncLimiter.level (user_limiter_of cfg0 1 (admitted cfg0 1 b)) == 1)%Q.
Proof.
  apply (rate_limit_admits_after_an_idle_time_frame cfg0 noop (text_update 1 "hi")
           (with_clock 10 bot1_user_full)).
  - vm_compute. repeat split; discriminate.
  - vm_compute. repeat split; discriminate.
Defined.

(** X22.  The user scope is per user: a request of one user, admitted or
    refused, leaves the limiter of every other user exactly as it was (as
    long as the handler itself does), so one user's traffic uses up only the
    shared global permits of another. *)
Theorem rate_limit_leaves_the_limiters_of_other_users
    (cfg : Config) (func : Handler) (update : Update) (b : Bot) (other : Z) :
  other <> effective_user update ->
  (forall b1, user_limiters (func update b1).2 !! other = user_limiters b1 !! other) ->
  user_limiters (rate_limit cfg func update b).2 !! other = user_limiters b !! other.
Proof.
  intros Hne Hfunc.
  destruct (capacity (clock b) (global_limiter b)) eqn:Hg.
  - destruct (capacity (clock b) (user_limiter_of cfg (effective_user update) b)) eqn:Hu.
    + rewrite rate_limit_admitted by done. rewrite Hfunc. unfold admitted.
      cbn [user_limiters with_user_limiters with_global_limiter].
      by rewrite lookup_insert_ne.
    + rewrite rate_limit_no_user by done.
      destruct (reply_text_same_control cfg update "NO_USER_CAPACITY" AsIs
                  (user_checked cfg (effective_user update) (global_checked b)))
        as (_ & _ & _ & Hul & _).
      rewrite Hul. unfold user_checked.
      cbn [user_limiters with_user_limiters global_checked with_global_limiter].
      by rewrite lookup_insert_ne.
  - rewrite rate_limit_no_global by done.
    destruct (reply_text_same_control cfg update "NO_GLOBAL_CAPACITY" AsIs
                (global_checked b)) as (_ & _ & _ & Hul & _).
    by rewrite Hul.
Qed.

Lemma rate_limit_other_users_witness :
  user_limiters (rate_limit cfg0 noop (text_update 2 "hi") bot1_user_full).2 !! 1
  = user_limiters bot1_user_full !! 1.
Proof.
  apply (rate_limit_leaves_the_limiters_of_other_users cfg0 noop (text_update 2 "hi")
           bot1_user_full 1).
  - discriminate.
  - reflexivity.
Defined.
